(** * fastf1.events: event schedules, events and session identifiers

    A shallow embedding of [fastf1/events.py].  Python values are an inductive
    type, exceptions are an explicit error result, a [pandas.Series] is a
    labelled list of values and a [pandas.DataFrame] a list of labelled
    columns.  Strings are strings of ASCII characters: on them
    [str.casefold] lower-cases [A-Z] and [str.upper] upper-cases [a-z].
    Floats are IEEE binary64 numbers ([spec_float] with precision 53). *)

From Stdlib Require Import ZArith List String Ascii Bool Lia.
From Stdlib Require Import Floats.SpecFloat.
From Stdlib Require Import DecimalString.
From Stdlib Require DecimalPos DecimalZ.
Import ListNotations.

Open Scope string_scope.
Open Scope Z_scope.

(** ** Python values, exceptions and results *)

Inductive value : Type :=
| VInt (z : Z)
| VFloat (f : spec_float)
| VStr (s : string)
| VBool (b : bool)
| VTimestamp (ns : Z)
| VNaT
| VNone.

(** The message templates of the [ValueError]s raised in the module; the
    interpolated object is kept as it is, not formatted. *)
Inductive message : Type :=
| Invalid_session_type (shown : value)
| No_session_of_type (identifier : value)
| Session_number_does_not_exist (num : Z)
| Session_type_does_not_exist (identifier : value)
| Cannot_get_testing_event_by_round
| Test_event_does_not_exist (test_number : Z)
| Invalid_round (round : value)
| Could_not_convert (what : value).

Inductive exn : Type :=
| ValueError (m : message)
| ParserError
| KeyError (key : value)
| IndexError
| OverflowError
| TypeError
| AttributeError
| OtherError (tag : string).

Inductive result (A : Type) : Type :=
| Ok (a : A)
| Raise (e : exn).

Arguments Ok {A} a.
Arguments Raise {A} e.

Definition bind {A B : Type} (r : result A) (k : A -> result B) : result B :=
  match r with
  | Ok a => k a
  | Raise e => Raise e
  end.

Notation "x <- r ;; k" := (bind r (fun x => k))
  (at level 61, r at next level, right associativity).

Fixpoint mapM {A B : Type} (f : A -> result B) (l : list A) : result (list B) :=
  match l with
  | [] => Ok []
  | a :: l' => b <- f a ;; bs <- mapM f l' ;; Ok (b :: bs)
  end.

(** ** Strings *)

Definition ascii_between (lo hi : N) (c : ascii) : bool :=
  (N.leb lo (N_of_ascii c) && N.leb (N_of_ascii c) hi)%bool.

Definition is_upper_ascii : ascii -> bool := ascii_between 65 90.
Definition is_lower_ascii : ascii -> bool := ascii_between 97 122.
Definition is_digit : ascii -> bool := ascii_between 48 57.

(** C's [isspace] in the C locale (CPython's [Py_ISSPACE]). *)
Definition is_space (c : ascii) : bool :=
  (ascii_between 9 13 c || N.eqb (N_of_ascii c) 32)%bool.

Definition lower_ascii (c : ascii) : ascii :=
  if is_upper_ascii c then ascii_of_N (N_of_ascii c + 32) else c.

Definition upper_ascii (c : ascii) : ascii :=
  if is_lower_ascii c then ascii_of_N (N_of_ascii c - 32) else c.

Fixpoint map_string (f : ascii -> ascii) (s : string) : string :=
  match s with
  | EmptyString => EmptyString
  | String c s' => String (f c) (map_string f s')
  end.

(** [str.casefold] and [str.upper]. *)
Definition casefold : string -> string := map_string lower_ascii.
Definition upper : string -> string := map_string upper_ascii.

Fixpoint lstrip (s : string) : string :=
  match s with
  | String c s' => if is_space c then lstrip s' else s
  | EmptyString => EmptyString
  end.

Fixpoint rstrip (s : string) : string :=
  match s with
  | EmptyString => EmptyString
  | String c s' =>
      match rstrip s' with
      | EmptyString => if is_space c then EmptyString else String c EmptyString
      | t => String c t
      end
  end.

Definition strip (s : string) : string := rstrip (lstrip s).

(** [str.replace old new] for a non-empty [old]: every occurrence, left to
    right, without overlap.  [skip] counts the characters of an occurrence
    that are still to be dropped. *)
Fixpoint replace_from (old new : string) (skip : nat) (s : string) : string :=
  match s with
  | EmptyString => EmptyString
  | String c s' =>
      match skip with
      | S k => replace_from old new k s'
      | O =>
          if prefix old s
          then new ++ replace_from old new (Nat.pred (String.length old)) s'
          else String c (replace_from old new O s')
      end
  end.

Definition replace (old new s : string) : string := replace_from old new O s.

(** [str(n)] of an integer. *)
Definition str_of_Z (z : Z) : string := NilZero.string_of_int (Z.to_int z).

(** ** Numbers: [float(...)], [int(...)], [float.is_integer] *)

Definition prec : Z := 53.
Definition emax : Z := 1024.

Definition float_of_Z (z : Z) : spec_float := binary_normalize prec emax z 0 false.

(** The value [(-1)^neg * m * 10^e10] rounded to the nearest float, ties to even. *)
Definition float_of_decimal (neg : bool) (m : Z) (e10 : Z) : spec_float :=
  match m with
  | Zpos p =>
      if 0 <=? e10
      then binary_normalize prec emax (cond_Zopp neg (m * 10 ^ e10)) 0 false
      else SFdiv prec emax (S754_finite neg p 0)
                 (S754_finite false (Z.to_pos (10 ^ (- e10))) 0)
  | _ => S754_zero neg
  end.

(** [float.is_integer()]. *)
Definition is_integer (f : spec_float) : bool :=
  match f with
  | S754_zero _ => true
  | S754_finite _ m e =>
      if 0 <=? e then true else (Zpos m mod 2 ^ (- e)) =? 0
  | S754_infinity _ | S754_nan => false
  end.

(** [int(f)] of a float: truncation towards zero. *)
Definition int_of_float (f : spec_float) : result Z :=
  match f with
  | S754_zero _ => Ok 0
  | S754_finite s m e =>
      Ok (cond_Zopp s (if 0 <=? e then Zpos m * 2 ^ e else Zpos m / 2 ^ (- e)))
  | S754_infinity _ => Raise OverflowError
  | S754_nan => Raise (ValueError (Could_not_convert (VFloat f)))
  end.

Definition digit_value (c : ascii) : Z := Z.of_N (N_of_ascii c) - 48.

Fixpoint span_digits (s : string) : string * string :=
  match s with
  | String c s' =>
      if is_digit c
      then let '(d, r) := span_digits s' in (String c d, r)
      else (EmptyString, s)
  | EmptyString => (EmptyString, EmptyString)
  end.

Fixpoint digits_value (acc : Z) (s : string) : Z :=
  match s with
  | String c s' => digits_value (10 * acc + digit_value c) s'
  | EmptyString => acc
  end.

(** CPython removes the underscores of a numeric literal before parsing it:
    an underscore must stand between two digits.  [prev] is the previous
    character. *)
Fixpoint drop_underscores (prev : ascii) (s : string) : option string :=
  match s with
  | EmptyString => if Ascii.eqb prev "_" then None else Some EmptyString
  | String c s' =>
      if Ascii.eqb c "_"
      then if is_digit prev then drop_underscores c s' else None
      else if (Ascii.eqb prev "_" && negb (is_digit c))%bool then None
           else option_map (String c) (drop_underscores c s')
  end.

Definition take_sign (s : string) : bool * string :=
  match s with
  | String "-" s' => (true, s')
  | String "+" s' => (false, s')
  | _ => (false, s)
  end.

(** The exponent part [e[+-]digits] of a float literal, when the rest of the
    string is one. *)
Definition parse_exponent (s : string) : option Z :=
  match s with
  | EmptyString => Some 0
  | String c s' =>
      if Ascii.eqb (lower_ascii c) "e"
      then let '(neg, t) := take_sign s' in
           match span_digits t with
           | (String d ds, EmptyString) => Some (cond_Zopp neg (digits_value 0 (String d ds)))
           | _ => None
           end
      else None
  end.

(** A stripped float literal: sign, then [inf], [infinity], [nan] in any
    case, or digits with an optional point and exponent. *)
Definition parse_float_literal (s : string) : option spec_float :=
  let '(neg, body) := take_sign s in
  let word := casefold body in
  if (word =? "inf")%string || (word =? "infinity")%string then Some (S754_infinity neg)
  else if (word =? "nan")%string then Some S754_nan
  else
    let '(ip, r1) := span_digits body in
    let '(fp, r2) :=
      match r1 with
      | String "." r => span_digits r
      | _ => (EmptyString, r1)
      end in
    match (ip ++ fp)%string with
    | EmptyString => None
    | ds =>
        match parse_exponent r2 with
        | Some e => Some (float_of_decimal neg (digits_value 0 ds)
                                           (e - Z.of_nat (String.length fp)))
        | None => None
        end
    end.

(** [float(s)] of a string; [None] is Python's [ValueError]. *)
Definition float_of_string (s : string) : option spec_float :=
  match drop_underscores " " s with
  | Some t => parse_float_literal (strip t)
  | None => None
  end.

(** [int(s)] of a string in base 10; [None] is Python's [ValueError]. *)
Definition int_of_string (s : string) : option Z :=
  match drop_underscores " " s with
  | Some t =>
      let '(neg, body) := take_sign (strip t) in
      match span_digits body with
      | (String d ds, EmptyString) => Some (cond_Zopp neg (digits_value 0 (String d ds)))
      | _ => None
      end
  | None => None
  end.

(** [float(x)]. *)
Definition py_float (x : value) : result spec_float :=
  match x with
  | VInt z =>
      match float_of_Z z with
      | S754_infinity _ => Raise OverflowError
      | f => Ok f
      end
  | VFloat f => Ok f
  | VBool b => Ok (float_of_Z (if b then 1 else 0))
  | VStr s =>
      match float_of_string s with
      | Some f => Ok f
      | None => Raise (ValueError (Could_not_convert x))
      end
  | VTimestamp _ | VNaT | VNone => Raise TypeError
  end.

(** ** Python equality, truth value and membership *)

Definition int_view (v : value) : option Z :=
  match v with
  | VInt z => Some z
  | VBool b => Some (if b then 1 else 0)
  | _ => None
  end.

Definition float_is_int (f : spec_float) (z : Z) : bool :=
  (is_integer f &&
   match int_of_float f with
   | Ok y => y =? z
   | Raise _ => false
   end)%bool.

(** [a == b]. *)
Definition py_eqb (a b : value) : bool :=
  match a, b with
  | VStr s, VStr t => (s =? t)%string
  | VFloat f, VFloat g => SFeqb f g
  | VFloat f, _ =>
      match int_view b with
      | Some z => float_is_int f z
      | None => false
      end
  | _, VFloat g =>
      match int_view a with
      | Some z => float_is_int g z
      | None => false
      end
  | VTimestamp x, VTimestamp y => x =? y
  | VNone, VNone => true
  | _, _ =>
      match int_view a, int_view b with
      | Some x, Some y => x =? y
      | _, _ => false
      end
  end.

(** [bool(v)]. *)
Definition truthy (v : value) : bool :=
  match v with
  | VInt z => negb (z =? 0)
  | VFloat (S754_zero _) => false
  | VFloat _ => true
  | VStr s => negb (s =? "")%string
  | VBool b => b
  | VTimestamp _ | VNaT => true
  | VNone => false
  end.

(** [x in arr] for a numpy array of objects: [(arr == x).any()]. *)
Definition contains (x : value) (arr : list value) : bool :=
  existsb (fun v => py_eqb v x) arr.

Fixpoint lookup {A : Type} (k : string) (l : list (string * A)) : option A :=
  match l with
  | [] => None
  | (k', a) :: l' => if (k' =? k)%string then Some a else lookup k l'
  end.

(** ** The schedule schema *)

Inductive dtype : Type := Int64 | Str | Datetime64 | Bool_.

Definition _COLS_TYPES : list (string * dtype) :=
  [ ("round_number", Int64);
    ("country", Str);
    ("location", Str);
    ("official_event_name", Str);
    ("event_date", Datetime64);
    ("event_name", Str);
    ("event_format", Str);
    ("session1", Str);
    ("session1_date", Datetime64);
    ("session2", Str);
    ("session2_date", Datetime64);
    ("session3", Str);
    ("session3_date", Datetime64);
    ("session4", Str);
    ("session4_date", Datetime64);
    ("session5", Str);
    ("session5_date", Datetime64);
    ("f1_api_support", Bool_) ].

Definition has_dtype (t : dtype) (v : value) : bool :=
  match t, v with
  | Int64, VInt z => (- 2 ^ 63 <=? z) && (z <? 2 ^ 63)
  | Str, VStr _ => true
  | Datetime64, (VTimestamp _ | VNaT) => true
  | Bool_, VBool _ => true
  | _, _ => false
  end.

(** ** Event: one row of the schedule, a [pandas.Series] with a year *)

Record Event : Type := {
  ev_year : Z;
  items : list (string * value)
}.

(** [self.values]: every value of the row, in column order. *)
Definition values (self : Event) : list value := map snd (items self).

(** [self[key]]. *)
Definition getitem (self : Event) (key : string) : result value :=
  match lookup key (items self) with
  | Some v => Ok v
  | None => Raise (KeyError (VStr key))
  end.

Fixpoint row_has_schema (schema : list (string * dtype))
                        (row : list (string * value)) : bool :=
  match schema, row with
  | [], [] => true
  | (c, t) :: schema', (k, v) :: row' =>
      (c =? k)%string && has_dtype t v && row_has_schema schema' row'
  | _, _ => false
  end.

(** The rows of a constructed [EventSchedule]: the eighteen columns, each
    value of its declared type. *)
Definition event_ok (ev : Event) : bool := row_has_schema _COLS_TYPES (items ev).

Definition _SESSION_TYPE_ABBREVIATIONS : list (string * string) :=
  [ ("R", "Race");
    ("Q", "Qualifying");
    ("SQ", "Sprint Qualifying");
    ("FP1", "Practice 1");
    ("FP2", "Practice 2");
    ("FP3", "Practice 3") ].

(** Modelled from the spec: the session handle of [fastf1.core] is not part
    of this module; the handle is the pair of arguments it is constructed
    from, the event and the resolved session name. *)
Record Session : Type := {
  event : Event;
  session_name : value
}.

(** The methods of [Event]. *)
Module Event.

Definition session_key (num : Z) : string := "session" ++ str_of_Z num.

(** The [else] branch of [get_session_name] and of [get_session]: the
    identifier converted to the float [num]. *)
Definition session_by_number (self : Event) (num : spec_float) : result value :=
  if is_integer num then
    n <- int_of_float num ;;
    if existsb (Z.eqb n) [1; 2; 3; 4; 5] then
      session_name <- getitem self (session_key n) ;;
      if truthy session_name then Ok session_name
      else Raise (ValueError (Session_number_does_not_exist n))
    else Raise (ValueError (Invalid_session_type (VInt n)))
  else Raise (ValueError (Invalid_session_type (VFloat num))).

(** The [for ... else] of [get_session_name]: a full name in any case, else
    an abbreviation in any case. *)
Definition resolve_session_name (identifier : string) : result string :=
  match find (fun name => (casefold identifier =? casefold name)%string)
             (map snd _SESSION_TYPE_ABBREVIATIONS) with
  | Some name => Ok name
  | None =>
      match lookup (upper identifier) _SESSION_TYPE_ABBREVIATIONS with
      | Some name => Ok name
      | None => Raise (ValueError (Invalid_session_type (VStr identifier)))
      end
  end.

Definition get_session_name (self : Event) (identifier : value) : result value :=
  match py_float identifier with
  | Raise (ValueError _) =>
      match identifier with
      | VStr s =>
          session_name <- resolve_session_name s ;;
          if contains (VStr session_name) (values self)
          then Ok (VStr session_name)
          else Raise (ValueError (No_session_of_type identifier))
      | _ => Raise AttributeError
      end
  | Raise e => Raise e
  | Ok num => session_by_number self num
  end.

Definition session_columns : list string :=
  ["session1"; "session2"; "session3"; "session4"; "session5"].

Definition get_session_date (self : Event) (identifier : value) : result value :=
  session_name <- get_session_name self identifier ;;
  relevant_columns <-
    mapM (fun c => v <- getitem self c ;; Ok (c, v)) session_columns ;;
  match find (fun cv => py_eqb (snd cv) session_name) relevant_columns with
  | None => Raise (ValueError (Session_type_does_not_exist identifier))
  | Some (_name, _) => getitem self (_name ++ "_date")
  end.

Definition get_session (self : Event) (identifier : value) : result Session :=
  match py_float identifier with
  | Raise (ValueError _) =>
      session_name <- get_session_name self identifier ;;
      if contains session_name (values self)
      then Ok {| event := self; session_name := session_name |}
      else Raise (ValueError (No_session_of_type identifier))
  | Raise e => Raise e
  | Ok num =>
      session_name <- session_by_number self num ;;
      Ok {| event := self; session_name := session_name |}
  end.

Definition get_race (self : Event) : result Session := get_session self (VStr "R").
Definition get_quali (self : Event) : result Session := get_session self (VStr "Q").
Definition get_sprint (self : Event) : result Session := get_session self (VStr "SQ").
Definition get_practice (self : Event) (number : Z) : result Session :=
  get_session self (VStr ("FP" ++ str_of_Z number)).

(** [Event.is_testing()]. *)
Definition is_testing (self : Event) : result bool :=
  v <- getitem self "event_format" ;; Ok (py_eqb v (VStr "testing")).

End Event.

(** ** Timestamps

    A [datetime64[ns]] value is a number of nanoseconds since the epoch or
    [NaT] ([None] here); pandas' range check on the 64-bit count is not
    modelled. *)

Definition datetime : Type := option Z.

Definition ns_per_day : Z := 86400 * 10 ^ 9.

(** [Timestamp.floor('D')]; [NaT.floor('D')] is [NaT]. *)
Definition floor_D (date : datetime) : datetime :=
  option_map (fun ns => ns - ns mod ns_per_day) date.

(** [date - pd.Timedelta(days=n)]. *)
Definition minus_days (date : datetime) (n : Z) : datetime :=
  option_map (fun ns => ns - n * ns_per_day) date.

Definition value_of_datetime (date : datetime) : value :=
  match date with
  | Some ns => VTimestamp ns
  | None => VNaT
  end.

(** Days since 1970-01-01 of a date of the proleptic Gregorian calendar. *)
Definition days_from_civil (y m d : Z) : Z :=
  let y := if m <=? 2 then y - 1 else y in
  let era := y / 400 in
  let yoe := y - era * 400 in
  let doy := (153 * ((m + 9) mod 12) + 2) / 5 + d - 1 in
  let doe := yoe * 365 + yoe / 4 - yoe / 100 + doy in
  era * 146097 + doe - 719468.

(** The timestamp written [y-m-dTh:mi:s]. *)
Definition timestamp (y m d h mi s : Z) : Z :=
  days_from_civil y m d * ns_per_day + ((h * 60 + mi) * 60 + s) * 10 ^ 9.

(** ** Data frames *)

(** A labelled column. *)
Abbreviation column := (string * list value)%type.

Record DataFrame : Type := {
  df_index : list Z;
  df_columns : list column
}.

(** A schedule is a data frame with a [year]. *)
Record EventSchedule : Type := {
  year : Z;
  index : list Z;
  columns : list column
}.

Definition NaN : value := VFloat S754_nan.

(** [self[col] = vs] on the columns of a frame: an existing column is
    replaced where it stands, a new one is added last. *)
Fixpoint setitem (col : string) (vs : list value) (cols : list column) : list column :=
  match cols with
  | [] => [(col, vs)]
  | (c, old) :: cols' =>
      if (c =? col)%string then (c, vs) :: cols'
      else (c, old) :: setitem col vs cols'
  end.

Definition getcolumn (col : string) (cols : list column) : result (list value) :=
  match lookup col cols with
  | Some vs => Ok vs
  | None => Raise (KeyError (VStr col))
  end.

(** [frame[mask]] on one column or on the index. *)
Fixpoint select {A : Type} (mask : list bool) (xs : list A) : list A :=
  match mask, xs with
  | b :: mask', x :: xs' => if b then x :: select mask' xs' else select mask' xs'
  | _, _ => []
  end.

(** The labelled values of the row at position [i]. *)
Definition row (cols : list column) (i : nat) : list (string * value) :=
  map (fun c => (fst c, nth i (snd c) VNone)) cols.

Fixpoint position (label : Z) (idx : list Z) : option nat :=
  match idx with
  | [] => None
  | l :: idx' => if l =? label then Some O else option_map S (position label idx')
  end.

Fixpoint list_max (l : list Z) : Z :=
  match l with
  | [] => 0
  | [x] => x
  | x :: l' => Z.max x (list_max l')
  end.

(** The methods of [EventSchedule]. *)
Module EventSchedule.

Section Construction.

(** [Series.astype] of pandas, on the values of one column. *)
Variable astype : dtype -> list value -> result (list value).

(** [DataFrame(data, columns=cols)]: the columns [cols] of [data], in this
    order; a column that [data] lacks is filled with NaN. *)
Definition reindex (cols : list string) (data : DataFrame) : list column :=
  map (fun c =>
         (c, match lookup c (df_columns data) with
             | Some vs => vs
             | None => repeat NaN (List.length (df_index data))
             end)) cols.

(** [for col, _type in self._COLS_TYPES.items():
       self[col] = self[col].astype(_type)] *)
Fixpoint apply_dtypes (types : list (string * dtype)) (cols : list column)
  : result (list column) :=
  match types with
  | [] => Ok cols
  | (col, _type) :: types' =>
      vs <- getcolumn col cols ;;
      vs' <- astype _type vs ;;
      apply_dtypes types' (setitem col vs' cols)
  end.

Definition __init__ (data : DataFrame) (year : Z) : result EventSchedule :=
  cols <- apply_dtypes _COLS_TYPES (reindex (map fst _COLS_TYPES) data) ;;
  Ok {| year := year; index := df_index data; columns := cols |}.

End Construction.

(** [EventSchedule.is_testing()]: [self['event_format'] == 'testing']. *)
Definition is_testing (self : EventSchedule) : result (list bool) :=
  vs <- getcolumn "event_format" (columns self) ;;
  Ok (map (fun v => py_eqb v (VStr "testing")) vs).

(** [self[mask]]: the rows where the mask holds, with their labels. *)
Definition getitem_mask (self : EventSchedule) (mask : list bool) : EventSchedule :=
  {| year := year self;
     index := select mask (index self);
     columns := map (fun c => (fst c, select mask (snd c))) (columns self) |}.

Definition event_at (self : EventSchedule) (i : nat) : Event :=
  {| ev_year := year self; items := row (columns self) i |}.

(** [self.iloc[i]]: the row at an integer position, counted from the end
    when negative. *)
Definition iloc (self : EventSchedule) (i : Z) : result Event :=
  let n := Z.of_nat (List.length (index self)) in
  if (- n <=? i) && (i <? n)
  then Ok (event_at self (Z.to_nat (if i <? 0 then i + n else i)))
  else Raise IndexError.

(** [self.loc[label]] for a frame whose labels are distinct. *)
Definition loc (self : EventSchedule) (label : Z) : result Event :=
  match position label (index self) with
  | Some i => Ok (event_at self i)
  | None => Raise (KeyError (VInt label))
  end.

(** [self.iterrows()]: label and row, in table order. *)
Definition iterrows (self : EventSchedule) : list (Z * Event) :=
  combine (index self)
          (map (event_at self) (seq 0 (List.length (index self)))).

Definition get_event_by_round (self : EventSchedule) (round : value) : result Event :=
  vs <- getcolumn "round_number" (columns self) ;;
  let mask := map (fun v => py_eqb v round) vs in
  if existsb id mask
  then iloc (getitem_mask self mask) 0
  else Raise (ValueError (Invalid_round round)).

Section FuzzyMatch.

(** [utils.intr(100 * SequenceMatcher(None, s1, s2).ratio())] of thefuzz,
    whose matcher depends on the installation. *)
Variable matcher_ratio : string -> string -> Z.

(** [fuzz.ratio] with its guards: equal strings score 100, an empty string
    scores 0. *)
Definition fuzz_ratio (s1 s2 : string) : Z :=
  if (s1 =? s2)%string then 100
  else if (String.length s1 =? 0)%nat || (String.length s2 =? 0)%nat then 0
  else matcher_ratio s1 s2.

Definition getstr (ev : Event) (key : string) : result string :=
  v <- getitem ev key ;;
  match v with
  | VStr s => Ok s
  | _ => Raise AttributeError
  end.

Definition _matcher_strings (self : EventSchedule) (ev : Event) : result (list string) :=
  location <- getstr ev "location" ;;
  country <- getstr ev "country" ;;
  event_name <- getstr ev "event_name" ;;
  official_event_name <- getstr ev "official_event_name" ;;
  Ok [ location;
       country;
       replace "Grand Prix" "" event_name;
       replace "GRAND PRIX" ""
         (replace (str_of_Z (year self)) ""
            (replace "FORMULA 1" "" official_event_name)) ].

(** The loop of [get_event_by_name] over the remaining rows, from the
    current [max_ratio] and [index]. *)
Fixpoint best_match (self : EventSchedule) (name : string)
                    (rows : list (Z * Event)) (max_ratio index : Z) : result Z :=
  match rows with
  | [] => Ok index
  | (i, event) :: rows' =>
      strings <- _matcher_strings self event ;;
      let ratio :=
        list_max (map (fun val => fuzz_ratio (casefold val) (casefold name)) strings) in
      if max_ratio <? ratio
      then best_match self name rows' ratio i
      else best_match self name rows' max_ratio index
  end.

Definition get_event_by_name (self : EventSchedule) (name : string) : result Event :=
  index <- best_match self name (iterrows self) 0 0 ;;
  loc self index.

End FuzzyMatch.

End EventSchedule.

(** ** The schedule backends and the functions of the module *)

(** Modelled from the spec: a round record of [fastf1.ergast.fetch_season],
    with the fields the adapter reads: [round], [raceName],
    [Circuit.Location.country], [Circuit.Location.locality], and [date] and
    [time], which may be absent. *)
Record ErgastRound : Type := {
  rnd_round : string;
  rnd_raceName : string;
  rnd_country : string;
  rnd_locality : string;
  rnd_date : option string;
  rnd_time : option string
}.

(** [data[key].append(v)] on a [defaultdict(list)], which keeps its keys in
    the order of their first use. *)
Fixpoint dict_append (key : string) (v : value) (data : list column) : list column :=
  match data with
  | [] => [(key, [v])]
  | (k, vs) :: data' =>
      if (k =? key)%string then (k, (vs ++ [v])%list) :: data'
      else (k, vs) :: dict_append key v data'
  end.

(** [pd.DataFrame(data)] of a dict of lists of one length: the rows are
    labelled 0, 1, ... *)
Definition DataFrame_of_dict (data : list column) : DataFrame :=
  {| df_index :=
       map Z.of_nat (seq 0 (match data with
                            | [] => O
                            | (_, vs) :: _ => List.length vs
                            end));
     df_columns := data |}.

(** [rnd.get(key, '')] of an optional field. *)
Definition get_or_empty (field : option string) : string :=
  match field with
  | Some s => s
  | None => ""
  end.

Section Module_functions.

Variable astype : dtype -> list value -> result (list value).
Variable matcher_ratio : string -> string -> Z.

(** [datetime.datetime.now().year]. *)
Variable now_year : Z.

(** [pd.read_json(Cache.requests_get(url).text)] for the schedule file of a
    year. *)
Variable read_schedule : Z -> result DataFrame.

(** [fastf1.ergast.fetch_season]. *)
Variable fetch_season : Z -> result (list ErgastRound).

(** [pd.to_datetime(s).tz_localize(None)]: a timestamp, [NaT], or an
    exception, of which [dateutil]'s [ParserError] is one. *)
Variable to_datetime : string -> result datetime.

Definition _get_schedule (year : Z) : result EventSchedule :=
  df <- read_schedule year ;;
  EventSchedule.__init__ astype df year.

(** The [try ... except dateutil.parser.ParserError] of the adapter. *)
Definition ergast_date (rnd : ErgastRound) : result datetime :=
  match to_datetime (get_or_empty (rnd_date rnd) ++ "T" ++ get_or_empty (rnd_time rnd)) with
  | Ok date => Ok date
  | Raise ParserError => Ok None
  | Raise e => Raise e
  end.

(** The body of the loop of [_get_schedule_from_ergast]. *)
Definition ergast_round (data : list column) (rnd : ErgastRound) : result (list column) :=
  round_number <-
    match int_of_string (rnd_round rnd) with
    | Some n => Ok n
    | None => Raise (ValueError (Could_not_convert (VStr (rnd_round rnd))))
    end ;;
  let data := dict_append "round_number" (VInt round_number) data in
  let data := dict_append "country" (VStr (rnd_country rnd)) data in
  let data := dict_append "location" (VStr (rnd_locality rnd)) data in
  let data := dict_append "event_name" (VStr (rnd_raceName rnd)) data in
  let data := dict_append "official_event_name" (VStr "") data in
  date <- ergast_date rnd ;;
  let data := dict_append "event_date" (value_of_datetime date) data in
  let data := dict_append "event_format" (VStr "conventional") data in
  let data := dict_append "session1" (VStr "Practice 1") data in
  let data := dict_append "session1_date"
                (value_of_datetime (minus_days (floor_D date) 2)) data in
  let data := dict_append "session2" (VStr "Practice 2") data in
  let data := dict_append "session2_date"
                (value_of_datetime (minus_days (floor_D date) 2)) data in
  let data := dict_append "session3" (VStr "Practice 3") data in
  let data := dict_append "session3_date"
                (value_of_datetime (minus_days (floor_D date) 1)) data in
  let data := dict_append "session4" (VStr "Qualifying") data in
  let data := dict_append "session4_date"
                (value_of_datetime (minus_days (floor_D date) 1)) data in
  let data := dict_append "session5" (VStr "Race") data in
  let data := dict_append "session5_date" (value_of_datetime date) data in
  Ok data.

Fixpoint ergast_rounds (season : list ErgastRound) (data : list column)
  : result (list column) :=
  match season with
  | [] => Ok data
  | rnd :: season' =>
      data' <- ergast_round data rnd ;;
      ergast_rounds season' data'
  end.

Definition _get_schedule_from_ergast (year : Z) : result EventSchedule :=
  season <- fetch_season year ;;
  data <- ergast_rounds season [] ;;
  EventSchedule.__init__ astype (DataFrame_of_dict data) year.

Definition get_event_schedule (year : Z) (include_testing force_ergast : bool)
  : result EventSchedule :=
  schedule <-
    (if negb ((2018 <=? year) && (year <? now_year + 1)) || force_ergast
     then _get_schedule_from_ergast year
     else match _get_schedule year with
          | Ok schedule => Ok schedule
          | Raise _ => _get_schedule_from_ergast year
          end) ;;
  if negb include_testing
  then mask <- EventSchedule.is_testing schedule ;;
       Ok (EventSchedule.getitem_mask schedule (map negb mask))
  else Ok schedule.

(** [gp] is a string or a number. *)
Definition get_event (year : Z) (gp : value) (force_ergast : bool) : result Event :=
  schedule <- get_event_schedule year false force_ergast ;;
  match gp with
  | VStr name => EventSchedule.get_event_by_name matcher_ratio schedule name
  | _ =>
      if py_eqb gp (VInt 0)
      then Raise (ValueError Cannot_get_testing_event_by_round)
      else EventSchedule.get_event_by_round schedule gp
  end.

(** [test_number] is an integer; the [assert] and the [IndexError] of
    [iloc] both become the [ValueError]. *)
Definition get_testing_event (year : Z) (test_number : Z) : result Event :=
  schedule <- get_event_schedule year true false ;;
  mask <- EventSchedule.is_testing schedule ;;
  let schedule := EventSchedule.getitem_mask schedule mask in
  if 1 <=? test_number
  then match EventSchedule.iloc schedule (test_number - 1) with
       | Ok ev => Ok ev
       | Raise IndexError => Raise (ValueError (Test_event_does_not_exist test_number))
       | Raise e => Raise e
       end
  else Raise (ValueError (Test_event_does_not_exist test_number)).

Definition get_testing_session (year test_number : Z) (session_number : value)
  : result Session :=
  ev <- get_testing_event year test_number ;;
  Event.get_session ev session_number.

End Module_functions.

(** ** The module function [get_session] *)

(** The [FutureWarning]s of [get_session]: for the keyword [event], and for
    a call without identifier. *)
Inductive warning : Type :=
| Event_keyword_deprecated
| Event_object_deprecated.

(** What a call of [get_session] ends in: a session, an event (the call
    without identifier), the [ValueError] of the mutually exclusive
    arguments, the [DeprecationWarning] it raises for [gp='testing'], or an
    exception of a callee. *)
Inductive outcome : Type :=
| Returns_session (s : Session)
| Returns_event (ev : Event)
| Raises_mutually_exclusive
| Raises_DeprecationWarning
| Raises (e : exn).

Section Module_get_session.

Variable astype : dtype -> list value -> result (list value).
Variable matcher_ratio : string -> string -> Z.
Variable now_year : Z.
Variable read_schedule : Z -> result DataFrame.
Variable fetch_season : Z -> result (list ErgastRound).
Variable to_datetime : string -> result datetime.

(** [identifier] and [event] default to [None]; the warnings are listed in
    the order they are emitted. *)
Definition get_session (year : Z) (gp identifier : value) (force_ergast : bool)
                       (event : value) : list warning * outcome :=
  if truthy identifier && truthy event then ([], Raises_mutually_exclusive)
  else if py_eqb gp (VStr "testing") then ([], Raises_DeprecationWarning)
  else
    let '(warned, identifier) :=
      match event with
      | VNone => ([], identifier)
      | _ => ([Event_keyword_deprecated], event)
      end in
    match get_event astype matcher_ratio now_year read_schedule fetch_season
                    to_datetime year gp force_ergast with
    | Raise e => (warned, Raises e)
    | Ok ev =>
        match identifier with
        | VNone => (warned ++ [Event_object_deprecated], Returns_event ev)%list
        | _ =>
            match Event.get_session ev identifier with
            | Ok s => (warned, Returns_session s)
            | Raise e => (warned, Raises e)
            end
        end
    end.

End Module_get_session.


(** ** Sample data *)

(** An [astype] on single values: a value of the type is kept, any value
    becomes a bool by its truth value, and nothing else converts. *)
Definition astype_value (t : dtype) (v : value) : result value :=
  if has_dtype t v then Ok v
  else match t with
       | Bool_ => Ok (VBool (truthy v))
       | _ => Raise (ValueError (Could_not_convert v))
       end.

Definition astype_values (t : dtype) (vs : list value) : result (list value) :=
  mapM (astype_value t) vs.

Definition schedule_row (round_number : Z) (country location official_event_name : string)
    (event_date : datetime) (event_name event_format : string)
    (s1 : string) (d1 : datetime) (s2 : string) (d2 : datetime)
    (s3 : string) (d3 : datetime) (s4 : string) (d4 : datetime)
    (s5 : string) (d5 : datetime) (f1_api_support : bool) : list (string * value) :=
  [ ("round_number", VInt round_number);
    ("country", VStr country);
    ("location", VStr location);
    ("official_event_name", VStr official_event_name);
    ("event_date", value_of_datetime event_date);
    ("event_name", VStr event_name);
    ("event_format", VStr event_format);
    ("session1", VStr s1);
    ("session1_date", value_of_datetime d1);
    ("session2", VStr s2);
    ("session2_date", value_of_datetime d2);
    ("session3", VStr s3);
    ("session3_date", value_of_datetime d3);
    ("session4", VStr s4);
    ("session4_date", value_of_datetime d4);
    ("session5", VStr s5);
    ("session5_date", value_of_datetime d5);
    ("f1_api_support", VBool f1_api_support) ].

(** The 2021 pre-season test: three sessions, two empty slots. *)
Definition test_2021_row : list (string * value) :=
  schedule_row 0 "Bahrain" "Sakhir" "FORMULA 1 ARAMCO PRE-SEASON TESTING 2021"
    (Some (timestamp 2021 3 14 0 0 0)) "Pre-Season Test" "testing"
    "Practice 1" (Some (timestamp 2021 3 12 0 0 0))
    "Practice 2" (Some (timestamp 2021 3 13 0 0 0))
    "Practice 3" (Some (timestamp 2021 3 14 0 0 0))
    "" None "" None true.

Definition bahrain_2021_row : list (string * value) :=
  schedule_row 1 "Bahrain" "Sakhir" "FORMULA 1 GULF AIR BAHRAIN GRAND PRIX 2021"
    (Some (timestamp 2021 3 28 0 0 0)) "Bahrain Grand Prix" "conventional"
    "Practice 1" (Some (timestamp 2021 3 26 0 0 0))
    "Practice 2" (Some (timestamp 2021 3 26 0 0 0))
    "Practice 3" (Some (timestamp 2021 3 27 0 0 0))
    "Qualifying" (Some (timestamp 2021 3 27 0 0 0))
    "Race" (Some (timestamp 2021 3 28 15 0 0)) true.

Definition imola_2021_row : list (string * value) :=
  schedule_row 2 "Italy" "Imola"
    "FORMULA 1 PIRELLI GRAN PREMIO DEL MADE IN ITALY E DELL EMILIA ROMAGNA 2021"
    (Some (timestamp 2021 4 18 0 0 0)) "Emilia Romagna Grand Prix" "conventional"
    "Practice 1" (Some (timestamp 2021 4 16 0 0 0))
    "Practice 2" (Some (timestamp 2021 4 16 0 0 0))
    "Practice 3" (Some (timestamp 2021 4 17 0 0 0))
    "Qualifying" (Some (timestamp 2021 4 17 0 0 0))
    "Race" (Some (timestamp 2021 4 18 13 0 0)) true.

Definition bahrain_2021 : Event := {| ev_year := 2021; items := bahrain_2021_row |}.

(** A test event that is named like a session. *)
Definition race_named_test : Event :=
  {| ev_year := 2021;
     items :=
       schedule_row 0 "Bahrain" "Sakhir" "" (Some (timestamp 2021 3 14 0 0 0))
         "Race" "testing"
         "Practice 1" (Some (timestamp 2021 3 12 0 0 0))
         "Practice 2" (Some (timestamp 2021 3 13 0 0 0))
         "Practice 3" (Some (timestamp 2021 3 14 0 0 0))
         "" None "" None true |}.

(** The columns of a list of rows that all carry the schedule's labels. *)
Definition columns_of_rows (rows : list (list (string * value))) : list column :=
  map (fun c => (fst c, map (fun r => match lookup (fst c) r with
                                      | Some v => v
                                      | None => VNone
                                      end) rows)) _COLS_TYPES.

(** The frame read from a schedule file with the three events above. *)
Definition frame_2021 : DataFrame :=
  {| df_index := [0; 1; 2];
     df_columns := columns_of_rows [test_2021_row; bahrain_2021_row; imola_2021_row] |}.

Definition bahrain_round : ErgastRound :=
  {| rnd_round := "1";
     rnd_raceName := "Bahrain Grand Prix";
     rnd_country := "Bahrain";
     rnd_locality := "Sakhir";
     rnd_date := Some "2021-03-28";
     rnd_time := Some "15:00:00Z" |}.

Definition imola_round : ErgastRound :=
  {| rnd_round := "2";
     rnd_raceName := "Emilia Romagna Grand Prix";
     rnd_country := "Italy";
     rnd_locality := "Imola";
     rnd_date := Some "to be announced";
     rnd_time := None |}.

(** A parser for the two dates above only. *)
Definition sample_to_datetime (s : string) : result datetime :=
  if (s =? "2021-03-28T15:00:00Z")%string then Ok (Some (timestamp 2021 3 28 15 0 0))
  else Raise ParserError.

Definition sample_read_schedule (year : Z) : result DataFrame :=
  if year =? 2021 then Ok frame_2021 else Raise (OtherError "404").

Definition sample_fetch_season (year : Z) : result (list ErgastRound) :=
  if year =? 2021 then Ok [bahrain_round; imola_round] else Ok [].

(** The schedule constructed from that frame. *)
Definition schedule_2021 : EventSchedule :=
  {| year := 2021;
     index := [0; 1; 2];
     columns := columns_of_rows [test_2021_row; bahrain_2021_row; imola_2021_row] |}.



(** ** Vocabulary of the statements *)

(** The float [num] is the whole number [n]. *)
Definition whole_number (num : spec_float) (n : Z) : Prop :=
  is_integer num = true /\ int_of_float num = Ok n.

(** The first letters of the session names and of their abbreviations. *)
Definition name_initial (c : ascii) : bool :=
  existsb (Ascii.eqb (lower_ascii c)) ["r"; "q"; "s"; "p"; "f"]%char.

(** What the by-number branch returns for the session number [n]. *)
Definition nth_session (ev : Event) (n : Z) : result value :=
  session_name <- getitem ev (Event.session_key n) ;;
  if truthy session_name then Ok session_name
  else Raise (ValueError (Session_number_does_not_exist n)).

(** The columns carry a schema: its labels in order, each column of values
    of its type. *)
Fixpoint columns_have_schema (schema : list (string * dtype)) (cols : list column)
  : bool :=
  match schema, cols with
  | [], [] => true
  | (c, t) :: schema', (k, vs) :: cols' =>
      (c =? k)%string && forallb (has_dtype t) vs && columns_have_schema schema' cols'
  | _, _ => false
  end.

Definition schedule_ok (schedule : EventSchedule) : bool :=
  columns_have_schema _COLS_TYPES (columns schedule).

(** Every column has one value for each row label. *)
Definition rectangular (schedule : EventSchedule) : bool :=
  forallb (fun c => (List.length (snd c) =? List.length (index schedule))%nat)
          (columns schedule).

Definition is_testing_event (ev : Event) : bool :=
  match Event.is_testing ev with
  | Ok b => b
  | Raise _ => false
  end.

(** The testing events of a schedule, in table order. *)
Definition testing_events (schedule : EventSchedule) : list Event :=
  filter is_testing_event (map snd (EventSchedule.iterrows schedule)).

(** A round as the Ergast adapter reads it: its number, its race date and
    its record. *)
Record parsed_round : Type := {
  pr_number : Z;
  pr_date : datetime;
  pr_round : ErgastRound
}.

Definition parse_round (to_datetime : string -> result datetime) (rnd : ErgastRound)
  : result parsed_round :=
  n <- match int_of_string (rnd_round rnd) with
       | Some n => Ok n
       | None => Raise (ValueError (Could_not_convert (VStr (rnd_round rnd))))
       end ;;
  date <- ergast_date to_datetime rnd ;;
  Ok {| pr_number := n; pr_date := date; pr_round := rnd |}.

(** The dict of lists that the adapter has built after the rounds [ps]. *)
Definition ergast_columns (ps : list parsed_round) : list column :=
  [ ("round_number", map (fun p => VInt (pr_number p)) ps);
    ("country", map (fun p => VStr (rnd_country (pr_round p))) ps);
    ("location", map (fun p => VStr (rnd_locality (pr_round p))) ps);
    ("event_name", map (fun p => VStr (rnd_raceName (pr_round p))) ps);
    ("official_event_name", map (fun _ => VStr "") ps);
    ("event_date", map (fun p => value_of_datetime (pr_date p)) ps);
    ("event_format", map (fun _ => VStr "conventional") ps);
    ("session1", map (fun _ => VStr "Practice 1") ps);
    ("session1_date",
     map (fun p => value_of_datetime (minus_days (floor_D (pr_date p)) 2)) ps);
    ("session2", map (fun _ => VStr "Practice 2") ps);
    ("session2_date",
     map (fun p => value_of_datetime (minus_days (floor_D (pr_date p)) 2)) ps);
    ("session3", map (fun _ => VStr "Practice 3") ps);
    ("session3_date",
     map (fun p => value_of_datetime (minus_days (floor_D (pr_date p)) 1)) ps);
    ("session4", map (fun _ => VStr "Qualifying") ps);
    ("session4_date",
     map (fun p => value_of_datetime (minus_days (floor_D (pr_date p)) 1)) ps);
    ("session5", map (fun _ => VStr "Race") ps);
    ("session5_date", map (fun p => value_of_datetime (pr_date p)) ps) ].

(** The schedule row of a round, without the last column, which the Ergast
    data does not have. *)
Definition ergast_row (p : parsed_round) : list (string * value) :=
  [ ("round_number", VInt (pr_number p));
    ("country", VStr (rnd_country (pr_round p)));
    ("location", VStr (rnd_locality (pr_round p)));
    ("official_event_name", VStr "");
    ("event_date", value_of_datetime (pr_date p));
    ("event_name", VStr (rnd_raceName (pr_round p)));
    ("event_format", VStr "conventional");
    ("session1", VStr "Practice 1");
    ("session1_date", value_of_datetime (minus_days (floor_D (pr_date p)) 2));
    ("session2", VStr "Practice 2");
    ("session2_date", value_of_datetime (minus_days (floor_D (pr_date p)) 2));
    ("session3", VStr "Practice 3");
    ("session3_date", value_of_datetime (minus_days (floor_D (pr_date p)) 1));
    ("session4", VStr "Qualifying");
    ("session4_date", value_of_datetime (minus_days (floor_D (pr_date p)) 1));
    ("session5", VStr "Race");
    ("session5_date", value_of_datetime (pr_date p)) ].

(** The columns of the schedule built from the rounds [ps] that hold values
    of their declared type already, in the order of the schema. *)
Definition ergast_typed_columns (ps : list parsed_round) : list column :=
  [ ("country", map (fun p => VStr (rnd_country (pr_round p))) ps);
    ("location", map (fun p => VStr (rnd_locality (pr_round p))) ps);
    ("official_event_name", map (fun _ => VStr "") ps);
    ("event_date", map (fun p => value_of_datetime (pr_date p)) ps);
    ("event_name", map (fun p => VStr (rnd_raceName (pr_round p))) ps);
    ("event_format", map (fun _ => VStr "conventional") ps);
    ("session1", map (fun _ => VStr "Practice 1") ps);
    ("session1_date",
     map (fun p => value_of_datetime (minus_days (floor_D (pr_date p)) 2)) ps);
    ("session2", map (fun _ => VStr "Practice 2") ps);
    ("session2_date",
     map (fun p => value_of_datetime (minus_days (floor_D (pr_date p)) 2)) ps);
    ("session3", map (fun _ => VStr "Practice 3") ps);
    ("session3_date",
     map (fun p => value_of_datetime (minus_days (floor_D (pr_date p)) 1)) ps);
    ("session4", map (fun _ => VStr "Qualifying") ps);
    ("session4_date",
     map (fun p => value_of_datetime (minus_days (floor_D (pr_date p)) 1)) ps);
    ("session5", map (fun _ => VStr "Race") ps);
    ("session5_date", map (fun p => value_of_datetime (pr_date p)) ps) ].

(** The columns of that schedule, given the two columns that [astype] has
    to convert: the round numbers and the column that the Ergast data does
    not have. *)
Definition ergast_schedule_columns (ps : list parsed_round)
    (round_number f1_api_support : list value) : list column :=
  ("round_number", round_number)
    :: (ergast_typed_columns ps ++ [("f1_api_support", f1_api_support)])%list.

(** The event is of the round [round]. *)
Definition has_round (round : value) (ev : Event) : bool :=
  match getitem ev "round_number" with
  | Ok v => py_eqb v round
  | Raise _ => false
  end.

(** Every column of a data frame has one value for each row label. *)
Definition df_rectangular (data : DataFrame) : bool :=
  forallb (fun c => (List.length (snd c) =? List.length (df_index data))%nat)
          (df_columns data).

(** The score of an event against a name in [get_event_by_name]: the
    greatest ratio of its comparison strings. *)
Definition match_score (matcher_ratio : string -> string -> Z)
    (self : EventSchedule) (name : string) (ev : Event) : result Z :=
  strings <- EventSchedule._matcher_strings self ev ;;
  Ok (list_max (map (fun val =>
                       EventSchedule.fuzz_ratio matcher_ratio
                         (casefold val) (casefold name)) strings)).

(** * Properties *)

Open Scope list_scope.

(** ** Strings and numbers *)

Lemma map_string_length (f : ascii -> ascii) (s : string) :
  String.length (map_string f s) = String.length s.
Proof.
  induction s as [|c s IH]; simpl; [reflexivity | now rewrite IH].
Qed.

Lemma eqb_true_length (s t : string) :
  (s =? t)%string = true -> String.length s = String.length t.
Proof.
  intros H. apply String.eqb_eq in H. now subst.
Qed.

Lemma rstrip_cons (c : ascii) (s : string) :
  is_space c = false -> exists u, rstrip (String c s) = String c u.
Proof.
  intros Hc. cbn [rstrip]. destruct (rstrip s) as [|d u].
  - rewrite Hc. now exists EmptyString.
  - now exists (String d u).
Qed.

Lemma name_initial_cases (c : ascii) :
  name_initial c = true ->
  In c ["r"; "R"; "q"; "Q"; "s"; "S"; "p"; "P"; "f"; "F"]%char.
Proof.
  destruct c as [[] [] [] [] [] [] [] []]; intros H;
    solve [ discriminate H | simpl; tauto ].
Qed.

Lemma upper_initial (c : ascii) :
  existsb (Ascii.eqb (upper_ascii c)) ["R"; "Q"; "S"; "F"]%char = true ->
  name_initial c = true.
Proof.
  destruct c as [[] [] [] [] [] [] [] []]; intros H;
    solve [ discriminate H | reflexivity ].
Qed.
Lemma float_of_string_initial (c : ascii) (s : string) :
  name_initial c = true -> float_of_string (String c s) = None.
Proof.
  intros H. apply name_initial_cases in H.
  unfold float_of_string.
  assert (Hsp : is_space c = false)
    by (simpl in H; repeat (destruct H as [<-|H]; [reflexivity|]); destruct H).
  assert (Hd : drop_underscores " " (String c s)
               = option_map (String c) (drop_underscores c s))
    by (simpl in H; repeat (destruct H as [<-|H]; [reflexivity|]); destruct H).
  rewrite Hd. destruct (drop_underscores c s) as [t|]; [|reflexivity].
  cbn [option_map]. unfold strip. cbn [lstrip]. rewrite Hsp.
  destruct (rstrip_cons c t Hsp) as [u ->].
  simpl in H; repeat (destruct H as [<-|H]; [reflexivity|]); destruct H.
Qed.

(** ** Rows with the schedule's schema *)

Lemma lookup_schema (schema : list (string * dtype)) :
  forall (r : list (string * value)) (c : string) (t : dtype),
    row_has_schema schema r = true ->
    lookup c schema = Some t ->
    exists v, lookup c r = Some v /\ has_dtype t v = true.
Proof.
  induction schema as [|[c0 t0] schema IH]; intros r c t Hr Hc; [discriminate|].
  destruct r as [|[k v] r]; [discriminate|].
  cbn [row_has_schema] in Hr.
  apply andb_prop in Hr. destruct Hr as [Hr Hrest].
  apply andb_prop in Hr. destruct Hr as [Hk Hv].
  apply String.eqb_eq in Hk. subst k.
  cbn [lookup] in *. destruct (c0 =? c)%string.
  - injection Hc as <-. now exists v.
  - now apply IH.
Qed.

Lemma event_ok_getitem (ev : Event) (c : string) (t : dtype) :
  event_ok ev = true ->
  lookup c _COLS_TYPES = Some t ->
  exists v, getitem ev c = Ok v /\ has_dtype t v = true.
Proof.
  intros Hok Hc. destruct (lookup_schema _ _ _ _ Hok Hc) as [v [Hv Ht]].
  exists v. unfold getitem. now rewrite Hv.
Qed.

Lemma in_1_5 (n : Z) : existsb (Z.eqb n) [1; 2; 3; 4; 5] = true <-> 1 <= n <= 5.
Proof.
  split.
  - intros H. apply existsb_exists in H. destruct H as [x [Hx Hn]].
    apply Z.eqb_eq in Hn. subst x. simpl in Hx. lia.
  - intros H. apply existsb_exists. exists n. split; [simpl; lia | apply Z.eqb_refl].
Qed.

Lemma event_ok_session (ev : Event) (n : Z) :
  event_ok ev = true -> 1 <= n <= 5 ->
  exists s, getitem ev (Event.session_key n) = Ok (VStr s).
Proof.
  intros Hok Hn.
  assert (Hc : lookup (Event.session_key n) _COLS_TYPES = Some Str).
  { assert (Hcases : n = 1 \/ n = 2 \/ n = 3 \/ n = 4 \/ n = 5) by lia.
    destruct Hcases as [-> | [-> | [-> | [-> | ->]]]]; reflexivity. }
  destruct (event_ok_getitem ev _ _ Hok Hc) as [v [Hv Ht]].
  destruct v; try discriminate Ht. now exists s.
Qed.

Lemma is_integer_int (num : spec_float) :
  is_integer num = true -> exists n, int_of_float num = Ok n.
Proof.
  destruct num; simpl; intros H; try discriminate; eauto.
Qed.

Lemma session_by_number_whole (ev : Event) (num : spec_float) (n : Z) :
  whole_number num n -> 1 <= n <= 5 ->
  Event.session_by_number ev num = nth_session ev n.
Proof.
  intros [Hi Hn] Hr. unfold Event.session_by_number, nth_session.
  rewrite Hi, Hn. cbn [bind].
  apply in_1_5 in Hr. now rewrite Hr.
Qed.

Lemma session_by_number_other (num : spec_float) :
  (forall n, 1 <= n <= 5 -> ~ whole_number num n) ->
  exists shown, forall ev : Event,
    Event.session_by_number ev num = Raise (ValueError (Invalid_session_type shown)).
Proof.
  intros H. unfold Event.session_by_number.
  destruct (is_integer num) eqn:Hi.
  - destruct (is_integer_int num Hi) as [n Hn]. rewrite Hn. cbn [bind].
    destruct (existsb (Z.eqb n) [1; 2; 3; 4; 5]) eqn:Hr.
    + apply in_1_5 in Hr. exfalso. apply (H n Hr). now split.
    + now exists (VInt n).
  - now exists (VFloat num).
Qed.

Lemma py_float_session_number (n : Z) :
  1 <= n <= 5 ->
  py_float (VInt n) = Ok (float_of_Z n) /\ whole_number (float_of_Z n) n.
Proof.
  intros Hn.
  assert (Hcases : n = 1 \/ n = 2 \/ n = 3 \/ n = 4 \/ n = 5) by lia.
  destruct Hcases as [-> | [-> | [-> | [-> | ->]]]]; repeat split; reflexivity.
Qed.

Lemma get_session_name_number (ev : Event) (identifier : value) (num : spec_float) :
  py_float identifier = Ok num ->
  Event.get_session_name ev identifier = Event.session_by_number ev num.
Proof.
  intros H. unfold Event.get_session_name. now rewrite H.
Qed.

Lemma get_session_number (ev : Event) (identifier : value) (num : spec_float) :
  py_float identifier = Ok num ->
  Event.get_session ev identifier =
  (name <- Event.session_by_number ev num ;; Ok {| event := ev; session_name := name |}).
Proof.
  intros H. unfold Event.get_session. now rewrite H.
Qed.

(** ** Session identifiers that are numbers *)

(** C2. An identifier that [get_session_name] or [get_session] reads as the
    number [num]: when [num] is no whole number from 1 to 5, both raise the
    invalid-session-type error; when it is the whole number [n], the field
    [session{n}] of the event is a string, an empty one raises the
    session-does-not-exist error for [n], and any other one is returned. *)
Theorem session_number_resolution :
  forall (ev : Event) (identifier : value) (num : spec_float),
    event_ok ev = true ->
    py_float identifier = Ok num ->
    ((forall n, 1 <= n <= 5 -> ~ whole_number num n) ->
     exists shown,
       Event.get_session_name ev identifier
         = Raise (ValueError (Invalid_session_type shown)) /\
       Event.get_session ev identifier
         = Raise (ValueError (Invalid_session_type shown))) /\
    (forall n, 1 <= n <= 5 -> whole_number num n ->
     exists s,
       getitem ev (Event.session_key n) = Ok (VStr s) /\
       (s = "" ->
        Event.get_session_name ev identifier
          = Raise (ValueError (Session_number_does_not_exist n)) /\
        Event.get_session ev identifier
          = Raise (ValueError (Session_number_does_not_exist n))) /\
       (s <> "" ->
        Event.get_session_name ev identifier = Ok (VStr s) /\
        Event.get_session ev identifier
          = Ok {| event := ev; session_name := VStr s |})).
Proof.
  intros ev identifier num Hok Hf.
  rewrite (get_session_name_number ev _ _ Hf), (get_session_number ev _ _ Hf).
  split.
  - intros Hnot. destruct (session_by_number_other num Hnot) as [shown Hs].
    exists shown. now rewrite Hs.
  - intros n Hn Hw. rewrite (session_by_number_whole ev num n Hw Hn).
    destruct (event_ok_session ev n Hok Hn) as [s Hs].
    exists s. unfold nth_session. rewrite Hs. cbn [bind truthy].
    split; [reflexivity|]. split.
    + intros ->. now cbn.
    + intros Hne. apply String.eqb_neq in Hne. rewrite Hne. now cbn.
Qed.

Lemma session_number_resolution_witness :
  event_ok bahrain_2021 = true /\
  Event.get_session_name bahrain_2021 (VStr "4.0") = Ok (VStr "Qualifying") /\
  Event.get_session_name race_named_test (VInt 4)
    = Raise (ValueError (Session_number_does_not_exist 4)).
Proof.
  split; [reflexivity|]. split.
  - destruct (session_number_resolution bahrain_2021 (VStr "4.0") (float_of_Z 4)
                eq_refl eq_refl) as [_ H].
    destruct (H 4 ltac:(lia) (conj eq_refl eq_refl)) as [s [Hs [_ Hne]]].
    injection Hs as <-. apply Hne. discriminate.
  - destruct (session_number_resolution race_named_test (VInt 4) (float_of_Z 4)
                eq_refl eq_refl) as [_ H].
    destruct (H 4 ltac:(lia) (conj eq_refl eq_refl)) as [s [Hs [He _]]].
    injection Hs as <-. apply He. reflexivity.
Defined.
(** C10. An identifier that converts to a float [num], a numeric string
    included, is resolved by number: when [num] is the whole number [n]
    from 1 to 5, [get_session_name] and [get_session] give what they give
    for the integer [n], which is the field [session{n}] unless it is empty;
    otherwise both raise one invalid-session-type error, the same for every
    event, whatever its session names are. *)
Theorem numeric_identifier_by_number :
  forall (identifier : value) (num : spec_float),
    py_float identifier = Ok num ->
    (forall n, 1 <= n <= 5 -> whole_number num n ->
     forall ev : Event,
       Event.get_session_name ev identifier = Event.get_session_name ev (VInt n) /\
       Event.get_session ev identifier = Event.get_session ev (VInt n) /\
       Event.get_session_name ev identifier = nth_session ev n) /\
    ((forall n, 1 <= n <= 5 -> ~ whole_number num n) ->
     exists shown, forall ev : Event,
       Event.get_session_name ev identifier
         = Raise (ValueError (Invalid_session_type shown)) /\
       Event.get_session ev identifier
         = Raise (ValueError (Invalid_session_type shown))).
Proof.
  intros identifier num Hf. split.
  - intros n Hn Hw ev.
    destruct (py_float_session_number n Hn) as [Hfn Hwn].
    rewrite (get_session_name_number ev _ _ Hf), (get_session_number ev _ _ Hf).
    rewrite (get_session_name_number ev _ _ Hfn), (get_session_number ev _ _ Hfn).
    rewrite (session_by_number_whole ev num n Hw Hn).
    rewrite (session_by_number_whole ev _ n Hwn Hn).
    repeat split.
  - intros Hnot. destruct (session_by_number_other num Hnot) as [shown Hs].
    exists shown. intros ev.
    rewrite (get_session_name_number ev _ _ Hf), (get_session_number ev _ _ Hf).
    now rewrite Hs.
Qed.

Lemma numeric_identifier_by_number_witness :
  py_float (VStr "3") = Ok (float_of_Z 3) /\
  forall ev : Event,
    Event.get_session_name ev (VStr "3") = Event.get_session_name ev (VInt 3).
Proof.
  split; [reflexivity|]. intros ev.
  destruct (numeric_identifier_by_number (VStr "3") (float_of_Z 3) eq_refl) as [H _].
  exact (proj1 (H 3 ltac:(lia) (conj eq_refl eq_refl) ev)).
Defined.

(** The numeric strings of the claim: "2.0" is session 2, "6" and "2.5" are
    invalid for every event. *)
Example numeric_strings (ev : Event) :
  Event.get_session_name ev (VStr "2.0") = Event.get_session_name ev (VInt 2) /\
  Event.get_session_name ev (VStr "6")
    = Raise (ValueError (Invalid_session_type (VInt 6))) /\
  Event.get_session_name ev (VStr "2.5")
    = Raise (ValueError (Invalid_session_type (VFloat (float_of_decimal false 25 (-1))))) /\
  Event.get_session ev (VStr "6")
    = Raise (ValueError (Invalid_session_type (VInt 6))).
Proof.
  repeat split.
Qed.

(** ** Session identifiers that are names *)

Lemma get_session_name_string (ev : Event) (s : string) :
  float_of_string s = None ->
  Event.get_session_name ev (VStr s) =
  (session_name <- Event.resolve_session_name s ;;
   if contains (VStr session_name) (values ev)
   then Ok (VStr session_name)
   else Raise (ValueError (No_session_of_type (VStr s)))).
Proof.
  intros H. unfold Event.get_session_name, py_float. now rewrite H.
Qed.

(** C1, at an event that has no race but is named "Race": the identifier
    "R" resolves to the name "Race", which none of the five session fields
    holds, and [get_session_name] returns it; [get_session_date] then finds
    no such session. *)
Theorem session_name_found_outside_sessions :
  Event.get_session_name race_named_test (VStr "R") = Ok (VStr "Race") /\
  (forall n, 1 <= n <= 5 ->
     getitem race_named_test (Event.session_key n) <> Ok (VStr "Race")) /\
  Event.get_session_date race_named_test (VStr "R")
    = Raise (ValueError (Session_type_does_not_exist (VStr "R"))).
Proof.
  split; [reflexivity|]. split; [|reflexivity].
  intros n Hn.
  assert (Hcases : n = 1 \/ n = 2 \/ n = 3 \/ n = 4 \/ n = 5) by lia.
  destruct Hcases as [-> | [-> | [-> | [-> | ->]]]]; discriminate.
Qed.
Lemma find_all_false {A : Type} (f : A -> bool) (l : list A) :
  (forall x, In x l -> f x = false) -> find f l = None.
Proof.
  induction l as [|a l IH]; intros H; [reflexivity|].
  cbn [find]. rewrite (H a (or_introl eq_refl)).
  apply IH. intros x Hx. apply H. now right.
Qed.

Lemma casefold_eqb_length (s t : string) :
  String.length s <> String.length t ->
  (casefold s =? casefold t)%string = false.
Proof.
  intros Hlen. apply String.eqb_neq. intros Heq. apply Hlen.
  unfold casefold in Heq.
  rewrite <- (map_string_length lower_ascii s), <- (map_string_length lower_ascii t).
  now rewrite Heq.
Qed.

Ltac session_name_cases H :=
  cbn in H;
  repeat (destruct H as [H | H]; [try injection H as <- <-; try subst | ]);
  [ .. | destruct H ].

Lemma resolve_full_name (s name : string) :
  In name (map snd _SESSION_TYPE_ABBREVIATIONS) ->
  casefold s = casefold name ->
  Event.resolve_session_name s = Ok name.
Proof.
  intros Hin Hs. unfold Event.resolve_session_name.
  session_name_cases Hin; rewrite Hs; reflexivity.
Qed.

Lemma resolve_abbreviation (s abbr name : string) :
  In (abbr, name) _SESSION_TYPE_ABBREVIATIONS ->
  upper s = abbr ->
  Event.resolve_session_name s = Ok name.
Proof.
  intros Hin Hs. unfold Event.resolve_session_name.
  assert (Hlen : (String.length s <= 3)%nat).
  { rewrite <- (map_string_length upper_ascii s). fold (upper s). rewrite Hs.
    session_name_cases Hin; cbn; lia. }
  rewrite find_all_false.
  - rewrite Hs. session_name_cases Hin; reflexivity.
  - intros x Hx. apply casefold_eqb_length.
    session_name_cases Hx; cbn; lia.
Qed.

Lemma full_name_not_float (s name : string) :
  In name (map snd _SESSION_TYPE_ABBREVIATIONS) ->
  casefold s = casefold name ->
  float_of_string s = None.
Proof.
  intros Hin Hs.
  destruct s as [|c s]; [session_name_cases Hin; discriminate Hs|].
  apply float_of_string_initial. unfold name_initial.
  session_name_cases Hin; cbn in Hs; injection Hs as -> _; reflexivity.
Qed.

Lemma abbreviation_not_float (s abbr name : string) :
  In (abbr, name) _SESSION_TYPE_ABBREVIATIONS ->
  upper s = abbr ->
  float_of_string s = None.
Proof.
  intros Hin Hs.
  destruct s as [|c s]; [session_name_cases Hin; discriminate Hs|].
  apply float_of_string_initial, upper_initial.
  session_name_cases Hin; cbn in Hs; injection Hs as -> _; reflexivity.
Qed.

Lemma lookup_in_values (k : string) (v : value) (l : list (string * value)) :
  lookup k l = Some v -> In v (map snd l).
Proof.
  induction l as [|[k' v'] l IH]; [discriminate|].
  cbn [lookup map snd]. destruct (k' =? k)%string.
  - intros H. injection H as <-. now left.
  - intros H. right. now apply IH.
Qed.

Lemma getitem_contains (ev : Event) (k s : string) :
  getitem ev k = Ok (VStr s) -> contains (VStr s) (values ev) = true.
Proof.
  unfold getitem, contains, values. intros H.
  destruct (lookup k (items ev)) as [v|] eqn:Hl; [|discriminate].
  injection H as ->. apply existsb_exists. exists (VStr s).
  split; [now apply lookup_in_values with k | apply String.eqb_refl].
Qed.

Lemma canonical_name_nonempty (abbr name : string) :
  In (abbr, name) _SESSION_TYPE_ABBREVIATIONS -> (name =? "")%string = false.
Proof.
  intros Hin. session_name_cases Hin; reflexivity.
Qed.

Lemma names_of_abbreviations (abbr name : string) :
  In (abbr, name) _SESSION_TYPE_ABBREVIATIONS ->
  In name (map snd _SESSION_TYPE_ABBREVIATIONS).
Proof.
  intros Hin. now apply (in_map snd) in Hin.
Qed.

(** The name that a spelling of a full name or of an abbreviation resolves
    to is returned when a field of the event holds it. *)
Lemma get_session_name_held (ev : Event) (s abbr name k : string) :
  In (abbr, name) _SESSION_TYPE_ABBREVIATIONS ->
  casefold s = casefold name \/ upper s = abbr ->
  getitem ev k = Ok (VStr name) ->
  Event.get_session_name ev (VStr s) = Ok (VStr name).
Proof.
  intros Hin Hs Hk.
  assert (Hf : float_of_string s = None).
  { destruct Hs as [Hs | Hs].
    - eapply full_name_not_float; [eapply names_of_abbreviations|]; eauto.
    - eapply abbreviation_not_float; eauto. }
  assert (Hr : Event.resolve_session_name s = Ok name).
  { destruct Hs as [Hs | Hs].
    - apply resolve_full_name; [eapply names_of_abbreviations|]; eauto.
    - eapply resolve_abbreviation; eauto. }
  rewrite (get_session_name_string ev s Hf), Hr. cbn [bind].
  now rewrite (getitem_contains ev k name Hk).
Qed.
Lemma get_session_date_slot (ev : Event) (identifier : value)
      (s1 s2 s3 s4 s5 : string) (n : Z) :
  getitem ev "session1" = Ok (VStr s1) ->
  getitem ev "session2" = Ok (VStr s2) ->
  getitem ev "session3" = Ok (VStr s3) ->
  getitem ev "session4" = Ok (VStr s4) ->
  getitem ev "session5" = Ok (VStr s5) ->
  NoDup [s1; s2; s3; s4; s5] ->
  1 <= n <= 5 ->
  Event.get_session_name ev identifier
    = Ok (VStr (nth (Z.to_nat (n - 1)) [s1; s2; s3; s4; s5] "")) ->
  Event.get_session_date ev identifier
    = getitem ev (Event.session_key n ++ "_date")%string.
Proof.
  intros H1 H2 H3 H4 H5 Hnd Hn Hname.
  unfold Event.get_session_date. rewrite Hname.
  unfold Event.session_columns; cbn [bind mapM]. rewrite H1, H2, H3, H4, H5.
  cbn [bind find snd py_eqb].
  assert (Hne : s1 <> s2 /\ s1 <> s3 /\ s1 <> s4 /\ s1 <> s5 /\ s2 <> s3 /\
                s2 <> s4 /\ s2 <> s5 /\ s3 <> s4 /\ s3 <> s5 /\ s4 <> s5).
  { repeat match goal with
           | H : NoDup (_ :: _) |- _ => inversion_clear H
           end.
    cbn [In] in *. intuition congruence. }
  destruct Hne as (N12 & N13 & N14 & N15 & N23 & N24 & N25 & N34 & N35 & N45).
  apply String.eqb_neq in N12, N13, N14, N15, N23, N24, N25, N34, N35, N45.
  assert (Hcases : n = 1 \/ n = 2 \/ n = 3 \/ n = 4 \/ n = 5) by lia.
  destruct Hcases as [-> | [-> | [-> | [-> | ->]]]]; cbn [Z.to_nat Z.sub nth];
    change (Z.to_nat (1 - 1)) with 0%nat; change (Z.to_nat (2 - 1)) with 1%nat;
    change (Z.to_nat (3 - 1)) with 2%nat; change (Z.to_nat (4 - 1)) with 3%nat;
    change (Z.to_nat (5 - 1)) with 4%nat; cbn [nth];
    rewrite ?N12, ?N13, ?N14, ?N15, ?N23, ?N24, ?N25, ?N34, ?N35, ?N45,
            ?String.eqb_refl; reflexivity.
Qed.
Lemma get_session_name_slot (ev : Event) (n : Z) (abbr name : string) :
  1 <= n <= 5 ->
  In (abbr, name) _SESSION_TYPE_ABBREVIATIONS ->
  getitem ev (Event.session_key n) = Ok (VStr name) ->
  Event.get_session_name ev (VInt n) = Ok (VStr name).
Proof.
  intros Hn Hin Hk.
  destruct (py_float_session_number n Hn) as [Hf Hw].
  rewrite (get_session_name_number ev _ _ Hf).
  rewrite (session_by_number_whole ev _ n Hw Hn).
  unfold nth_session. rewrite Hk. cbn [bind truthy].
  now rewrite (canonical_name_nonempty abbr name Hin).
Qed.

(** C6. An event whose [session3] is 'Practice 3' gives that name for 3,
    for "FP3" and for "practice 3".  In an event whose five session names
    are pairwise distinct, for the session in slot [n] that carries a
    canonical name, [get_session_date] gives the same result, the field
    [session{n}_date], for any spelling of the full name, for any spelling
    of the abbreviation and for the number [n]. *)
Theorem session_identifiers_agree :
  forall ev : Event,
    (getitem ev "session3" = Ok (VStr "Practice 3") ->
     Event.get_session_name ev (VInt 3) = Ok (VStr "Practice 3") /\
     Event.get_session_name ev (VStr "FP3") = Ok (VStr "Practice 3") /\
     Event.get_session_name ev (VStr "practice 3") = Ok (VStr "Practice 3")) /\
    (forall s1 s2 s3 s4 s5 : string,
       getitem ev "session1" = Ok (VStr s1) ->
       getitem ev "session2" = Ok (VStr s2) ->
       getitem ev "session3" = Ok (VStr s3) ->
       getitem ev "session4" = Ok (VStr s4) ->
       getitem ev "session5" = Ok (VStr s5) ->
       NoDup [s1; s2; s3; s4; s5] ->
       forall (n : Z) (abbr name full short : string),
         1 <= n <= 5 ->
         nth (Z.to_nat (n - 1)) [s1; s2; s3; s4; s5] "" = name ->
         In (abbr, name) _SESSION_TYPE_ABBREVIATIONS ->
         casefold full = casefold name ->
         upper short = abbr ->
         Event.get_session_date ev (VStr full) = Event.get_session_date ev (VInt n) /\
         Event.get_session_date ev (VStr short) = Event.get_session_date ev (VInt n) /\
         Event.get_session_date ev (VInt n)
           = getitem ev (Event.session_key n ++ "_date")%string).
Proof.
  intros ev. split.
  - intros H3.
    assert (Hin : In ("FP3", "Practice 3") _SESSION_TYPE_ABBREVIATIONS)
      by (cbn; tauto).
    split; [| split].
    + now apply (get_session_name_slot ev 3 "FP3").
    + apply (get_session_name_held ev "FP3" "FP3" "Practice 3" "session3" Hin);
        [now right | exact H3].
    + apply (get_session_name_held ev "practice 3" "FP3" "Practice 3" "session3" Hin);
        [now left | exact H3].
  - intros s1 s2 s3 s4 s5 H1 H2 H3 H4 H5 Hnd n abbr name full short
           Hn Hname Hin Hfull Hshort.
    assert (Hk : getitem ev (Event.session_key n) = Ok (VStr name)).
    { assert (Hcases : n = 1 \/ n = 2 \/ n = 3 \/ n = 4 \/ n = 5) by lia.
      destruct Hcases as [-> | [-> | [-> | [-> | ->]]]]; cbn in Hname; subst name;
        assumption. }
    assert (Hdate : forall identifier,
               Event.get_session_name ev identifier = Ok (VStr name) ->
               Event.get_session_date ev identifier
                 = getitem ev (Event.session_key n ++ "_date")%string).
    { intros identifier Hid.
      apply (get_session_date_slot ev identifier s1 s2 s3 s4 s5 n); try assumption.
      now rewrite Hname. }
    rewrite (Hdate (VInt n) (get_session_name_slot ev n abbr name Hn Hin Hk)).
    rewrite (Hdate (VStr full)
               (get_session_name_held ev full abbr name _ Hin (or_introl Hfull) Hk)).
    rewrite (Hdate (VStr short)
               (get_session_name_held ev short abbr name _ Hin (or_intror Hshort) Hk)).
    repeat split.
Qed.

Lemma session_identifiers_agree_witness :
  getitem bahrain_2021 "session3" = Ok (VStr "Practice 3") /\
  NoDup ["Practice 1"; "Practice 2"; "Practice 3"; "Qualifying"; "Race"] /\
  Event.get_session_name bahrain_2021 (VStr "practice 3") = Ok (VStr "Practice 3") /\
  Event.get_session_date bahrain_2021 (VStr "QUALIFYING")
    = Event.get_session_date bahrain_2021 (VInt 4) /\
  Event.get_session_date bahrain_2021 (VStr "q")
    = Event.get_session_date bahrain_2021 (VInt 4) /\
  Event.get_session_date bahrain_2021 (VInt 4)
    = Ok (VTimestamp (timestamp 2021 3 27 0 0 0)).
Proof.
  assert (Hnd : NoDup ["Practice 1"; "Practice 2"; "Practice 3"; "Qualifying"; "Race"]).
  { repeat constructor; cbn [In]; intuition discriminate. }
  destruct (session_identifiers_agree bahrain_2021) as [Hname Hdate].
  split; [reflexivity|]. split; [exact Hnd|]. split.
  - exact (proj2 (proj2 (Hname eq_refl))).
  - exact (Hdate _ _ _ _ _ eq_refl eq_refl eq_refl eq_refl eq_refl Hnd
             4 "Q" "Qualifying" "QUALIFYING" "q" ltac:(lia) eq_refl
             ltac:(cbn; tauto) eq_refl eq_refl).
Defined.
(** ** Construction of a schedule *)

Lemma columns_have_schema_names (schema : list (string * dtype)) :
  forall cols, columns_have_schema schema cols = true ->
               map fst cols = map fst schema.
Proof.
  induction schema as [|[c t] schema IH]; intros [|[k vs] cols] H;
    try discriminate; [reflexivity|].
  cbn [columns_have_schema] in H.
  apply andb_prop in H. destruct H as [H Hrest].
  apply andb_prop in H. destruct H as [Hk _].
  apply String.eqb_eq in Hk. subst k.
  cbn [map fst]. now rewrite (IH cols Hrest).
Qed.

Lemma columns_have_schema_app (s1 s2 : list (string * dtype)) :
  forall c1 c2,
    columns_have_schema s1 c1 = true ->
    columns_have_schema s2 c2 = true ->
    columns_have_schema (s1 ++ s2) (c1 ++ c2) = true.
Proof.
  induction s1 as [|[c t] s1 IH]; intros [|[k vs] c1] c2 H1 H2;
    try discriminate; [exact H2|].
  cbn [columns_have_schema app] in *.
  apply andb_prop in H1. destruct H1 as [H1 Hrest].
  rewrite H1. cbn [andb]. now apply IH.
Qed.

Lemma lookup_app_skip {A : Type} (k : string) (pre post : list (string * A)) :
  ~ In k (map fst pre) -> lookup k (pre ++ post) = lookup k post.
Proof.
  induction pre as [|[k' a] pre IH]; intros Hk; [reflexivity|].
  cbn [app lookup]. cbn [map fst In] in Hk.
  destruct (String.eqb_spec k' k) as [-> | _]; [tauto|].
  apply IH. tauto.
Qed.

Lemma setitem_app_skip (k : string) (vs old : list value) (pre post : list column) :
  ~ In k (map fst pre) ->
  setitem k vs (pre ++ (k, old) :: post) = pre ++ (k, vs) :: post.
Proof.
  induction pre as [|[k' a] pre IH]; intros Hk.
  - cbn [app setitem]. now rewrite String.eqb_refl.
  - cbn [app setitem]. cbn [map fst In] in Hk.
    destruct (String.eqb_spec k' k) as [-> | _]; [tauto|].
    rewrite IH; [reflexivity | tauto].
Qed.

Section Construction_facts.

Variable astype : dtype -> list value -> result (list value).

(** What pandas promises of [astype]: the values it returns have the
    requested type, one for each value it was given. *)
Hypothesis astype_dtype :
  forall t vs vs',
    astype t vs = Ok vs' ->
    forallb (has_dtype t) vs' = true /\ List.length vs' = List.length vs.

Lemma apply_dtypes_schema (types : list (string * dtype)) :
  forall (done : list (string * dtype)) (pre post res : list column),
    columns_have_schema done pre = true ->
    map fst post = map fst types ->
    NoDup (map fst done ++ map fst types) ->
    EventSchedule.apply_dtypes astype types (pre ++ post) = Ok res ->
    columns_have_schema (done ++ types) res = true.
Proof.
  induction types as [|[c t] types IH]; intros done pre post res Hpre Hpost Hnd Hres.
  - destruct post; [|discriminate]. cbn in Hres. injection Hres as <-.
    now rewrite !app_nil_r.
  - destruct post as [|[k vs] post]; [discriminate|].
    cbn [map fst] in Hpost. injection Hpost as -> Hpost.
    assert (Hc : ~ In c (map fst pre)).
    { rewrite (columns_have_schema_names _ _ Hpre).
      apply NoDup_remove_2 in Hnd. intros Hin. apply Hnd.
      apply in_or_app. now left. }
    cbn [EventSchedule.apply_dtypes] in Hres.
    unfold getcolumn in Hres. rewrite (lookup_app_skip c pre _ Hc) in Hres.
    cbn [lookup] in Hres. rewrite String.eqb_refl in Hres. cbn [bind] in Hres.
    destruct (astype t vs) as [vs'|e] eqn:Hast; [|discriminate].
    cbn [bind] in Hres. rewrite (setitem_app_skip c vs' vs pre post Hc) in Hres.
    destruct (astype_dtype _ _ _ Hast) as [Hty _].
    change (pre ++ (c, vs') :: post) with (pre ++ [(c, vs')] ++ post) in Hres.
    rewrite app_assoc in Hres.
    change (done ++ (c, t) :: types) with (done ++ [(c, t)] ++ types).
    rewrite app_assoc.
    apply (IH (done ++ [(c, t)]) (pre ++ [(c, vs')]) post res); try assumption.
    + apply columns_have_schema_app; [assumption|].
      cbn [columns_have_schema]. now rewrite String.eqb_refl, Hty.
    + rewrite map_app. cbn [map fst]. rewrite <- app_assoc. exact Hnd.
Qed.

Lemma init_schema (data : DataFrame) (y : Z) (schedule : EventSchedule) :
  EventSchedule.__init__ astype data y = Ok schedule ->
  schedule_ok schedule = true.
Proof.
  unfold EventSchedule.__init__, schedule_ok. intros H.
  destruct (EventSchedule.apply_dtypes astype _COLS_TYPES _) as [cols|e] eqn:Hcols;
    [|discriminate].
  cbn [bind] in H. injection H as <-. cbn [columns].
  apply (apply_dtypes_schema _COLS_TYPES [] []
           (EventSchedule.reindex (map fst _COLS_TYPES) data) cols eq_refl);
    [| |exact Hcols].
  - unfold EventSchedule.reindex. rewrite map_map. cbn [fst]. now rewrite map_id.
  - cbn. repeat constructor; cbn [In]; intuition discriminate.
Qed.

End Construction_facts.

Lemma forallb_select {A : Type} (f : A -> bool) (mask : list bool) :
  forall xs, forallb f xs = true -> forallb f (select mask xs) = true.
Proof.
  induction mask as [|b mask IH]; intros [|x xs] H; try reflexivity.
  cbn [forallb] in H. apply andb_prop in H. destruct H as [Hx Hxs].
  cbn [select]. destruct b; cbn [forallb]; [rewrite Hx|]; now apply IH.
Qed.

Lemma getitem_mask_schema (schema : list (string * dtype)) (mask : list bool) :
  forall cols,
    columns_have_schema schema cols = true ->
    columns_have_schema schema (map (fun c => (fst c, select mask (snd c))) cols) = true.
Proof.
  induction schema as [|[c t] schema IH]; intros [|[k vs] cols] H;
    try discriminate; [reflexivity|].
  cbn [columns_have_schema map fst snd] in *.
  apply andb_prop in H. destruct H as [H Hrest].
  apply andb_prop in H. destruct H as [Hk Hvs].
  rewrite Hk, (forallb_select _ mask vs Hvs). now apply IH.
Qed.

(** C7. A constructed schedule, and a schedule filtered by a mask from it,
    has the eighteen columns of the schema, in this order and no others, and
    every value of a column has the column's declared type. *)
Theorem schedule_columns_and_types :
  forall (astype : dtype -> list value -> result (list value)),
    (forall t vs vs',
        astype t vs = Ok vs' ->
        forallb (has_dtype t) vs' = true /\ List.length vs' = List.length vs) ->
    forall (data : DataFrame) (y : Z) (schedule : EventSchedule),
      EventSchedule.__init__ astype data y = Ok schedule ->
      forall s : EventSchedule,
        s = schedule \/ (exists mask, s = EventSchedule.getitem_mask schedule mask) ->
        map fst (columns s) =
          [ "round_number"; "country"; "location"; "official_event_name";
            "event_date"; "event_name"; "event_format";
            "session1"; "session1_date"; "session2"; "session2_date";
            "session3"; "session3_date"; "session4"; "session4_date";
            "session5"; "session5_date"; "f1_api_support" ] /\
        Forall2 (fun (ct : string * dtype) (col : column) =>
                   fst col = fst ct /\ Forall (fun v => has_dtype (snd ct) v = true) (snd col))
                _COLS_TYPES (columns s).
Proof.
  intros astype Hast data y schedule Hinit s Hs.
  assert (Hok : schedule_ok s = true).
  { pose proof (init_schema astype Hast data y schedule Hinit) as H0.
    destruct Hs as [-> | [mask ->]]; [exact H0|].
    unfold schedule_ok, EventSchedule.getitem_mask. cbn [columns].
    now apply getitem_mask_schema. }
  unfold schedule_ok in Hok. split.
  - now rewrite (columns_have_schema_names _ _ Hok).
  - revert Hok. generalize (columns s). generalize _COLS_TYPES.
    induction l as [|[c t] l IH]; intros [|[k vs] cols] H; try discriminate;
      [constructor|].
    cbn [columns_have_schema] in H.
    apply andb_prop in H. destruct H as [H Hrest].
    apply andb_prop in H. destruct H as [Hk Hvs].
    apply String.eqb_eq in Hk. subst k.
    constructor; [|now apply IH].
    cbn [fst snd]. split; [reflexivity|].
    apply Forall_forall. intros v Hv.
    now apply (proj1 (forallb_forall _ _) Hvs).
Qed.
Lemma astype_values_dtype (t : dtype) :
  forall vs vs',
    astype_values t vs = Ok vs' ->
    forallb (has_dtype t) vs' = true /\ List.length vs' = List.length vs.
Proof.
  unfold astype_values.
  induction vs as [|v vs IH]; intros vs' H.
  - injection H as <-. now split.
  - cbn [mapM] in H.
    destruct (astype_value t v) as [v'|e] eqn:Hv; [|discriminate].
    destruct (mapM (astype_value t) vs) as [vs0|e] eqn:Hvs; [|discriminate].
    cbn [bind] in H. injection H as <-.
    destruct (IH vs0 eq_refl) as [Hty Hlen].
    cbn [forallb List.length]. rewrite Hty, Hlen. split; [|reflexivity].
    rewrite andb_true_r. unfold astype_value in Hv.
    destruct (has_dtype t v) eqn:Htv.
    + now injection Hv as <-.
    + destruct t; try discriminate. now injection Hv as <-.
Qed.

Lemma schedule_columns_and_types_witness :
  exists schedule,
    EventSchedule.__init__ astype_values frame_2021 2021 = Ok schedule /\
    map fst (columns schedule) = map fst _COLS_TYPES.
Proof.
  eexists. split; [reflexivity|].
  exact (proj1 (schedule_columns_and_types astype_values astype_values_dtype
                  frame_2021 2021 _ eq_refl _ (or_introl eq_refl))).
Defined.

(** ** Rows of a schedule and rows of a filtered schedule *)

Lemma map_snd_combine_same {A B : Type} :
  forall (l : list A) (l' : list B),
    List.length l = List.length l' -> map snd (combine l l') = l'.
Proof.
  induction l as [|a l IH]; intros [|b l'] H; try discriminate; [reflexivity|].
  cbn [combine map snd]. f_equal. apply IH. now injection H.
Qed.

Lemma filter_select {A : Type} (f : A -> bool) (l : list A) :
  filter f l = select (map f l) l.
Proof.
  induction l as [|a l IH]; [reflexivity|].
  cbn [filter map select]. now rewrite IH.
Qed.

Lemma select_map {A B : Type} (f : A -> B) (mask : list bool) :
  forall l, select mask (map f l) = map f (select mask l).
Proof.
  induction mask as [|b mask IH]; intros [|a l]; try reflexivity.
  cbn [map select]. destruct b; cbn [map]; now rewrite IH.
Qed.

Lemma select_length {A B : Type} (mask : list bool) :
  forall (l : list A) (l' : list B),
    List.length l = List.length l' ->
    List.length (select mask l) = List.length (select mask l').
Proof.
  induction mask as [|b mask IH]; intros [|a l] [|a' l'] H; try discriminate;
    try reflexivity.
  cbn [select]. injection H as H. destruct b; cbn [List.length];
    now rewrite (IH l l' H).
Qed.

Lemma map_nth_seq {A B : Type} (f : A -> B) (d : A) (l : list A) :
  map (fun i => f (nth i l d)) (seq 0 (List.length l)) = map f l.
Proof.
  induction l as [|a l IH]; [reflexivity|].
  cbn [List.length seq map nth]. f_equal.
  rewrite <- seq_shift, map_map. exact IH.
Qed.

Lemma lookup_row (k : string) (i : nat) (cols : list column) :
  lookup k (row cols i) = option_map (fun vs => nth i vs VNone) (lookup k cols).
Proof.
  induction cols as [|[k' vs] cols IH]; [reflexivity|].
  unfold row in *. cbn [map lookup fst snd].
  destruct (k' =? k)%string; [reflexivity|]. exact IH.
Qed.

Lemma row_succ (cols : list column) (i : nat) :
  row cols (S i) = row (map (fun c => (fst c, tl (snd c))) cols) i.
Proof.
  unfold row. rewrite map_map. apply map_ext. intros [k vs]. cbn [fst snd].
  f_equal. destruct vs; [now destruct i | reflexivity].
Qed.

Lemma rows_shift (cols : list column) (n : nat) :
  map (row cols) (seq 1 n)
  = map (row (map (fun c => (fst c, tl (snd c))) cols)) (seq 0 n).
Proof.
  rewrite <- seq_shift, map_map. apply map_ext. intros i. apply row_succ.
Qed.

Lemma rows_select (mask : list bool) :
  forall cols : list column,
    Forall (fun c => List.length (snd c) = List.length mask) cols ->
    map (row (map (fun c => (fst c, select mask (snd c))) cols))
        (seq 0 (List.length (filter id mask)))
    = select mask (map (row cols) (seq 0 (List.length mask))).
Proof.
  induction mask as [|b mask IH]; intros cols Hlen; [reflexivity|].
  assert (Htl : Forall (fun c => List.length (snd c) = List.length mask)
                       (map (fun c => (fst c, tl (snd c))) cols)).
  { apply Forall_map. eapply Forall_impl; [|exact Hlen].
    intros [k vs] H. cbn [fst snd] in *. destruct vs; [discriminate|].
    now injection H. }
  specialize (IH _ Htl). rewrite map_map in IH. cbn [fst snd] in IH.
  cbn [List.length seq map]. rewrite rows_shift.
  destruct b; cbn [filter id select].
  - cbn [List.length seq map]. f_equal.
    + unfold row. rewrite map_map. apply map_ext_in. intros [k vs] Hin.
      cbn [fst snd]. destruct vs as [|v vs]; [|reflexivity].
      apply (proj1 (Forall_forall _ _) Hlen) in Hin. discriminate Hin.
    + rewrite rows_shift. rewrite <- IH. f_equal. f_equal.
      rewrite !map_map. apply map_ext_in. intros [k vs] Hin. cbn [fst snd].
      destruct vs as [|v vs]; [|reflexivity].
      apply (proj1 (Forall_forall _ _) Hlen) in Hin. discriminate Hin.
  - rewrite <- IH. f_equal. f_equal.
    apply map_ext_in. intros [k vs] Hin. cbn [fst snd].
    destruct vs as [|v vs]; [|reflexivity].
    apply (proj1 (Forall_forall _ _) Hlen) in Hin. discriminate Hin.
Qed.
Lemma select_self (mask : list bool) : select mask mask = filter id mask.
Proof.
  rewrite (filter_select id mask). now rewrite map_id.
Qed.

Lemma lookup_in {A : Type} (k : string) (a : A) (l : list (string * A)) :
  lookup k l = Some a -> In (k, a) l.
Proof.
  induction l as [|[k' a'] l IH]; [discriminate|].
  cbn [lookup]. destruct (String.eqb_spec k' k) as [-> | _].
  - intros H. injection H as <-. now left.
  - intros H. right. now apply IH.
Qed.

Lemma columns_schema_lookup (schema : list (string * dtype)) :
  forall (cols : list column) (c : string) (t : dtype),
    columns_have_schema schema cols = true ->
    lookup c schema = Some t ->
    exists vs, lookup c cols = Some vs /\ forallb (has_dtype t) vs = true.
Proof.
  induction schema as [|[c0 t0] schema IH]; intros cols c t Hc Hl; [discriminate|].
  destruct cols as [|[k vs] cols]; [discriminate|].
  cbn [columns_have_schema] in Hc.
  apply andb_prop in Hc. destruct Hc as [Hc Hrest].
  apply andb_prop in Hc. destruct Hc as [Hk Hv].
  apply String.eqb_eq in Hk. subst k.
  cbn [lookup] in *. destruct (c0 =? c)%string.
  - injection Hl as <-. now exists vs.
  - now apply IH.
Qed.

Lemma is_testing_event_at (s : EventSchedule) (i : nat) (col : list value) :
  lookup "event_format" (columns s) = Some col ->
  is_testing_event (EventSchedule.event_at s i)
  = py_eqb (nth i col VNone) (VStr "testing").
Proof.
  intros H. unfold is_testing_event, Event.is_testing, getitem, EventSchedule.event_at.
  cbn [items]. now rewrite lookup_row, H.
Qed.

(** The testing events are the rows of the schedule filtered by the mask of
    [is_testing]. *)
Lemma testing_events_filtered (s : EventSchedule) :
  schedule_ok s = true ->
  rectangular s = true ->
  exists mask,
    EventSchedule.is_testing s = Ok mask /\
    testing_events s
    = map (EventSchedule.event_at (EventSchedule.getitem_mask s mask))
          (seq 0 (List.length (index (EventSchedule.getitem_mask s mask)))).
Proof.
  intros Hok Hrect.
  destruct (columns_schema_lookup _ _ "event_format" Str Hok eq_refl) as [col [Hcol _]].
  assert (Hlens : Forall (fun c => List.length (snd c) = List.length (index s))
                         (columns s)).
  { apply Forall_forall. intros c Hc. unfold rectangular in Hrect.
    apply (proj1 (forallb_forall _ _) Hrect) in Hc. now apply Nat.eqb_eq in Hc. }
  assert (Hlen : List.length col = List.length (index s)).
  { apply (proj1 (Forall_forall _ _) Hlens ("event_format", col)).
    now apply lookup_in. }
  exists (map (fun v => py_eqb v (VStr "testing")) col).
  split.
  { unfold EventSchedule.is_testing, getcolumn. now rewrite Hcol. }
  set (mask := map (fun v => py_eqb v (VStr "testing")) col).
  assert (Hmask : List.length mask = List.length (index s))
    by (unfold mask; now rewrite length_map).
  unfold testing_events, EventSchedule.iterrows.
  rewrite map_snd_combine_same by (now rewrite length_map, length_seq).
  rewrite filter_select, map_map.
  rewrite (map_ext _ (fun i => py_eqb (nth i col VNone) (VStr "testing")))
    by (intros i; now apply is_testing_event_at).
  rewrite <- Hlen, (map_nth_seq (fun v => py_eqb v (VStr "testing")) VNone col).
  fold mask.
  assert (Hcount : List.length (select mask (index s)) = List.length (filter id mask)).
  { rewrite <- select_self. apply select_length. now symmetry. }
  cbn [EventSchedule.getitem_mask index]. rewrite Hcount.
  unfold EventSchedule.event_at at 1 2. cbn [year columns EventSchedule.getitem_mask].
  rewrite <- (map_map (row (columns s)) (fun r => {| ev_year := year s; items := r |})).
  rewrite <- (map_map (row _) (fun r => {| ev_year := year s; items := r |})).
  rewrite select_map. f_equal.
  rewrite Hlen, <- Hmask. symmetry. apply rows_select.
  now rewrite Hmask.
Qed.

Lemma iloc_nth_error (s : EventSchedule) (i : Z) :
  0 <= i ->
  EventSchedule.iloc s i
  = match nth_error (map (EventSchedule.event_at s) (seq 0 (List.length (index s))))
                    (Z.to_nat i) with
    | Some ev => Ok ev
    | None => Raise IndexError
    end.
Proof.
  intros Hi. unfold EventSchedule.iloc.
  assert (Hneg : (i <? 0) = false) by (apply Z.ltb_ge; lia). rewrite Hneg.
  assert (Hlo : (- Z.of_nat (List.length (index s)) <=? i) = true)
    by (apply Z.leb_le; lia).
  rewrite Hlo. cbn [andb].
  destruct (i <? Z.of_nat (List.length (index s))) eqn:Hlt;
    [apply Z.ltb_lt in Hlt | apply Z.ltb_ge in Hlt].
  - rewrite nth_error_map, nth_error_nth' with (d := 0%nat)
      by (rewrite length_seq; lia).
    cbn [option_map]. rewrite seq_nth by lia. reflexivity.
  - assert (Hnone : nth_error (map (EventSchedule.event_at s)
                                   (seq 0 (List.length (index s)))) (Z.to_nat i) = None).
    { apply nth_error_None. rewrite length_map, length_seq. lia. }
    now rewrite Hnone.
Qed.
(** ** Events by round number and testing events *)

Section Lookup_facts.

Variable astype : dtype -> list value -> result (list value).
Variable matcher_ratio : string -> string -> Z.
Variable now_year : Z.
Variable read_schedule : Z -> result DataFrame.
Variable fetch_season : Z -> result (list ErgastRound).
Variable to_datetime : string -> result datetime.

Local Abbreviation schedule_of :=
  (get_event_schedule astype now_year read_schedule fetch_season to_datetime).

Local Abbreviation testing_event :=
  (get_testing_event astype now_year read_schedule fetch_season to_datetime).

Local Abbreviation event_of :=
  (get_event astype matcher_ratio now_year read_schedule fetch_season to_datetime).

Lemma get_testing_event_nth (year test_number : Z) (schedule : EventSchedule) :
  schedule_of year true false = Ok schedule ->
  schedule_ok schedule = true ->
  rectangular schedule = true ->
  testing_event year test_number
  = if 1 <=? test_number
    then match nth_error (testing_events schedule) (Z.to_nat (test_number - 1)) with
         | Some ev => Ok ev
         | None => Raise (ValueError (Test_event_does_not_exist test_number))
         end
    else Raise (ValueError (Test_event_does_not_exist test_number)).
Proof.
  intros Hs Hok Hrect.
  destruct (testing_events_filtered schedule Hok Hrect) as [mask [Hmask Htests]].
  unfold get_testing_event.
  rewrite Hs. cbn [bind]. rewrite Hmask. cbn [bind].
  destruct (1 <=? test_number) eqn:Hk; [|reflexivity].
  apply Z.leb_le in Hk.
  rewrite iloc_nth_error by lia. rewrite <- Htests.
  now destruct (nth_error (testing_events schedule) (Z.to_nat (test_number - 1))).
Qed.

(** C9. [get_testing_event] counts the testing events of the season from
    1, in table order: it returns the [test_number]-th of them, and raises
    the error of a test event that does not exist when [test_number] is
    below 1 or above their number. *)
Theorem testing_event_by_number :
  forall (year test_number : Z) (schedule : EventSchedule),
    schedule_of year true false = Ok schedule ->
    schedule_ok schedule = true ->
    rectangular schedule = true ->
    (1 <= test_number <= Z.of_nat (List.length (testing_events schedule)) ->
     exists ev,
       nth_error (testing_events schedule) (Z.to_nat (test_number - 1)) = Some ev /\
       testing_event year test_number = Ok ev) /\
    (test_number < 1 \/ Z.of_nat (List.length (testing_events schedule)) < test_number ->
     testing_event year test_number
     = Raise (ValueError (Test_event_does_not_exist test_number))).
Proof.
  intros year test_number schedule Hs Hok Hrect.
  rewrite (get_testing_event_nth year test_number schedule Hs Hok Hrect).
  split.
  - intros Hk.
    assert (H1 : (1 <=? test_number) = true) by (apply Z.leb_le; lia).
    rewrite H1.
    destruct (nth_error (testing_events schedule) (Z.to_nat (test_number - 1)))
      as [ev|] eqn:Hnth.
    + now exists ev.
    + apply nth_error_None in Hnth. lia.
  - intros [Hk | Hk].
    + assert (H1 : (1 <=? test_number) = false) by (apply Z.leb_gt; lia).
      now rewrite H1.
    + destruct (1 <=? test_number); [|reflexivity].
      assert (Hnth : nth_error (testing_events schedule)
                               (Z.to_nat (test_number - 1)) = None)
        by (apply nth_error_None; lia).
      now rewrite Hnth.
Qed.

(** C8. Once the schedule of the year is there, [get_event] with round 0
    raises the error of its own guard, whatever rounds the schedule holds,
    and in no case returns an event; every testing event of the season is
    returned by [get_testing_event] for some number, and
    [get_testing_event] returns testing events only. *)
Theorem round_zero_guard :
  forall (year : Z) (force_ergast : bool),
    (forall schedule,
        schedule_of year false force_ergast = Ok schedule ->
        event_of year (VInt 0) force_ergast
        = Raise (ValueError Cannot_get_testing_event_by_round)) /\
    (forall ev, event_of year (VInt 0) force_ergast <> Ok ev) /\
    (forall schedule,
        schedule_of year true false = Ok schedule ->
        schedule_ok schedule = true ->
        rectangular schedule = true ->
        forall ev,
          In ev (testing_events schedule) <->
          exists test_number, testing_event year test_number = Ok ev).
Proof.
  intros year force_ergast. split; [|split].
  - intros schedule Hs. unfold get_event. now rewrite Hs.
  - intros ev. unfold get_event.
    now destruct (schedule_of year false force_ergast).
  - intros schedule Hs Hok Hrect ev. split.
    + intros Hin. apply In_nth_error in Hin. destruct Hin as [i Hi].
      exists (Z.of_nat i + 1).
      rewrite (get_testing_event_nth year _ schedule Hs Hok Hrect).
      assert (H1 : (1 <=? Z.of_nat i + 1) = true) by (apply Z.leb_le; lia).
      rewrite H1.
      replace (Z.to_nat (Z.of_nat i + 1 - 1)) with i by lia.
      now rewrite Hi.
    + intros [test_number Ht].
      rewrite (get_testing_event_nth year _ schedule Hs Hok Hrect) in Ht.
      destruct (1 <=? test_number); [|discriminate].
      destruct (nth_error (testing_events schedule) (Z.to_nat (test_number - 1)))
        as [ev'|] eqn:Hnth; [|discriminate].
      injection Ht as <-. now apply nth_error_In in Hnth.
Qed.

End Lookup_facts.

Lemma testing_event_by_number_witness :
  exists schedule,
    get_event_schedule astype_values 2021 sample_read_schedule sample_fetch_season
                       sample_to_datetime 2021 true false = Ok schedule /\
    schedule_ok schedule = true /\
    rectangular schedule = true /\
    get_testing_event astype_values 2021 sample_read_schedule sample_fetch_season
                      sample_to_datetime 2021 2
    = Raise (ValueError (Test_event_does_not_exist 2)).
Proof.
  eexists. split; [reflexivity|]. split; [reflexivity|]. split; [reflexivity|].
  apply (proj2 (testing_event_by_number astype_values 2021 sample_read_schedule
                  sample_fetch_season sample_to_datetime 2021 2 _
                  eq_refl eq_refl eq_refl)).
  right. reflexivity.
Defined.

Lemma round_zero_guard_witness :
  exists schedule,
    get_event_schedule astype_values 2021 sample_read_schedule sample_fetch_season
                       sample_to_datetime 2021 false false = Ok schedule /\
    get_event astype_values (fun _ _ => 0) 2021 sample_read_schedule
              sample_fetch_season sample_to_datetime 2021 (VInt 0) false
    = Raise (ValueError Cannot_get_testing_event_by_round).
Proof.
  eexists. split; [reflexivity|].
  apply (proj1 (round_zero_guard astype_values (fun _ _ => 0) 2021
                  sample_read_schedule sample_fetch_season sample_to_datetime
                  2021 false) _ eq_refl).
Defined.
(** ** Events by name *)

(** C5, at the 2021 schedule file and the empty name: [get_event] drops the
    test event, which carries the label 0, and keeps the two rounds under
    the labels 1 and 2; every comparison string scores 0 against the empty
    name, so the loop leaves [index] at 0, and [self.loc[0]] raises
    [KeyError]: no row is returned, whatever the matcher is. *)
Theorem event_by_name_no_row :
  forall matcher_ratio : string -> string -> Z,
    (exists schedule,
        get_event_schedule astype_values 2021 sample_read_schedule
                           sample_fetch_season sample_to_datetime 2021 false false
        = Ok schedule /\
        index schedule = [1; 2] /\
        EventSchedule.best_match matcher_ratio schedule ""
                                 (EventSchedule.iterrows schedule) 0 0 = Ok 0) /\
    get_event astype_values matcher_ratio 2021 sample_read_schedule
              sample_fetch_season sample_to_datetime 2021 (VStr "") false
    = Raise (KeyError (VInt 0)).
Proof.
  intros matcher_ratio. split.
  - eexists. split; [reflexivity|]. split; reflexivity.
  - reflexivity.
Qed.
(** ** The Ergast adapter *)

Section Ergast_facts.

Variable astype : dtype -> list value -> result (list value).
Variable fetch_season : Z -> result (list ErgastRound).
Variable to_datetime : string -> result datetime.

Lemma ergast_round_first (rnd : ErgastRound) :
  ergast_round to_datetime [] rnd
  = (p <- parse_round to_datetime rnd ;; Ok (ergast_columns [p])).
Proof.
  unfold ergast_round, parse_round.
  destruct (int_of_string (rnd_round rnd)) as [n|]; [|reflexivity].
  cbn [bind]. destruct (ergast_date to_datetime rnd) as [date|e]; reflexivity.
Qed.

Lemma ergast_round_next (ps : list parsed_round) (rnd : ErgastRound) :
  ergast_round to_datetime (ergast_columns ps) rnd
  = (p <- parse_round to_datetime rnd ;; Ok (ergast_columns (ps ++ [p]))).
Proof.
  unfold ergast_round, parse_round.
  destruct (int_of_string (rnd_round rnd)) as [n|]; [|reflexivity].
  cbn [bind]. destruct (ergast_date to_datetime rnd) as [date|e]; [|reflexivity].
  cbn [bind]. unfold ergast_columns. rewrite !map_app. reflexivity.
Qed.

Lemma ergast_rounds_next (season : list ErgastRound) :
  forall ps : list parsed_round,
    ergast_rounds to_datetime season (ergast_columns ps)
    = (qs <- mapM (parse_round to_datetime) season ;; Ok (ergast_columns (ps ++ qs))).
Proof.
  induction season as [|rnd season IH]; intros ps.
  - cbn. now rewrite app_nil_r.
  - cbn [ergast_rounds mapM]. rewrite ergast_round_next.
    destruct (parse_round to_datetime rnd) as [p|e]; [|reflexivity].
    cbn [bind]. rewrite IH.
    destruct (mapM (parse_round to_datetime) season) as [qs|e]; [|reflexivity].
    cbn [bind]. now rewrite <- app_assoc.
Qed.

(** The loop of the adapter is a map over the rounds: it builds the columns
    of the parsed rounds, and stops at the first round that fails. *)
Lemma ergast_rounds_columns (season : list ErgastRound) :
  ergast_rounds to_datetime season []
  = (ps <- mapM (parse_round to_datetime) season ;;
     Ok (match ps with
         | [] => []
         | _ => ergast_columns ps
         end)).
Proof.
  destruct season as [|rnd season]; [reflexivity|].
  cbn [ergast_rounds mapM]. rewrite ergast_round_first.
  destruct (parse_round to_datetime rnd) as [p|e]; [|reflexivity].
  cbn [bind]. rewrite ergast_rounds_next.
  now destruct (mapM (parse_round to_datetime) season).
Qed.

End Ergast_facts.

Lemma forallb_map_true {A : Type} (f : A -> value) (t : dtype) (l : list A) :
  (forall a, has_dtype t (f a) = true) -> forallb (has_dtype t) (map f l) = true.
Proof.
  intros H. induction l as [|a l IH]; [reflexivity|].
  cbn [map forallb]. now rewrite H, IH.
Qed.

Lemma datetime_dtype (d : datetime) : has_dtype Datetime64 (value_of_datetime d) = true.
Proof. now destruct d. Qed.

Lemma ergast_typed_columns_schema (ps : list parsed_round) :
  columns_have_schema (removelast (tl _COLS_TYPES)) (ergast_typed_columns ps) = true.
Proof.
  unfold ergast_typed_columns. cbn [_COLS_TYPES tl removelast columns_have_schema].
  rewrite !forallb_map_true
    by (intros; first [reflexivity | apply datetime_dtype]).
  reflexivity.
Qed.

Section Ergast_construction.

Variable astype : dtype -> list value -> result (list value).

(** What pandas promises of [astype]: values that have the requested type
    are returned as they are. *)
Hypothesis astype_same :
  forall t vs, forallb (has_dtype t) vs = true -> astype t vs = Ok vs.

Lemma apply_dtypes_typed (types1 : list (string * dtype)) :
  forall (types2 : list (string * dtype)) (pre post1 post2 : list column),
    columns_have_schema types1 post1 = true ->
    NoDup (map fst pre ++ map fst types1) ->
    EventSchedule.apply_dtypes astype (types1 ++ types2) (pre ++ post1 ++ post2)
    = EventSchedule.apply_dtypes astype types2 ((pre ++ post1) ++ post2).
Proof.
  induction types1 as [|[c t] types1 IH]; intros types2 pre post1 post2 Hs Hnd.
  - destruct post1; [|discriminate]. now rewrite app_nil_r.
  - destruct post1 as [|[k vs] post1]; [discriminate|].
    cbn [columns_have_schema] in Hs.
    apply andb_prop in Hs. destruct Hs as [Hs Hrest].
    apply andb_prop in Hs. destruct Hs as [Hk Hvs].
    apply String.eqb_eq in Hk. subst k.
    assert (Hc : ~ In c (map fst pre)).
    { cbn [map fst] in Hnd. apply NoDup_remove_2 in Hnd. intros Hin. apply Hnd.
      apply in_or_app. now left. }
    cbn [app EventSchedule.apply_dtypes]. unfold getcolumn.
    rewrite (lookup_app_skip c pre _ Hc). cbn [lookup].
    rewrite String.eqb_refl. cbn [bind].
    rewrite (astype_same t vs Hvs). cbn [bind].
    rewrite (setitem_app_skip c vs vs pre _ Hc).
    change (pre ++ (c, vs) :: post1 ++ post2)
      with (pre ++ [(c, vs)] ++ post1 ++ post2).
    rewrite app_assoc, (IH types2 (pre ++ [(c, vs)]) post1 post2 Hrest).
    + now rewrite <- !app_assoc.
    + rewrite map_app. cbn [map fst] in *. now rewrite <- app_assoc.
Qed.


Lemma apply_dtypes_ends (c0 cz : string) (t0 tz : dtype)
      (types1 : list (string * dtype)) (vs0 vsz : list value) (post1 : list column) :
  columns_have_schema types1 post1 = true ->
  NoDup (c0 :: map fst types1 ++ [cz]) ->
  EventSchedule.apply_dtypes astype ((c0, t0) :: types1 ++ [(cz, tz)])
                             ((c0, vs0) :: post1 ++ [(cz, vsz)])
  = (vs0' <- astype t0 vs0 ;;
     vsz' <- astype tz vsz ;;
     Ok ((c0, vs0') :: post1 ++ [(cz, vsz')])).
Proof.
  intros Hs Hnd.
  cbn [EventSchedule.apply_dtypes]. unfold getcolumn at 1.
  cbn [lookup]. rewrite String.eqb_refl. cbn [bind].
  destruct (astype t0 vs0) as [vs0'|e]; [|reflexivity].
  cbn [bind setitem]. rewrite String.eqb_refl.
  assert (Hnd1 : NoDup (map fst [(c0, vs0')] ++ map fst types1)).
  { cbn [map fst app]. rewrite app_comm_cons in Hnd.
    now apply NoDup_app_remove_r in Hnd. }
  change ((c0, vs0') :: post1 ++ [(cz, vsz)])
    with ([(c0, vs0')] ++ post1 ++ [(cz, vsz)]).
  rewrite (apply_dtypes_typed types1 [(cz, tz)] [(c0, vs0')] post1 [(cz, vsz)] Hs Hnd1).
  assert (Hnot : ~ In cz (map fst ([(c0, vs0')] ++ post1))).
  { rewrite map_app, (columns_have_schema_names _ _ Hs). cbn [map fst app].
    rewrite app_comm_cons in Hnd. apply NoDup_remove_2 in Hnd.
    now rewrite app_nil_r in Hnd. }
  cbn [EventSchedule.apply_dtypes]. unfold getcolumn.
  rewrite (lookup_app_skip cz _ _ Hnot). cbn [lookup].
  rewrite String.eqb_refl. cbn [bind].
  destruct (astype tz vsz) as [vsz'|e]; [|reflexivity].
  cbn [bind]. rewrite (setitem_app_skip cz vsz' _ _ [] Hnot).
  cbn [app]. reflexivity.
Qed.

Lemma schema_ends :
  _COLS_TYPES
  = ("round_number", Int64)
      :: removelast (tl _COLS_TYPES) ++ [("f1_api_support", Bool_)].
Proof. reflexivity. Qed.

Lemma reindex_ergast (ps : list parsed_round) :
  EventSchedule.reindex (map fst _COLS_TYPES) (DataFrame_of_dict (ergast_columns ps))
  = ergast_schedule_columns ps
      (map (fun p => VInt (pr_number p)) ps)
      (repeat NaN (List.length ps)).
Proof.
  unfold EventSchedule.reindex, DataFrame_of_dict, ergast_columns.
  cbn [df_index df_columns]. rewrite !length_map, length_seq. reflexivity.
Qed.

Lemma init_ergast (ps : list parsed_round) (y : Z) :
  EventSchedule.__init__ astype (DataFrame_of_dict (ergast_columns ps)) y
  = (round_number <- astype Int64 (map (fun p => VInt (pr_number p)) ps) ;;
     f1_api_support <- astype Bool_ (repeat NaN (List.length ps)) ;;
     Ok {| year := y;
           index := map Z.of_nat (seq 0 (List.length ps));
           columns := ergast_schedule_columns ps round_number f1_api_support |}).
Proof.
  unfold EventSchedule.__init__. rewrite reindex_ergast.
  assert (Hidx : df_index (DataFrame_of_dict (ergast_columns ps))
                 = map Z.of_nat (seq 0 (List.length ps))).
  { unfold DataFrame_of_dict, ergast_columns. cbn [df_index].
    now rewrite length_map. }
  rewrite Hidx. clear Hidx.
  unfold ergast_schedule_columns. rewrite schema_ends at 1.
  rewrite (apply_dtypes_ends "round_number" "f1_api_support" Int64 Bool_ _ _ _ _
             (ergast_typed_columns_schema ps)).
  - destruct (astype Int64 _) as [round_number|e]; [|reflexivity].
    cbn [bind]. now destruct (astype Bool_ _).
  - cbn. repeat constructor; cbn [In]; intuition discriminate.
Qed.

End Ergast_construction.
Lemma reindex_no_columns :
  EventSchedule.reindex (map fst _COLS_TYPES) (DataFrame_of_dict [])
  = EventSchedule.reindex (map fst _COLS_TYPES) (DataFrame_of_dict (ergast_columns [])).
Proof. reflexivity. Qed.

Lemma mapM_length {A B : Type} (f : A -> result B) :
  forall (l : list A) (l' : list B), mapM f l = Ok l' -> List.length l' = List.length l.
Proof.
  induction l as [|a l IH]; intros l' H.
  - injection H as <-. reflexivity.
  - cbn [mapM] in H. destruct (f a) as [b|e]; [|discriminate].
    destruct (mapM f l) as [bs|e]; [|discriminate].
    cbn [bind] in H. injection H as <-. cbn [List.length]. now rewrite (IH bs).
Qed.

Lemma mapM_nth_error {A B : Type} (f : A -> result B) :
  forall (l : list A) (l' : list B) (i : nat) (a : A),
    mapM f l = Ok l' -> nth_error l i = Some a ->
    exists b, nth_error l' i = Some b /\ f a = Ok b.
Proof.
  induction l as [|a0 l IH]; intros l' i a H Hi; [now destruct i|].
  cbn [mapM] in H. destruct (f a0) as [b0|e] eqn:Hb; [|discriminate].
  destruct (mapM f l) as [bs|e]; [|discriminate].
  cbn [bind] in H. injection H as <-.
  destruct i as [|i]; cbn [nth_error] in *.
  - injection Hi as <-. now exists b0.
  - now apply (IH bs i a).
Qed.


Section Ergast_schedule.

Variable astype : dtype -> list value -> result (list value).
Variable fetch_season : Z -> result (list ErgastRound).
Variable to_datetime : string -> result datetime.

Hypothesis astype_same :
  forall t vs, forallb (has_dtype t) vs = true -> astype t vs = Ok vs.

Local Abbreviation schedule_from_ergast :=
  (_get_schedule_from_ergast astype fetch_season to_datetime).

(** The adapter, with its loop written as a map over the rounds and the
    construction of the table reduced to the two columns that are
    converted. *)
Lemma get_schedule_from_ergast_eq (y : Z) :
  schedule_from_ergast y
  = (season <- fetch_season y ;;
     ps <- mapM (parse_round to_datetime) season ;;
     round_number <- astype Int64 (map (fun p => VInt (pr_number p)) ps) ;;
     f1_api_support <- astype Bool_ (repeat NaN (List.length ps)) ;;
     Ok {| year := y;
           index := map Z.of_nat (seq 0 (List.length ps));
           columns := ergast_schedule_columns ps round_number f1_api_support |}).
Proof.
  unfold _get_schedule_from_ergast.
  destruct (fetch_season y) as [season|e]; [|reflexivity].
  cbn [bind]. rewrite ergast_rounds_columns.
  destruct (mapM (parse_round to_datetime) season) as [ps|e]; [|reflexivity].
  cbn [bind]. rewrite <- (init_ergast astype astype_same ps y).
  destruct ps as [|p ps]; [|reflexivity].
  unfold EventSchedule.__init__. now rewrite reindex_no_columns.
Qed.


Lemma nth_map_some {A : Type} (f : A -> value) (l : list A) (i : nat) (a : A) :
  nth_error l i = Some a -> nth i (map f l) VNone = f a.
Proof.
  intros H. apply nth_error_nth. now rewrite nth_error_map, H.
Qed.

Lemma ergast_row_at (ps : list parsed_round) (rn f1 : list value) (i : nat)
      (p : parsed_round) :
  nth_error ps i = Some p ->
  row (ergast_schedule_columns ps rn f1) i
  = ("round_number", nth i rn VNone)
      :: tl (ergast_row p) ++ [("f1_api_support", nth i f1 VNone)].
Proof.
  intros H. unfold row, ergast_schedule_columns, ergast_typed_columns, ergast_row.
  cbn [map fst snd app tl]. rewrite !(nth_map_some _ ps i p H). reflexivity.
Qed.

Lemma parse_round_ok (rnd : ErgastRound) (p : parsed_round) :
  parse_round to_datetime rnd = Ok p ->
  pr_round p = rnd /\
  int_of_string (rnd_round rnd) = Some (pr_number p) /\
  ergast_date to_datetime rnd = Ok (pr_date p).
Proof.
  unfold parse_round.
  destruct (int_of_string (rnd_round rnd)) as [n|]; [|discriminate].
  cbn [bind]. destruct (ergast_date to_datetime rnd) as [date|e]; [|discriminate].
  cbn [bind]. intros H. injection H as <-. now repeat split.
Qed.

Lemma iloc_ergast (y : Z) (ps : list parsed_round) (rn f1 : list value)
      (i : nat) (p : parsed_round) :
  nth_error ps i = Some p ->
  EventSchedule.iloc
    {| year := y;
       index := map Z.of_nat (seq 0 (List.length ps));
       columns := ergast_schedule_columns ps rn f1 |} (Z.of_nat i)
  = Ok {| ev_year := y;
          items := ("round_number", nth i rn VNone)
                     :: tl (ergast_row p) ++ [("f1_api_support", nth i f1 VNone)] |}.
Proof.
  intros Hp. rewrite iloc_nth_error by lia. cbn [index].
  rewrite length_map, length_seq, Nat2Z.id, nth_error_map.
  assert (Hlt : (i < List.length ps)%nat) by (apply nth_error_Some; congruence).
  rewrite (nth_error_nth' _ 0%nat) by (now rewrite length_seq).
  rewrite seq_nth by exact Hlt. cbn [option_map].
  unfold EventSchedule.event_at. cbn [year columns Nat.add].
  now rewrite (ergast_row_at ps rn f1 i p Hp).
Qed.

(** Every round of the season that the adapter has turned into a schedule
    has its row, at the position of the round: the row is made from that
    round alone, but for the two converted cells. *)
Lemma ergast_row_of_round (y : Z) (season : list ErgastRound)
      (schedule : EventSchedule) (i : nat) (rnd : ErgastRound) :
  fetch_season y = Ok season ->
  schedule_from_ergast y = Ok schedule ->
  nth_error season i = Some rnd ->
  exists p rn_cell f1_cell,
    parse_round to_datetime rnd = Ok p /\
    List.length (index schedule) = List.length season /\
    EventSchedule.iloc schedule (Z.of_nat i)
    = Ok {| ev_year := y;
            items := ("round_number", rn_cell)
                       :: tl (ergast_row p) ++ [("f1_api_support", f1_cell)] |}.
Proof.
  intros Hseason Hs Hi. rewrite get_schedule_from_ergast_eq, Hseason in Hs.
  cbn [bind] in Hs.
  destruct (mapM (parse_round to_datetime) season) as [ps|e] eqn:Hps; [|discriminate].
  cbn [bind] in Hs.
  destruct (astype Int64 _) as [rn|e]; [|discriminate]. cbn [bind] in Hs.
  destruct (astype Bool_ _) as [f1|e]; [|discriminate]. cbn [bind] in Hs.
  injection Hs as <-.
  destruct (mapM_nth_error _ _ _ _ _ Hps Hi) as [p [Hp Hparse]].
  exists p, (nth i rn VNone), (nth i f1 VNone).
  split; [exact Hparse|]. cbn [index].
  rewrite length_map, length_seq. split; [now apply mapM_length in Hps|].
  now apply iloc_ergast.
Qed.


Lemma ergast_date_cases (rnd : ErgastRound) :
  ergast_date to_datetime rnd
  = match to_datetime (get_or_empty (rnd_date rnd) ++ "T"
                         ++ get_or_empty (rnd_time rnd))%string with
    | Ok date => Ok date
    | Raise ParserError => Ok None
    | Raise e => Raise e
    end.
Proof. reflexivity. Qed.

(** Ergast rounds, session dates.  In the schedule that the adapter builds,
    the row of a round whose date and time parse to the timestamp [d] has
    the race at [d], the first two practice sessions on the day two days
    before the day of [d], at midnight, and the third practice and the
    qualifying on the day before. *)
Theorem ergast_session_dates :
  forall (y : Z) (season : list ErgastRound) (schedule : EventSchedule)
         (i : nat) (rnd : ErgastRound) (d : Z),
    fetch_season y = Ok season ->
    schedule_from_ergast y = Ok schedule ->
    nth_error season i = Some rnd ->
    to_datetime (get_or_empty (rnd_date rnd) ++ "T"
                   ++ get_or_empty (rnd_time rnd))%string = Ok (Some d) ->
    exists ev,
      EventSchedule.iloc schedule (Z.of_nat i) = Ok ev /\
      getitem ev "event_date" = Ok (VTimestamp d) /\
      getitem ev "session1" = Ok (VStr "Practice 1") /\
      getitem ev "session1_date"
        = Ok (VTimestamp (d - d mod ns_per_day - 2 * ns_per_day)) /\
      getitem ev "session2" = Ok (VStr "Practice 2") /\
      getitem ev "session2_date"
        = Ok (VTimestamp (d - d mod ns_per_day - 2 * ns_per_day)) /\
      getitem ev "session3" = Ok (VStr "Practice 3") /\
      getitem ev "session3_date"
        = Ok (VTimestamp (d - d mod ns_per_day - 1 * ns_per_day)) /\
      getitem ev "session4" = Ok (VStr "Qualifying") /\
      getitem ev "session4_date"
        = Ok (VTimestamp (d - d mod ns_per_day - 1 * ns_per_day)) /\
      getitem ev "session5" = Ok (VStr "Race") /\
      getitem ev "session5_date" = Ok (VTimestamp d).
Proof.
  intros y season schedule i rnd d Hseason Hs Hi Hd.
  destruct (ergast_row_of_round y season schedule i rnd Hseason Hs Hi)
    as (p & rn_cell & f1_cell & Hp & _ & Hrow).
  destruct (parse_round_ok rnd p Hp) as (_ & _ & Hdate).
  rewrite ergast_date_cases, Hd in Hdate. injection Hdate as Hdate.
  eexists. split; [exact Hrow|].
  unfold getitem, ergast_row. cbn [items tl app lookup].
  rewrite <- Hdate. repeat split.
Qed.

(** Ergast rounds, a date that does not parse.  When the parser raises
    [ParserError] for the date of a round, the schedule still has the row
    of that round, with its names and its five sessions, and with [NaT] for
    the event and for every session. *)
Theorem ergast_unparseable_date :
  forall (y : Z) (season : list ErgastRound) (schedule : EventSchedule)
         (i : nat) (rnd : ErgastRound),
    fetch_season y = Ok season ->
    schedule_from_ergast y = Ok schedule ->
    nth_error season i = Some rnd ->
    to_datetime (get_or_empty (rnd_date rnd) ++ "T"
                   ++ get_or_empty (rnd_time rnd))%string = Raise ParserError ->
    exists ev,
      EventSchedule.iloc schedule (Z.of_nat i) = Ok ev /\
      getitem ev "country" = Ok (VStr (rnd_country rnd)) /\
      getitem ev "location" = Ok (VStr (rnd_locality rnd)) /\
      getitem ev "event_name" = Ok (VStr (rnd_raceName rnd)) /\
      getitem ev "event_format" = Ok (VStr "conventional") /\
      getitem ev "event_date" = Ok VNaT /\
      map (fun n => Event.get_session_name ev (VInt n)) [1; 2; 3; 4; 5]
        = map (fun name => Ok (VStr name))
              ["Practice 1"; "Practice 2"; "Practice 3"; "Qualifying"; "Race"] /\
      map (fun n => Event.get_session_date ev (VInt n)) [1; 2; 3; 4; 5]
        = [Ok VNaT; Ok VNaT; Ok VNaT; Ok VNaT; Ok VNaT].
Proof.
  intros y season schedule i rnd Hseason Hs Hi Hd.
  destruct (ergast_row_of_round y season schedule i rnd Hseason Hs Hi)
    as (p & rn_cell & f1_cell & Hp & _ & Hrow).
  destruct (parse_round_ok rnd p Hp) as (Hrnd & _ & Hdate).
  rewrite ergast_date_cases, Hd in Hdate. injection Hdate as Hdate.
  eexists. split; [exact Hrow|].
  unfold ergast_row. rewrite <- Hdate, Hrnd. cbn [tl app].
  repeat split.
Qed.





(** What pandas does with the column that the Ergast data lacks: a column of
    NaN converts to bool. *)
Hypothesis astype_bool_nan :
  forall n, exists vs, astype Bool_ (repeat NaN n) = Ok vs.


End Ergast_schedule.

Lemma astype_values_same (t : dtype) (vs : list value) :
  forallb (has_dtype t) vs = true -> astype_values t vs = Ok vs.
Proof.
  unfold astype_values. induction vs as [|v vs IH]; intros H; [reflexivity|].
  cbn [forallb] in H. apply andb_prop in H. destruct H as [Hv Hvs].
  cbn [mapM]. unfold astype_value at 1. rewrite Hv. cbn [bind].
  now rewrite (IH Hvs).
Qed.


Lemma ergast_session_dates_witness :
  exists schedule ev,
    _get_schedule_from_ergast astype_values sample_fetch_season sample_to_datetime 2021
    = Ok schedule /\
    EventSchedule.iloc schedule 0 = Ok ev /\
    getitem ev "session1_date" = Ok (VTimestamp (timestamp 2021 3 26 0 0 0)) /\
    getitem ev "session2_date" = Ok (VTimestamp (timestamp 2021 3 26 0 0 0)) /\
    getitem ev "session3_date" = Ok (VTimestamp (timestamp 2021 3 27 0 0 0)) /\
    getitem ev "session4_date" = Ok (VTimestamp (timestamp 2021 3 27 0 0 0)) /\
    getitem ev "session5_date" = Ok (VTimestamp (timestamp 2021 3 28 15 0 0)).
Proof.
  destruct (_get_schedule_from_ergast astype_values sample_fetch_season
              sample_to_datetime 2021) as [schedule|e] eqn:Hs.
  2: { vm_compute in Hs. discriminate Hs. }
  destruct (ergast_session_dates astype_values sample_fetch_season sample_to_datetime
              astype_values_same 2021 [bahrain_round; imola_round] schedule 0%nat
              bahrain_round (timestamp 2021 3 28 15 0 0)
              eq_refl Hs eq_refl eq_refl)
    as (ev & Hev & _ & _ & H1 & _ & H2 & _ & H3 & _ & H4 & _ & H5).
  exists schedule, ev. repeat split; assumption.
Defined.

Lemma ergast_unparseable_date_witness :
  exists schedule ev,
    _get_schedule_from_ergast astype_values sample_fetch_season sample_to_datetime 2021
    = Ok schedule /\
    EventSchedule.iloc schedule 1 = Ok ev /\
    getitem ev "event_name" = Ok (VStr "Emilia Romagna Grand Prix") /\
    getitem ev "event_date" = Ok VNaT.
Proof.
  destruct (_get_schedule_from_ergast astype_values sample_fetch_season
              sample_to_datetime 2021) as [schedule|e] eqn:Hs.
  2: { vm_compute in Hs. discriminate Hs. }
  destruct (ergast_unparseable_date astype_values sample_fetch_season sample_to_datetime
              astype_values_same 2021 [bahrain_round; imola_round] schedule 1%nat
              imola_round eq_refl Hs eq_refl eq_refl)
    as (ev & Hev & _ & _ & Hname & _ & Hdate & _).
  exists schedule, ev. repeat split; assumption.
Defined.

(** ** Sessions of an event, further properties *)

(** [Event.get_session] repeats the resolution of [get_session_name]: it
    returns a handle of this event and of the name that [get_session_name]
    returns, and raises what [get_session_name] raises; its own check of the
    name against the values of the event never fails. *)
Theorem get_session_follows_get_session_name :
  forall (ev : Event) (identifier : value),
    Event.get_session ev identifier
    = (name <- Event.get_session_name ev identifier ;;
       Ok {| event := ev; session_name := name |}).
Proof.
  intros ev identifier. unfold Event.get_session.
  destruct (py_float identifier) as [num|e] eqn:Hf.
  - now rewrite (get_session_name_number ev identifier num Hf).
  - destruct e; try (unfold Event.get_session_name; rewrite Hf; reflexivity).
    unfold Event.get_session_name. rewrite Hf.
    destruct identifier as [z|f|s|b|ns| |]; try reflexivity.
    destruct (Event.resolve_session_name s) as [name|e]; [|reflexivity].
    cbn [bind]. destruct (contains (VStr name) (values ev)) eqn:Hc; [|reflexivity].
    cbn [bind]. now rewrite Hc.
Qed.

Lemma contains_str_in (name : string) (arr : list value) :
  contains (VStr name) arr = true <-> In (VStr name) arr.
Proof.
  unfold contains. rewrite existsb_exists. split.
  - intros [v [Hin Heq]].
    destruct v as [z|f|s|b|ns| |]; cbn in Heq; try discriminate Heq.
    apply String.eqb_eq in Heq. now subst s.
  - intros Hin. exists (VStr name). split; [exact Hin | apply String.eqb_refl].
Qed.

Lemma resolve_session_name_ok (s name : string) :
  Event.resolve_session_name s = Ok name <->
  exists abbr, In (abbr, name) _SESSION_TYPE_ABBREVIATIONS /\
               (casefold s = casefold name \/ upper s = abbr).
Proof.
  split.
  - unfold Event.resolve_session_name.
    destruct (find _ _) as [name'|] eqn:Hfind.
    + intros H. injection H as <-. apply find_some in Hfind.
      destruct Hfind as [Hin Heq]. apply String.eqb_eq in Heq.
      apply in_map_iff in Hin. destruct Hin as [[abbr name0] [Hn Hin]].
      cbn [snd] in Hn. subst name0. exists abbr. split; [exact Hin | now left].
    + destruct (lookup (upper s) _SESSION_TYPE_ABBREVIATIONS) as [name'|] eqn:Hl;
        [|discriminate].
      intros H. injection H as <-. apply lookup_in in Hl.
      exists (upper s). split; [exact Hl | now right].
  - intros [abbr [Hin [Hs | Hs]]].
    + apply resolve_full_name; [now apply (names_of_abbreviations abbr)|exact Hs].
    + now apply (resolve_abbreviation s abbr).
Qed.




(** What [get_session_name] returns is a value of the row of the event, and
    never an empty name. *)
Theorem session_name_is_a_value :
  forall (ev : Event) (identifier v : value),
    Event.get_session_name ev identifier = Ok v ->
    In v (values ev) /\ truthy v = true.
Proof.
  intros ev identifier v. unfold Event.get_session_name.
  destruct (py_float identifier) as [num|e].
  - unfold Event.session_by_number.
    destruct (is_integer num); [|discriminate].
    destruct (int_of_float num) as [n|e]; [|discriminate]. cbn [bind].
    destruct (existsb _ _); [|discriminate].
    unfold getitem. destruct (lookup _ (items ev)) as [v'|] eqn:Hl; [|discriminate].
    cbn [bind]. destruct (truthy v') eqn:Ht; [|discriminate].
    intros H. injection H as <-. split; [|exact Ht].
    now apply lookup_in_values with (Event.session_key n).
  - destruct e; try discriminate.
    destruct identifier as [z|f|s|b|ns| |]; try discriminate.
    destruct (Event.resolve_session_name s) as [name|e] eqn:Hr; [|discriminate].
    cbn [bind]. destruct (contains (VStr name) (values ev)) eqn:Hc; [|discriminate].
    intros H. injection H as <-. split; [now apply contains_str_in|].
    apply resolve_session_name_ok in Hr. destruct Hr as [abbr [Hin _]].
    cbn [truthy]. now rewrite (canonical_name_nonempty abbr name Hin).
Qed.

Lemma session_name_is_a_value_witness :
  Event.get_session_name bahrain_2021 (VStr "Q") = Ok (VStr "Qualifying") /\
  In (VStr "Qualifying") (values bahrain_2021).
Proof.
  split; [reflexivity|].
  exact (proj1 (session_name_is_a_value bahrain_2021 (VStr "Q") (VStr "Qualifying")
                  eq_refl)).
Defined.
Lemma session_columns_getitem (ev : Event) (cols : list (string * value)) :
  mapM (fun c => v <- getitem ev c ;; Ok (c, v)) Event.session_columns = Ok cols ->
  exists v1 v2 v3 v4 v5,
    getitem ev "session1" = Ok v1 /\ getitem ev "session2" = Ok v2 /\
    getitem ev "session3" = Ok v3 /\ getitem ev "session4" = Ok v4 /\
    getitem ev "session5" = Ok v5 /\
    cols = [("session1", v1); ("session2", v2); ("session3", v3);
            ("session4", v4); ("session5", v5)].
Proof.
  unfold Event.session_columns. cbn [mapM].
  destruct (getitem ev "session1") as [v1|e]; [|discriminate].
  destruct (getitem ev "session2") as [v2|e]; [|discriminate].
  destruct (getitem ev "session3") as [v3|e]; [|discriminate].
  destruct (getitem ev "session4") as [v4|e]; [|discriminate].
  destruct (getitem ev "session5") as [v5|e]; [|discriminate].
  cbn [bind]. intros H. injection H as <-.
  exists v1, v2, v3, v4, v5. repeat split.
Qed.

(** The date that [get_session_date] returns is the field
    [session{n}_date] of the first of the five slots whose name equals the
    name that [get_session_name] returns for the identifier. *)
Theorem session_date_of_first_slot :
  forall (ev : Event) (identifier d : value),
    Event.get_session_date ev identifier = Ok d ->
    exists (name : value) (n : Z),
      Event.get_session_name ev identifier = Ok name /\
      1 <= n <= 5 /\
      (exists v, getitem ev (Event.session_key n) = Ok v /\ py_eqb v name = true) /\
      (forall m, 1 <= m < n ->
                 exists v, getitem ev (Event.session_key m) = Ok v /\
                           py_eqb v name = false) /\
      getitem ev (Event.session_key n ++ "_date")%string = Ok d.
Proof.
  intros ev identifier d. unfold Event.get_session_date.
  destruct (Event.get_session_name ev identifier) as [name|e]; [|discriminate].
  cbn [bind].
  destruct (mapM _ Event.session_columns) as [cols|e] eqn:Hcols; [|discriminate].
  cbn [bind].
  destruct (session_columns_getitem ev cols Hcols)
    as (v1 & v2 & v3 & v4 & v5 & H1 & H2 & H3 & H4 & H5 & ->).
  cbn [find snd].
  assert (Hslots : forall m, 1 <= m < 6 ->
            m = 1 \/ m = 2 \/ m = 3 \/ m = 4 \/ m = 5) by (intros; lia).
  destruct (py_eqb v1 name) eqn:E1;
    [| destruct (py_eqb v2 name) eqn:E2;
       [| destruct (py_eqb v3 name) eqn:E3;
          [| destruct (py_eqb v4 name) eqn:E4;
             [| destruct (py_eqb v5 name) eqn:E5; [|discriminate]]]]];
    intros Hd; exists name;
    [exists 1 | exists 2 | exists 3 | exists 4 | exists 5];
    (split; [reflexivity|]); (split; [lia|]);
    (split; [eexists; split; [eassumption | assumption]|]);
    (split; [|exact Hd]);
    intros m Hm;
    (assert (Hcases : m = 1 \/ m = 2 \/ m = 3 \/ m = 4) by lia);
    destruct Hcases as [-> | [-> | [-> | ->]]]; try lia;
    eexists; (split; [eassumption | assumption]).
Qed.

Lemma session_date_of_first_slot_witness :
  Event.get_session_date bahrain_2021 (VStr "Q")
    = Ok (VTimestamp (timestamp 2021 3 27 0 0 0)) /\
  exists name n,
    Event.get_session_name bahrain_2021 (VStr "Q") = Ok name /\ 1 <= n <= 5.
Proof.
  split; [reflexivity|].
  destruct (session_date_of_first_slot bahrain_2021 (VStr "Q") _ eq_refl)
    as (name & n & Hname & Hn & _).
  now exists name, n.
Defined.

(** The check of [get_session_date]: when the name that [get_session_name]
    returns stands in none of the five slots, [get_session_date] raises the
    error of a session type that does not exist. *)
Theorem session_date_without_slot :
  forall (ev : Event) (identifier name : value),
    Event.get_session_name ev identifier = Ok name ->
    (forall n, 1 <= n <= 5 ->
               exists v, getitem ev (Event.session_key n) = Ok v /\
                         py_eqb v name = false) ->
    Event.get_session_date ev identifier
    = Raise (ValueError (Session_type_does_not_exist identifier)).
Proof.
  intros ev identifier name Hname Hslots. unfold Event.get_session_date.
  rewrite Hname. cbn [bind]. unfold Event.session_columns. cbn [mapM].
  destruct (Hslots 1 ltac:(lia)) as [v1 [H1 E1]].
  destruct (Hslots 2 ltac:(lia)) as [v2 [H2 E2]].
  destruct (Hslots 3 ltac:(lia)) as [v3 [H3 E3]].
  destruct (Hslots 4 ltac:(lia)) as [v4 [H4 E4]].
  destruct (Hslots 5 ltac:(lia)) as [v5 [H5 E5]].
  change (Event.session_key 1) with "session1" in H1.
  change (Event.session_key 2) with "session2" in H2.
  change (Event.session_key 3) with "session3" in H3.
  change (Event.session_key 4) with "session4" in H4.
  change (Event.session_key 5) with "session5" in H5.
  rewrite H1, H2, H3, H4, H5. cbn [bind find snd].
  now rewrite E1, E2, E3, E4, E5.
Qed.

Lemma session_date_without_slot_witness :
  Event.get_session_name race_named_test (VStr "R") = Ok (VStr "Race") /\
  Event.get_session_date race_named_test (VStr "R")
  = Raise (ValueError (Session_type_does_not_exist (VStr "R"))).
Proof.
  split; [reflexivity|].
  apply (session_date_without_slot race_named_test (VStr "R") (VStr "Race") eq_refl).
  intros n Hn.
  assert (Hcases : n = 1 \/ n = 2 \/ n = 3 \/ n = 4 \/ n = 5) by lia.
  destruct Hcases as [-> | [-> | [-> | [-> | ->]]]]; eexists; split; reflexivity.
Defined.
(** ** Rows of a schedule, further properties *)

Lemma rectangular_forall (s : EventSchedule) :
  rectangular s = true ->
  Forall (fun c => List.length (snd c) = List.length (index s)) (columns s).
Proof.
  intros H. apply Forall_forall. intros c Hc. unfold rectangular in H.
  apply (proj1 (forallb_forall _ _) H) in Hc. now apply Nat.eqb_eq in Hc.
Qed.

Lemma select_filter_length {A : Type} (mask : list bool) (l : list A) :
  List.length mask = List.length l ->
  List.length (select mask l) = List.length (filter id mask).
Proof.
  intros H. rewrite <- select_self. apply select_length. now symmetry.
Qed.

Lemma rows_getitem_mask (s : EventSchedule) (mask : list bool) :
  rectangular s = true ->
  List.length mask = List.length (index s) ->
  map (EventSchedule.event_at (EventSchedule.getitem_mask s mask))
      (seq 0 (List.length (index (EventSchedule.getitem_mask s mask))))
  = select mask (map (EventSchedule.event_at s) (seq 0 (List.length (index s)))).
Proof.
  intros Hrect Hmask. pose proof (rectangular_forall s Hrect) as Hlens.
  cbn [EventSchedule.getitem_mask index].
  rewrite (select_filter_length mask (index s) Hmask).
  unfold EventSchedule.event_at. cbn [year columns EventSchedule.getitem_mask].
  rewrite <- (map_map (row (columns s)) (fun r => {| ev_year := year s; items := r |})).
  rewrite <- (map_map (row _) (fun r => {| ev_year := year s; items := r |})).
  rewrite select_map. f_equal. rewrite <- Hmask. apply rows_select.
  now rewrite Hmask.
Qed.

Lemma column_mask (s : EventSchedule) (c : string) (col : list value)
      (g : value -> bool) :
  rectangular s = true ->
  lookup c (columns s) = Some col ->
  List.length col = List.length (index s) /\
  map (fun ev => match getitem ev c with
                 | Ok v => g v
                 | Raise _ => false
                 end)
      (map (EventSchedule.event_at s) (seq 0 (List.length (index s))))
  = map (fun i => g (nth i col VNone)) (seq 0 (List.length col)).
Proof.
  intros Hrect Hcol.
  assert (Hlen : List.length col = List.length (index s)).
  { apply (proj1 (Forall_forall _ _) (rectangular_forall s Hrect) (c, col)).
    now apply lookup_in. }
  split; [exact Hlen|]. rewrite map_map, Hlen. apply map_ext. intros i.
  unfold getitem, EventSchedule.event_at. cbn [items].
  now rewrite lookup_row, Hcol.
Qed.

Lemma map_snd_iterrows (s : EventSchedule) :
  map snd (EventSchedule.iterrows s)
  = map (EventSchedule.event_at s) (seq 0 (List.length (index s))).
Proof.
  unfold EventSchedule.iterrows. apply map_snd_combine_same.
  now rewrite length_map, length_seq.
Qed.

Lemma is_testing_rows (s : EventSchedule) (col : list value) :
  rectangular s = true ->
  lookup "event_format" (columns s) = Some col ->
  map (fun v => py_eqb v (VStr "testing")) col
  = map is_testing_event (map snd (EventSchedule.iterrows s)).
Proof.
  intros Hrect Hcol.
  destruct (column_mask s "event_format" col (fun v => py_eqb v (VStr "testing"))
              Hrect Hcol) as [_ Hmap].
  rewrite map_snd_iterrows.
  transitivity (map (fun i => py_eqb (nth i col VNone) (VStr "testing"))
                    (seq 0 (List.length col))).
  - symmetry. apply (map_nth_seq (fun v => py_eqb v (VStr "testing")) VNone col).
  - rewrite <- Hmap. apply map_ext. intros ev.
    unfold is_testing_event, Event.is_testing.
    now destruct (getitem ev "event_format").
Qed.

(** The mask of [EventSchedule.is_testing] marks the rows for which
    [Event.is_testing] holds, in table order. *)
Theorem is_testing_mask_of_rows :
  forall (s : EventSchedule) (mask : list bool),
    rectangular s = true ->
    EventSchedule.is_testing s = Ok mask ->
    mask = map is_testing_event (map snd (EventSchedule.iterrows s)).
Proof.
  intros s mask Hrect. unfold EventSchedule.is_testing, getcolumn.
  destruct (lookup "event_format" (columns s)) as [col|] eqn:Hcol; [|discriminate].
  cbn [bind]. intros H. injection H as <-.
  now apply is_testing_rows.
Qed.

Lemma find_head_filter {A : Type} (f : A -> bool) (l : list A) :
  find f l = nth_error (filter f l) 0.
Proof.
  induction l as [|a l IH]; [reflexivity|].
  cbn [find filter]. now destruct (f a).
Qed.

Lemma existsb_find {A : Type} (f : A -> bool) (l : list A) :
  existsb id (map f l) = match find f l with
                         | Some _ => true
                         | None => false
                         end.
Proof.
  induction l as [|a l IH]; [reflexivity|].
  cbn [map existsb find]. unfold id at 1. now destruct (f a).
Qed.

Lemma get_event_by_round_find (s : EventSchedule) (round : value) (col : list value) :
  rectangular s = true ->
  lookup "round_number" (columns s) = Some col ->
  EventSchedule.get_event_by_round s round
  = match find (has_round round) (map snd (EventSchedule.iterrows s)) with
    | Some ev => Ok ev
    | None => Raise (ValueError (Invalid_round round))
    end.
Proof.
  intros Hrect Hcol.
  unfold EventSchedule.get_event_by_round, getcolumn. rewrite Hcol. cbn [bind].
  destruct (column_mask s "round_number" col (fun v => py_eqb v round) Hrect Hcol)
    as [Hlen Hmap].
  rewrite (map_nth_seq (fun v => py_eqb v round) VNone col) in Hmap.
  rewrite map_snd_iterrows. fold (has_round round) in Hmap.
  change (fun ev => match getitem ev "round_number" with
                    | Ok v => py_eqb v round
                    | Raise _ => false
                    end) with (has_round round) in Hmap.
  rewrite <- Hmap, existsb_find.
  rewrite iloc_nth_error by lia.
  rewrite rows_getitem_mask by (rewrite ?length_map, ?length_seq; auto).
  rewrite <- filter_select, <- find_head_filter.
  now destruct (find _ _).
Qed.

(** [get_event_by_round] returns the first row, in table order, whose round
    number equals the round, and raises the error of an invalid round when
    there is none. *)
Theorem event_by_round_first_match :
  forall (s : EventSchedule) (round : value),
    schedule_ok s = true ->
    rectangular s = true ->
    EventSchedule.get_event_by_round s round
    = match find (has_round round) (map snd (EventSchedule.iterrows s)) with
      | Some ev => Ok ev
      | None => Raise (ValueError (Invalid_round round))
      end.
Proof.
  intros s round Hok Hrect.
  destruct (columns_schema_lookup _ _ "round_number" Int64 Hok eq_refl)
    as [col [Hcol _]].
  now apply get_event_by_round_find with col.
Qed.

Lemma event_by_round_first_match_witness :
  EventSchedule.__init__ astype_values frame_2021 2021 = Ok schedule_2021 /\
  schedule_ok schedule_2021 = true /\
  rectangular schedule_2021 = true /\
  EventSchedule.get_event_by_round schedule_2021 (VInt 2)
  = Ok {| ev_year := 2021; items := imola_2021_row |}.
Proof.
  split; [reflexivity|]. split; [reflexivity|]. split; [reflexivity|].
  rewrite (event_by_round_first_match schedule_2021 (VInt 2) eq_refl eq_refl).
  reflexivity.
Defined.

Lemma is_testing_mask_of_rows_witness :
  rectangular schedule_2021 = true /\
  EventSchedule.is_testing schedule_2021 = Ok [true; false; false] /\
  [true; false; false]
  = map is_testing_event (map snd (EventSchedule.iterrows schedule_2021)).
Proof.
  split; [reflexivity|]. split; [reflexivity|].
  exact (is_testing_mask_of_rows schedule_2021 [true; false; false] eq_refl eq_refl).
Defined.
Lemma select_combine {A B : Type} (mask : list bool) :
  forall (l : list A) (l' : list B),
    select mask (combine l l') = combine (select mask l) (select mask l').
Proof.
  induction mask as [|b mask IH]; intros [|a l] [|a' l']; try reflexivity.
  - cbn [combine select]. now destruct b; destruct (select mask l).
  - cbn [combine select]. destruct b; cbn [combine]; now rewrite IH.
Qed.

Lemma getitem_mask_rectangular (s : EventSchedule) (mask : list bool) :
  rectangular s = true ->
  rectangular (EventSchedule.getitem_mask s mask) = true.
Proof.
  intros Hrect. pose proof (rectangular_forall s Hrect) as Hlens.
  unfold rectangular. cbn [EventSchedule.getitem_mask columns index].
  apply forallb_forall. intros c Hc. apply in_map_iff in Hc.
  destruct Hc as [c0 [<- Hc0]]. cbn [snd]. apply Nat.eqb_eq.
  apply select_length. exact (proj1 (Forall_forall _ _) Hlens c0 Hc0).
Qed.

Lemma iterrows_getitem_mask (s : EventSchedule) (mask : list bool) :
  rectangular s = true ->
  List.length mask = List.length (index s) ->
  EventSchedule.iterrows (EventSchedule.getitem_mask s mask)
  = select mask (EventSchedule.iterrows s).
Proof.
  intros Hrect Hmask. unfold EventSchedule.iterrows at 1.
  rewrite (rows_getitem_mask s mask Hrect Hmask).
  unfold EventSchedule.iterrows. now rewrite select_combine.
Qed.

Lemma filter_snd {A B : Type} (f : B -> bool) (l : list (A * B)) :
  map snd (filter (fun ab => f (snd ab)) l) = filter f (map snd l).
Proof.
  induction l as [|[a b] l IH]; [reflexivity|].
  cbn [filter map snd]. destruct (f b); cbn [map snd]; now rewrite IH.
Qed.

Lemma filter_negb_filter {A : Type} (f : A -> bool) (l : list A) :
  filter f (filter (fun a => negb (f a)) l) = [].
Proof.
  induction l as [|a l IH]; [reflexivity|].
  cbn [filter]. destruct (f a) eqn:Ha; cbn [negb filter]; [exact IH|].
  now rewrite Ha.
Qed.

Lemma position_lt (label : Z) :
  forall (idx : list Z) (i : nat),
    position label idx = Some i -> (i < List.length idx)%nat.
Proof.
  induction idx as [|l idx IH]; intros i H; [discriminate|].
  cbn [position] in H. destruct (l =? label).
  - injection H as <-. cbn. lia.
  - destruct (position label idx) as [j|]; [|discriminate].
    injection H as <-. cbn. specialize (IH j eq_refl). lia.
Qed.

Lemma loc_in_rows (s : EventSchedule) (label : Z) (ev : Event) :
  EventSchedule.loc s label = Ok ev ->
  In ev (map snd (EventSchedule.iterrows s)).
Proof.
  unfold EventSchedule.loc.
  destruct (position label (index s)) as [i|] eqn:Hi; [|discriminate].
  intros H. injection H as <-. rewrite map_snd_iterrows.
  apply in_map. apply in_seq. apply position_lt in Hi. lia.
Qed.

Section Schedule_facts.

Variable astype : dtype -> list value -> result (list value).
Variable matcher_ratio : string -> string -> Z.
Variable now_year : Z.
Variable read_schedule : Z -> result DataFrame.
Variable fetch_season : Z -> result (list ErgastRound).
Variable to_datetime : string -> result datetime.

Local Abbreviation schedule_of :=
  (get_event_schedule astype now_year read_schedule fetch_season to_datetime).

Local Abbreviation event_of :=
  (get_event astype matcher_ratio now_year read_schedule fetch_season to_datetime).

Lemma get_event_schedule_without_testing (y : Z) (force_ergast : bool) :
  schedule_of y false force_ergast
  = (s <- schedule_of y true force_ergast ;;
     mask <- EventSchedule.is_testing s ;;
     Ok (EventSchedule.getitem_mask s (map negb mask))).
Proof.
  unfold get_event_schedule.
  match goal with
  | |- bind ?r _ = _ => destruct r
  end; reflexivity.
Qed.

Lemma without_testing_rows :
  forall (y : Z) (force_ergast : bool) (s : EventSchedule),
    schedule_of y true force_ergast = Ok s ->
    schedule_ok s = true ->
    rectangular s = true ->
    exists s',
      schedule_of y false force_ergast = Ok s' /\
      year s' = year s /\
      EventSchedule.iterrows s'
      = filter (fun le => negb (is_testing_event (snd le))) (EventSchedule.iterrows s) /\
      testing_events s' = [] /\
      schedule_ok s' = true /\
      rectangular s' = true.
Proof.
  intros y force_ergast s Hs Hok Hrect.
  destruct (columns_schema_lookup _ _ "event_format" Str Hok eq_refl) as [col [Hcol _]].
  assert (Hmask : EventSchedule.is_testing s
                  = Ok (map (fun v => py_eqb v (VStr "testing")) col)).
  { unfold EventSchedule.is_testing, getcolumn. now rewrite Hcol. }
  pose proof (is_testing_rows s col Hrect Hcol) as Hrows.
  set (mask := map (fun v => py_eqb v (VStr "testing")) col) in *.
  assert (Hlen : List.length (map negb mask) = List.length (index s)).
  { rewrite length_map, Hrows, !length_map. unfold EventSchedule.iterrows.
    rewrite length_combine, length_map, length_seq. lia. }
  assert (Hiter : EventSchedule.iterrows (EventSchedule.getitem_mask s (map negb mask))
                  = filter (fun le => negb (is_testing_event (snd le)))
                           (EventSchedule.iterrows s)).
  { rewrite (iterrows_getitem_mask s _ Hrect Hlen), filter_select. f_equal.
    rewrite Hrows, !map_map. reflexivity. }
  exists (EventSchedule.getitem_mask s (map negb mask)).
  rewrite get_event_schedule_without_testing, Hs. cbn [bind]. rewrite Hmask.
  cbn [bind]. split; [reflexivity|]. split; [reflexivity|].
  split; [exact Hiter|]. split; [|split].
  - unfold testing_events. rewrite Hiter.
    rewrite (filter_snd (fun ev => negb (is_testing_event ev))).
    apply filter_negb_filter.
  - unfold schedule_ok. cbn [EventSchedule.getitem_mask columns].
    now apply getitem_mask_schema.
  - now apply getitem_mask_rectangular.
Qed.


Lemma get_event_row :
  forall (y : Z) (gp : value) (force_ergast : bool) (s : EventSchedule) (ev : Event),
    schedule_of y true force_ergast = Ok s ->
    schedule_ok s = true ->
    rectangular s = true ->
    event_of y gp force_ergast = Ok ev ->
    In ev (map snd (EventSchedule.iterrows s)) /\ is_testing_event ev = false.
Proof.
  intros y gp force_ergast s ev Hs Hok Hrect Hev.
  destruct (without_testing_rows y force_ergast s Hs Hok Hrect)
    as (s' & Hs' & _ & Hiter & _ & Hok' & Hrect').
  destruct (columns_schema_lookup _ _ "round_number" Int64 Hok' eq_refl)
    as [rounds [Hrounds _]].
  assert (Hin : In ev (map snd (EventSchedule.iterrows s'))).
  { unfold get_event in Hev. rewrite Hs' in Hev. cbn [bind] in Hev.
    destruct gp as [z|f|name|b|ns| |];
      try (destruct (py_eqb _ (VInt 0)); [discriminate|];
           rewrite (get_event_by_round_find s' _ rounds Hrect' Hrounds) in Hev;
           destruct (find _ _) as [ev'|] eqn:Hfind; [|discriminate];
           injection Hev as <-; now apply find_some in Hfind).
    unfold EventSchedule.get_event_by_name in Hev.
    destruct (EventSchedule.best_match _ _ _ _ _ _) as [label|e]; [|discriminate].
    cbn [bind] in Hev. now apply loc_in_rows with label. }
  rewrite Hiter in Hin. apply in_map_iff in Hin.
  destruct Hin as [[l ev'] [Hev' Hin]]. cbn [snd] in Hev'. subst ev'.
  apply filter_In in Hin. destruct Hin as [Hin Hnot]. cbn [snd] in Hnot.
  split.
  - apply in_map_iff. now exists (l, ev).
  - now apply negb_true_iff in Hnot.
Qed.


End Schedule_facts.

(** ** Construction of a schedule, further properties *)

Lemma reindex_columns (schema : list (string * dtype)) :
  forall (pre post : list column) (idx : list Z),
    columns_have_schema schema post = true ->
    NoDup (map fst pre ++ map fst schema) ->
    map (fun c => (c, match lookup c (pre ++ post) with
                      | Some vs => vs
                      | None => repeat NaN (List.length idx)
                      end)) (map fst schema)
    = post.
Proof.
  induction schema as [|[c t] schema IH]; intros pre post idx Hs Hnd.
  - now destruct post.
  - destruct post as [|[k vs] post]; [discriminate|].
    cbn [columns_have_schema] in Hs.
    apply andb_prop in Hs. destruct Hs as [Hs Hrest].
    apply andb_prop in Hs. destruct Hs as [Hk _].
    apply String.eqb_eq in Hk. subst k.
    assert (Hc : ~ In c (map fst pre)).
    { cbn [map fst] in Hnd. apply NoDup_remove_2 in Hnd. intros Hin. apply Hnd.
      apply in_or_app. now left. }
    cbn [map fst]. rewrite (lookup_app_skip c pre _ Hc). cbn [lookup].
    rewrite String.eqb_refl. f_equal.
    change (pre ++ (c, vs) :: post) with (pre ++ [(c, vs)] ++ post).
    rewrite app_assoc. apply IH; [exact Hrest|].
    rewrite map_app. cbn [map fst] in *. now rewrite <- app_assoc.
Qed.

Lemma schema_names_nodup : NoDup (map fst _COLS_TYPES).
Proof.
  cbn. repeat constructor; cbn [In]; intuition discriminate.
Qed.

(** Constructing a schedule from the data of a schedule gives that
    schedule again, when [astype] returns values that have the requested
    type as they are: slicing, which pandas routes through the
    constructor, does not change a table. *)
Theorem init_of_schedule :
  forall (astype : dtype -> list value -> result (list value)),
    (forall t vs, forallb (has_dtype t) vs = true -> astype t vs = Ok vs) ->
    forall s : EventSchedule,
      schedule_ok s = true ->
      EventSchedule.__init__ astype
        {| df_index := index s; df_columns := columns s |} (year s)
      = Ok s.
Proof.
  intros astype Hsame [y idx cols] Hok. unfold schedule_ok in Hok.
  cbn [year index columns] in *. unfold EventSchedule.__init__, EventSchedule.reindex.
  cbn [df_index df_columns].
  pose proof (reindex_columns _COLS_TYPES [] cols idx Hok schema_names_nodup) as Hre.
  cbn [app] in Hre. rewrite Hre.
  pose proof (apply_dtypes_typed astype Hsame _COLS_TYPES [] [] cols [] Hok
                schema_names_nodup) as H.
  rewrite !app_nil_r in H. cbn [app] in H. rewrite H. reflexivity.
Qed.

Lemma init_of_schedule_witness :
  schedule_ok schedule_2021 = true /\
  EventSchedule.__init__ astype_values
    {| df_index := index schedule_2021; df_columns := columns schedule_2021 |} 2021
  = Ok schedule_2021.
Proof.
  split; [reflexivity|].
  exact (init_of_schedule astype_values astype_values_same schedule_2021 eq_refl).
Defined.

Lemma setitem_lengths (n : nat) (c : string) (vs : list value) :
  forall cols : list column,
    List.length vs = n ->
    Forall (fun col => List.length (snd col) = n) cols ->
    Forall (fun col => List.length (snd col) = n) (setitem c vs cols).
Proof.
  induction cols as [|[k old] cols IH]; intros Hvs Hcols.
  - now repeat constructor.
  - cbn [setitem]. inversion_clear Hcols as [|? ? Hold Hrest].
    destruct (k =? c)%string; constructor; auto.
Qed.

Section Construction_lengths.

Variable astype : dtype -> list value -> result (list value).

Hypothesis astype_dtype :
  forall t vs vs',
    astype t vs = Ok vs' ->
    forallb (has_dtype t) vs' = true /\ List.length vs' = List.length vs.

Lemma apply_dtypes_lengths (n : nat) (types : list (string * dtype)) :
  forall cols res : list column,
    Forall (fun col => List.length (snd col) = n) cols ->
    EventSchedule.apply_dtypes astype types cols = Ok res ->
    Forall (fun col => List.length (snd col) = n) res.
Proof.
  induction types as [|[c t] types IH]; intros cols res Hcols Hres.
  - injection Hres as <-. exact Hcols.
  - cbn [EventSchedule.apply_dtypes] in Hres. unfold getcolumn in Hres.
    destruct (lookup c cols) as [vs|] eqn:Hl; [|discriminate].
    cbn [bind] in Hres. destruct (astype t vs) as [vs'|e] eqn:Ha; [|discriminate].
    cbn [bind] in Hres. apply (IH (setitem c vs' cols) res); [|exact Hres].
    apply setitem_lengths; [|exact Hcols].
    destruct (astype_dtype _ _ _ Ha) as [_ ->].
    exact (proj1 (Forall_forall _ _) Hcols (c, vs) (lookup_in _ _ _ Hl)).
Qed.

(** A schedule constructed from a data frame with one value per row in
    every column has the schema and one value per row in every column; it
    keeps the row labels of the frame and carries the year. *)
Lemma init_invariant (data : DataFrame) (y : Z) (s : EventSchedule) :
  df_rectangular data = true ->
  EventSchedule.__init__ astype data y = Ok s ->
  schedule_ok s = true /\ rectangular s = true /\
  index s = df_index data /\ year s = y.
Proof.
  intros Hdata Hinit.
  split; [exact (init_schema astype astype_dtype data y s Hinit)|].
  unfold EventSchedule.__init__ in Hinit.
  destruct (EventSchedule.apply_dtypes astype _COLS_TYPES _) as [cols|e] eqn:Hcols;
    [|discriminate].
  cbn [bind] in Hinit. injection Hinit as <-. cbn [index year].
  split; [|split; reflexivity].
  unfold rectangular. cbn [columns index]. apply forallb_forall. intros c Hc.
  apply Nat.eqb_eq. revert c Hc. apply Forall_forall.
  apply (apply_dtypes_lengths (List.length (df_index data)) _ _ cols) in Hcols;
    [exact Hcols|].
  unfold EventSchedule.reindex. apply Forall_map. apply Forall_forall.
  intros c _. cbn [snd].
  destruct (lookup c (df_columns data)) as [vs|] eqn:Hl; [|apply repeat_length].
  apply lookup_in in Hl. unfold df_rectangular in Hdata.
  apply (proj1 (forallb_forall _ _) Hdata) in Hl. now apply Nat.eqb_eq in Hl.
Qed.

End Construction_lengths.
Lemma ergast_frame_rectangular (ps : list parsed_round) :
  df_rectangular (DataFrame_of_dict (match ps with
                                     | [] => []
                                     | _ => ergast_columns ps
                                     end)) = true.
Proof.
  destruct ps as [|p ps]; [reflexivity|].
  unfold df_rectangular, DataFrame_of_dict, ergast_columns.
  cbn [df_index df_columns forallb snd].
  rewrite !length_map, length_seq, Nat.eqb_refl. reflexivity.
Qed.

(** ** The schedule of a season *)

Section Season_facts.

Variable astype : dtype -> list value -> result (list value).
Variable now_year : Z.
Variable read_schedule : Z -> result DataFrame.
Variable fetch_season : Z -> result (list ErgastRound).
Variable to_datetime : string -> result datetime.

Local Abbreviation schedule_of :=
  (get_event_schedule astype now_year read_schedule fetch_season to_datetime).

Local Abbreviation from_ergast :=
  (_get_schedule_from_ergast astype fetch_season to_datetime).

Local Abbreviation from_file := (_get_schedule astype read_schedule).

(** The backends of [get_event_schedule].  With the testing events kept,
    every error that it raises is the error of the Ergast adapter for the
    year: an error of the schedule file is not raised.  Outside the years
    from 2018 to the current one, and when Ergast is forced, the result is
    the one of the Ergast adapter; within them, a schedule that the file
    gives is the result. *)
Theorem schedule_backends :
  forall (y : Z) (force_ergast : bool),
    (forall e,
        get_event_schedule astype now_year read_schedule fetch_season to_datetime
                           y true force_ergast = Raise e ->
        _get_schedule_from_ergast astype fetch_season to_datetime y = Raise e) /\
    (y < 2018 \/ now_year < y \/ force_ergast = true ->
     schedule_of y true force_ergast = from_ergast y) /\
    (2018 <= y <= now_year -> force_ergast = false ->
     forall s, from_file y = Ok s -> schedule_of y true force_ergast = Ok s).
Proof.
  intros y force_ergast. unfold get_event_schedule. cbn [negb].
  destruct ((2018 <=? y) && (y <? now_year + 1)) eqn:Hrange; cbn [negb orb].
  - apply andb_prop in Hrange. destruct Hrange as [H1 H2].
    apply Z.leb_le in H1. apply Z.ltb_lt in H2.
    destruct force_ergast; cbn [orb].
    + split; [|split].
      * intros e. now destruct (from_ergast y).
      * intros _. now destruct (from_ergast y).
      * discriminate.
    + split; [|split].
      * intros e. destruct (from_file y); [discriminate|].
        now destruct (from_ergast y).
      * intros [H | [H | H]]; [lia | lia | discriminate].
      * intros _ _ s Hs. now rewrite Hs.
  - assert (Hout : y < 2018 \/ now_year < y).
    { apply andb_false_iff in Hrange. destruct Hrange as [H | H];
        [apply Z.leb_gt in H | apply Z.ltb_ge in H]; lia. }
    split; [|split].
    + intros e. now destruct (from_ergast y).
    + intros _. now destruct (from_ergast y).
    + intros Hin. lia.
Qed.

(** What pandas promises of [astype], and of the frames that it reads. *)
Hypothesis astype_dtype :
  forall t vs vs',
    astype t vs = Ok vs' ->
    forallb (has_dtype t) vs' = true /\ List.length vs' = List.length vs.

Hypothesis read_rectangular :
  forall y data, read_schedule y = Ok data -> df_rectangular data = true.

Lemma from_ergast_invariant (y : Z) (s : EventSchedule) :
  from_ergast y = Ok s ->
  schedule_ok s = true /\ rectangular s = true /\ year s = y.
Proof.
  unfold _get_schedule_from_ergast.
  destruct (fetch_season y) as [season|e]; [|discriminate]. cbn [bind].
  rewrite ergast_rounds_columns.
  destruct (mapM (parse_round to_datetime) season) as [ps|e]; [|discriminate].
  cbn [bind]. intros Hinit.
  destruct (init_invariant astype astype_dtype _ y s (ergast_frame_rectangular ps) Hinit)
    as (Hok & Hrect & _ & Hy).
  now repeat split.
Qed.

Lemma from_file_invariant (y : Z) (s : EventSchedule) :
  from_file y = Ok s ->
  schedule_ok s = true /\ rectangular s = true /\ year s = y.
Proof.
  unfold _get_schedule.
  destruct (read_schedule y) as [data|e] eqn:Hread; [|discriminate]. cbn [bind].
  intros Hinit.
  destruct (init_invariant astype astype_dtype data y s (read_rectangular y data Hread)
              Hinit) as (Hok & Hrect & _ & Hy).
  now repeat split.
Qed.

Lemma schedule_with_testing_invariant (y : Z) (force_ergast : bool) (s : EventSchedule) :
  schedule_of y true force_ergast = Ok s ->
  year s = y /\ schedule_ok s = true /\ rectangular s = true.
Proof.
  unfold get_event_schedule. cbn [negb].
  destruct (negb _ || force_ergast).
  - destruct (from_ergast y) as [s1|e] eqn:H1; [|discriminate].
    cbn [bind]. intros H. injection H as <-.
    destruct (from_ergast_invariant y s1 H1) as (? & ? & ?). now repeat split.
  - destruct (from_file y) as [s1|e] eqn:H1.
    + cbn [bind]. intros H. injection H as <-.
      destruct (from_file_invariant y s1 H1) as (? & ? & ?). now repeat split.
    + destruct (from_ergast y) as [s1|e'] eqn:H2; [|discriminate].
      cbn [bind]. intros H. injection H as <-.
      destruct (from_ergast_invariant y s1 H2) as (? & ? & ?). now repeat split.
Qed.

(** Every schedule that [get_event_schedule] returns is of the requested
    year, has the eighteen columns of the schema with values of their
    types, and has one value for each row in every column; without the
    testing events, it has no testing event. *)
Theorem schedule_invariant :
  forall (y : Z) (include_testing force_ergast : bool) (s : EventSchedule),
    schedule_of y include_testing force_ergast = Ok s ->
    year s = y /\ schedule_ok s = true /\ rectangular s = true /\
    (include_testing = false -> testing_events s = []).
Proof.
  intros y include_testing force_ergast s Hs.
  destruct include_testing.
  - destruct (schedule_with_testing_invariant y force_ergast s Hs) as (Hy & Hok & Hrect).
    repeat split; try assumption. discriminate.
  - rewrite get_event_schedule_without_testing in Hs.
    destruct (schedule_of y true force_ergast) as [s0|e] eqn:Hs0; [|discriminate].
    destruct (schedule_with_testing_invariant y force_ergast s0 Hs0)
      as (Hy & Hok & Hrect).
    destruct (without_testing_rows astype now_year read_schedule fetch_season
                to_datetime y force_ergast s0 Hs0 Hok Hrect)
      as (s' & Hs' & Hy' & _ & Htests & Hok' & Hrect').
    rewrite get_event_schedule_without_testing, Hs0 in Hs'.
    rewrite Hs' in Hs. injection Hs as <-.
    split; [congruence|]. split; [assumption|]. split; [assumption|].
    intros _. assumption.
Qed.

End Season_facts.

Lemma astype_values_lengths (t : dtype) (vs vs' : list value) :
  astype_values t vs = Ok vs' ->
  forallb (has_dtype t) vs' = true /\ List.length vs' = List.length vs.
Proof. apply astype_values_dtype. Qed.

Lemma sample_read_rectangular (y : Z) (data : DataFrame) :
  sample_read_schedule y = Ok data -> df_rectangular data = true.
Proof.
  unfold sample_read_schedule. destruct (y =? 2021); [|discriminate].
  intros H. injection H as <-. reflexivity.
Qed.

Lemma schedule_invariant_witness :
  get_event_schedule astype_values 2021 sample_read_schedule sample_fetch_season
                     sample_to_datetime 2021 true false = Ok schedule_2021 /\
  schedule_ok schedule_2021 = true /\ rectangular schedule_2021 = true.
Proof.
  split; [reflexivity|].
  destruct (schedule_invariant astype_values 2021 sample_read_schedule
              sample_fetch_season sample_to_datetime astype_values_dtype
              sample_read_rectangular 2021 true false schedule_2021 eq_refl)
    as (_ & Hok & Hrect & _).
  now split.
Defined.

Lemma schedule_backends_witness :
  get_event_schedule astype_values 2021 sample_read_schedule sample_fetch_season
                     sample_to_datetime 2017 true false
  = _get_schedule_from_ergast astype_values sample_fetch_season sample_to_datetime 2017.
Proof.
  apply (proj1 (proj2 (schedule_backends astype_values 2021 sample_read_schedule
                         sample_fetch_season sample_to_datetime 2017 false))).
  left. reflexivity.
Defined.
(** ** Events by name, further properties *)

Section Best_match.

Variable matcher_ratio : string -> string -> Z.
Variable self : EventSchedule.
Variable name : string.

Local Abbreviation score := (match_score matcher_ratio self name).
Local Abbreviation best := (EventSchedule.best_match matcher_ratio self name).

Lemma best_match_cons (i : Z) (ev : Event) (rows : list (Z * Event))
      (max_ratio index : Z) :
  best ((i, ev) :: rows) max_ratio index
  = (ratio <- score ev ;;
     if max_ratio <? ratio then best rows ratio i else best rows max_ratio index).
Proof.
  cbn [EventSchedule.best_match]. unfold match_score.
  now destruct (EventSchedule._matcher_strings self ev).
Qed.

(** The loop of [get_event_by_name]: either no row scores above the
    starting ratio and the starting index is kept, or the index is the
    label of the first row with the greatest score. *)
Lemma best_match_first_greatest (rows : list (Z * Event)) :
  forall (max_ratio index i : Z),
    best rows max_ratio index = Ok i ->
    (i = index /\
     forall l ev z, In (l, ev) rows -> score ev = Ok z -> z <= max_ratio) \/
    (exists pre ev post z,
        rows = pre ++ (i, ev) :: post /\
        score ev = Ok z /\ max_ratio < z /\
        (forall l' ev' z', In (l', ev') pre -> score ev' = Ok z' -> z' < z) /\
        (forall l' ev' z', In (l', ev') post -> score ev' = Ok z' -> z' <= z)).
Proof.
  induction rows as [|[l ev] rows IH]; intros max_ratio index i H.
  - injection H as <-. left. split; [reflexivity|]. intros l ev z [].
  - rewrite best_match_cons in H.
    destruct (score ev) as [z|e] eqn:Hz; [|discriminate]. cbn [bind] in H.
    destruct (max_ratio <? z) eqn:Hlt;
      [apply Z.ltb_lt in Hlt | apply Z.ltb_ge in Hlt];
      destruct (IH _ _ _ H) as [[-> Hall] | (pre & ev' & post & z' & -> & Hz' & Hgt & Hpre & Hpost)].
    + right. exists [], ev, rows, z. repeat split; try assumption.
      intros l' ev' z' [].
    + right. exists ((l, ev) :: pre), ev', post, z'.
      repeat split; try assumption; [lia|].
      intros l0 ev0 z0 [Heq | Hin] Hz0.
      * injection Heq as <- <-. rewrite Hz in Hz0. injection Hz0 as <-. exact Hgt.
      * now apply (Hpre l0 ev0).
    + left. split; [reflexivity|]. intros l0 ev0 z0 [Heq | Hin] Hz0.
      * injection Heq as <- <-. rewrite Hz in Hz0. injection Hz0 as <-. exact Hlt.
      * now apply (Hall l0 ev0).
    + right. exists ((l, ev) :: pre), ev', post, z'.
      repeat split; try assumption.
      intros l0 ev0 z0 [Heq | Hin] Hz0.
      * injection Heq as <- <-. rewrite Hz in Hz0. injection Hz0 as <-. lia.
      * now apply (Hpre l0 ev0).
Qed.

End Best_match.

Lemma position_nth (label : Z) :
  forall (idx : list Z) (k : nat),
    position label idx = Some k -> nth_error idx k = Some label.
Proof.
  induction idx as [|l idx IH]; intros k H; [discriminate|].
  cbn [position] in H. destruct (Z.eqb_spec l label) as [-> | _].
  - now injection H as <-.
  - destruct (position label idx) as [j|]; [|discriminate].
    injection H as <-. now apply IH.
Qed.

Lemma position_some (label : Z) :
  forall idx : list Z, In label idx -> exists k, position label idx = Some k.
Proof.
  induction idx as [|l idx IH]; intros Hin; [destruct Hin|].
  cbn [position]. destruct (Z.eqb_spec l label) as [-> | Hne]; [now exists 0%nat|].
  destruct Hin as [-> | Hin]; [now elim Hne|].
  destruct (IH Hin) as [k ->]. now exists (S k).
Qed.

Lemma nth_error_combine {A B : Type} :
  forall (l : list A) (l' : list B) (k : nat) (a : A) (b : B),
    nth_error (combine l l') k = Some (a, b) ->
    nth_error l k = Some a /\ nth_error l' k = Some b.
Proof.
  induction l as [|a0 l IH]; intros [|b0 l'] k a b H;
    try (destruct k; discriminate).
  destruct k as [|k]; cbn [combine nth_error] in *.
  - injection H as <- <-. now split.
  - now apply IH.
Qed.

Lemma iterrows_nth (s : EventSchedule) (l : Z) (ev : Event) :
  In (l, ev) (EventSchedule.iterrows s) ->
  exists k, nth_error (index s) k = Some l /\ ev = EventSchedule.event_at s k.
Proof.
  unfold EventSchedule.iterrows. intros Hin.
  apply In_nth_error in Hin. destruct Hin as [k Hk].
  apply nth_error_combine in Hk. destruct Hk as [Hl Hev].
  exists k. split; [exact Hl|].
  assert (Hlt : (k < List.length (index s))%nat)
    by (apply nth_error_Some; congruence).
  rewrite nth_error_map, (nth_error_nth' _ 0%nat) in Hev
    by (now rewrite length_seq).
  rewrite seq_nth in Hev by exact Hlt. cbn [option_map Nat.add] in Hev.
  now injection Hev.
Qed.

(** [self.loc[label]] of a row of a table with distinct labels is that row. *)
Lemma loc_of_row (s : EventSchedule) (l : Z) (ev : Event) :
  NoDup (index s) ->
  In (l, ev) (EventSchedule.iterrows s) ->
  EventSchedule.loc s l = Ok ev.
Proof.
  intros Hnd Hin. destruct (iterrows_nth s l ev Hin) as [k [Hk ->]].
  unfold EventSchedule.loc.
  destruct (position_some l (index s) (nth_error_In _ _ Hk)) as [k' Hk'].
  rewrite Hk'. pose proof (position_nth l _ _ Hk') as Hn.
  assert (Heq : k' = k).
  { apply (proj1 (NoDup_nth_error (index s)) Hnd).
    - apply nth_error_Some. congruence.
    - congruence. }
  now subst k'.
Qed.

(** The event that [get_event_by_name] returns, in a table with distinct
    labels.  When some row scores above 0, it is the first row, in table
    order, with the greatest score.  Otherwise it is the row labelled 0. *)
Theorem event_by_name_first_greatest :
  forall (matcher_ratio : string -> string -> Z) (s : EventSchedule)
         (name : string) (ev : Event),
    NoDup (index s) ->
    EventSchedule.get_event_by_name matcher_ratio s name = Ok ev ->
    (exists pre l post z,
        EventSchedule.iterrows s = pre ++ (l, ev) :: post /\
        match_score matcher_ratio s name ev = Ok z /\ 0 < z /\
        (forall l' ev' z',
            In (l', ev') pre -> match_score matcher_ratio s name ev' = Ok z' -> z' < z) /\
        (forall l' ev' z',
            In (l', ev') post -> match_score matcher_ratio s name ev' = Ok z' ->
            z' <= z)) \/
    ((forall l' ev' z',
         In (l', ev') (EventSchedule.iterrows s) ->
         match_score matcher_ratio s name ev' = Ok z' -> z' <= 0) /\
     EventSchedule.loc s 0 = Ok ev).
Proof.
  intros matcher_ratio s name ev Hnd. unfold EventSchedule.get_event_by_name.
  destruct (EventSchedule.best_match matcher_ratio s name _ 0 0) as [i|e] eqn:Hbest;
    [|discriminate].
  cbn [bind]. intros Hloc.
  destruct (best_match_first_greatest matcher_ratio s name _ 0 0 i Hbest)
    as [[-> Hall] | (pre & ev' & post & z & Hrows & Hz & Hgt & Hpre & Hpost)].
  - right. now split.
  - left. exists pre, i, post, z.
    assert (Hev : EventSchedule.loc s i = Ok ev').
    { apply (loc_of_row s i ev' Hnd). rewrite Hrows. apply in_elt. }
    rewrite Hev in Hloc. injection Hloc as <-. now repeat split.
Qed.

Lemma event_by_name_first_greatest_witness :
  NoDup (index schedule_2021) /\
  EventSchedule.get_event_by_name (fun _ _ => 0) schedule_2021 "imola"
  = Ok {| ev_year := 2021; items := imola_2021_row |} /\
  match_score (fun _ _ => 0) schedule_2021 "imola"
              {| ev_year := 2021; items := imola_2021_row |} = Ok 100.
Proof.
  assert (Hnd : NoDup (index schedule_2021)).
  { cbn. repeat constructor; cbn [In]; intuition discriminate. }
  split; [exact Hnd|]. split; [reflexivity|].
  destruct (event_by_name_first_greatest (fun _ _ => 0) schedule_2021 "imola"
              {| ev_year := 2021; items := imola_2021_row |} Hnd eq_refl)
    as [(pre & l & post & z & _ & Hz & _) | [Hall _]].
  - reflexivity.
  - reflexivity.
Defined.
Lemma best_match_none (matcher_ratio : string -> string -> Z) (s : EventSchedule)
      (name : string) (rows : list (Z * Event)) :
  forall max_ratio index : Z,
    (forall l ev, In (l, ev) rows ->
                  exists z, match_score matcher_ratio s name ev = Ok z /\
                            z <= max_ratio) ->
    EventSchedule.best_match matcher_ratio s name rows max_ratio index = Ok index.
Proof.
  induction rows as [|[l ev] rows IH]; intros max_ratio index Hall; [reflexivity|].
  rewrite best_match_cons.
  destruct (Hall l ev (or_introl eq_refl)) as [z [Hz Hle]].
  rewrite Hz. cbn [bind].
  assert (Hlt : (max_ratio <? z) = false) by (apply Z.ltb_ge; lia).
  rewrite Hlt. apply IH. intros l' ev' Hin. apply (Hall l' ev'). now right.
Qed.

Lemma position_none (label : Z) (idx : list Z) :
  ~ In label idx -> position label idx = None.
Proof.
  induction idx as [|l idx IH]; intros Hnot; [reflexivity|].
  cbn [position]. destruct (Z.eqb_spec l label) as [-> | _].
  - elim Hnot. now left.
  - rewrite IH; [reflexivity|]. intros Hin. apply Hnot. now right.
Qed.

(** [get_event_by_name] when no row scores above 0, an empty table
    included: the result is [self.loc[0]], the row labelled 0, and it is a
    [KeyError] when no row carries the label 0. *)
Theorem event_by_name_no_match :
  forall (matcher_ratio : string -> string -> Z) (s : EventSchedule) (name : string),
    (forall l ev, In (l, ev) (EventSchedule.iterrows s) ->
                  exists z, match_score matcher_ratio s name ev = Ok z /\ z <= 0) ->
    EventSchedule.get_event_by_name matcher_ratio s name = EventSchedule.loc s 0 /\
    (~ In 0 (index s) ->
     EventSchedule.get_event_by_name matcher_ratio s name = Raise (KeyError (VInt 0))).
Proof.
  intros matcher_ratio s name Hall. unfold EventSchedule.get_event_by_name.
  rewrite (best_match_none matcher_ratio s name _ 0 0 Hall). cbn [bind].
  split; [reflexivity|]. intros Hnot. unfold EventSchedule.loc.
  now rewrite (position_none 0 (index s) Hnot).
Qed.

Lemma event_by_name_no_match_witness :
  index (EventSchedule.getitem_mask schedule_2021 [false; true; true]) = [1; 2] /\
  EventSchedule.get_event_by_name
    (fun _ _ => 0) (EventSchedule.getitem_mask schedule_2021 [false; true; true]) ""
  = Raise (KeyError (VInt 0)).
Proof.
  split; [reflexivity|].
  apply (event_by_name_no_match
           (fun _ _ => 0) (EventSchedule.getitem_mask schedule_2021 [false; true; true]) "").
  - intros l ev Hin. cbn in Hin.
    destruct Hin as [Heq | [Heq | []]]; injection Heq as <- <-;
      exists 0; split; [reflexivity | lia | reflexivity | lia].
  - cbn. intuition discriminate.
Defined.

(** ** Practice sessions by number *)

Lemma str_of_Z_inj (a b : Z) : str_of_Z a = str_of_Z b -> a = b.
Proof.
  unfold str_of_Z. intros H.
  assert (Hnn : forall z, Z.to_int z <> Decimal.Pos Decimal.Nil /\
                          Z.to_int z <> Decimal.Neg Decimal.Nil).
  { intros [|p|p]; cbn; split; try discriminate;
      intros Heq; injection Heq as Heq;
      now apply DecimalPos.Unsigned.to_uint_nonnil in Heq. }
  assert (Hi : Some (Z.to_int a) = Some (Z.to_int b)).
  { rewrite <- (NilZero.isi (Z.to_int a)) by apply Hnn.
    rewrite <- (NilZero.isi (Z.to_int b)) by apply Hnn.
    now rewrite H. }
  injection Hi as Hi.
  rewrite <- (DecimalZ.of_to a), <- (DecimalZ.of_to b). now rewrite Hi.
Qed.

Lemma upper_string_of_uint (d : Decimal.uint) :
  upper (NilEmpty.string_of_uint d) = NilEmpty.string_of_uint d.
Proof.
  unfold upper. induction d; cbn [NilEmpty.string_of_uint map_string];
    try rewrite IHd; reflexivity.
Qed.

Lemma upper_str_of_Z (n : Z) : upper (str_of_Z n) = str_of_Z n.
Proof.
  unfold str_of_Z, NilZero.string_of_int, NilZero.string_of_uint.
  destruct (Z.to_int n) as [d|d]; destruct d; try reflexivity;
    try apply upper_string_of_uint;
    unfold upper; cbn [map_string]; f_equal;
    apply (upper_string_of_uint (_ d)).
Qed.

Lemma resolve_practice_other (n : Z) :
  n < 1 \/ 3 < n ->
  Event.resolve_session_name ("FP" ++ str_of_Z n)%string
  = Raise (ValueError (Invalid_session_type (VStr ("FP" ++ str_of_Z n)%string))).
Proof.
  intros Hn. unfold Event.resolve_session_name.
  assert (Hne : forall k, 1 <= k <= 3 -> (str_of_Z k =? str_of_Z n)%string = false).
  { intros k Hk. apply String.eqb_neq. intros Heq. apply str_of_Z_inj in Heq. lia. }
  assert (Hfind : find (fun name => (casefold ("FP" ++ str_of_Z n) =? casefold name)%string)
                       (map snd _SESSION_TYPE_ABBREVIATIONS) = None).
  { apply find_all_false. intros x Hx. session_name_cases Hx; reflexivity. }
  rewrite Hfind.
  assert (Hup : upper ("FP" ++ str_of_Z n) = ("FP" ++ str_of_Z n)%string).
  { unfold upper. cbn [String.append map_string]. fold (upper (str_of_Z n)).
    now rewrite upper_str_of_Z. }
  rewrite Hup. cbn [lookup _SESSION_TYPE_ABBREVIATIONS].
  set (d := str_of_Z n) in *.
  assert (ER : ("R" =? "FP" ++ d)%string = false) by reflexivity.
  assert (EQ : ("Q" =? "FP" ++ d)%string = false) by reflexivity.
  assert (ES : ("SQ" =? "FP" ++ d)%string = false) by reflexivity.
  assert (E1 : ("FP1" =? "FP" ++ d)%string = (str_of_Z 1 =? d)%string) by reflexivity.
  assert (E2 : ("FP2" =? "FP" ++ d)%string = (str_of_Z 2 =? d)%string) by reflexivity.
  assert (E3 : ("FP3" =? "FP" ++ d)%string = (str_of_Z 3 =? d)%string) by reflexivity.
  rewrite ER, EQ, ES, E1, E2, E3.
  now rewrite !Hne by lia.
Qed.

Lemma get_session_string (ev : Event) (s name : string) :
  float_of_string s = None ->
  Event.resolve_session_name s = Ok name ->
  Event.get_session ev (VStr s)
  = if contains (VStr name) (values ev)
    then Ok {| event := ev; session_name := VStr name |}
    else Raise (ValueError (No_session_of_type (VStr s))).
Proof.
  intros Hf Hr. unfold Event.get_session, py_float. rewrite Hf.
  rewrite (get_session_name_string ev s Hf), Hr. cbn [bind].
  destruct (contains (VStr name) (values ev)) eqn:Hc; cbn [bind].
  - now rewrite Hc.
  - reflexivity.
Qed.

(** [get_practice] of an integer: for 1, 2 and 3 it is the session
    'Practice n' when a value of the row is that name, and otherwise the
    error of no session of that type; for every other integer it raises
    the error of an invalid session type. *)
Theorem practice_by_number :
  forall (ev : Event) (n : Z),
    (1 <= n <= 3 ->
     Event.get_practice ev n
     = if contains (VStr ("Practice " ++ str_of_Z n)%string) (values ev)
       then Ok {| event := ev;
                  session_name := VStr ("Practice " ++ str_of_Z n)%string |}
       else Raise (ValueError
                     (No_session_of_type (VStr ("FP" ++ str_of_Z n)%string)))) /\
    (n < 1 \/ 3 < n ->
     Event.get_practice ev n
     = Raise (ValueError (Invalid_session_type (VStr ("FP" ++ str_of_Z n)%string)))).
Proof.
  intros ev n. split.
  - intros Hn. assert (Hcases : n = 1 \/ n = 2 \/ n = 3) by lia.
    unfold Event.get_practice.
    destruct Hcases as [-> | [-> | ->]];
      apply get_session_string; reflexivity.
  - intros Hn. unfold Event.get_practice, Event.get_session.
    assert (Hf : float_of_string ("FP" ++ str_of_Z n) = None)
      by (apply float_of_string_initial; reflexivity).
    unfold py_float. rewrite Hf.
    rewrite (get_session_name_string ev _ Hf), (resolve_practice_other n Hn).
    reflexivity.
Qed.

Lemma practice_by_number_witness :
  (1 <= 2 <= 3 /\
   Event.get_practice bahrain_2021 2
   = Ok {| event := bahrain_2021; session_name := VStr "Practice 2" |}) /\
  ((4 < 1 \/ 3 < 4) /\
   Event.get_practice bahrain_2021 4
   = Raise (ValueError (Invalid_session_type (VStr "FP4")))).
Proof.
  split; (split; [lia|]).
  - rewrite (proj1 (practice_by_number bahrain_2021 2)) by lia. reflexivity.
  - rewrite (proj2 (practice_by_number bahrain_2021 4)) by lia. reflexivity.
Defined.

(** [get_race], [get_quali] and [get_sprint]: each is the session of its
    full name when some value of the row, of any column, equals that name,
    and otherwise the error of no session of that type, shown with the
    abbreviation. *)
Theorem race_quali_sprint_sessions :
  forall ev : Event,
    Event.get_race ev
    = (if contains (VStr "Race") (values ev)
       then Ok {| event := ev; session_name := VStr "Race" |}
       else Raise (ValueError (No_session_of_type (VStr "R")))) /\
    Event.get_quali ev
    = (if contains (VStr "Qualifying") (values ev)
       then Ok {| event := ev; session_name := VStr "Qualifying" |}
       else Raise (ValueError (No_session_of_type (VStr "Q")))) /\
    Event.get_sprint ev
    = (if contains (VStr "Sprint Qualifying") (values ev)
       then Ok {| event := ev; session_name := VStr "Sprint Qualifying" |}
       else Raise (ValueError (No_session_of_type (VStr "SQ")))).
Proof.
  intros ev. unfold Event.get_race, Event.get_quali, Event.get_sprint.
  repeat split; apply get_session_string; reflexivity.
Qed.

(** ** Events and sessions of a season *)

Lemma session_by_number_ok (ev : Event) (num : spec_float) (name : value) :
  Event.session_by_number ev num = Ok name ->
  exists n, whole_number num n /\ 1 <= n <= 5 /\
            getitem ev (Event.session_key n) = Ok name /\ truthy name = true.
Proof.
  unfold Event.session_by_number, whole_number.
  destruct (is_integer num) eqn:Hi; [|discriminate].
  destruct (int_of_float num) as [n|e] eqn:Hn; [|discriminate]. cbn [bind].
  destruct (existsb (Z.eqb n) [1; 2; 3; 4; 5]) eqn:Hr; [|discriminate].
  apply in_1_5 in Hr.
  destruct (getitem ev (Event.session_key n)) as [v|e] eqn:Hg; [|discriminate].
  cbn [bind]. destruct (truthy v) eqn:Ht; [|discriminate].
  intros H. injection H as <-. exists n. repeat split; auto; lia.
Qed.

Lemma get_session_ok (ev : Event) (identifier : value) (s : Session) :
  Event.get_session ev identifier = Ok s ->
  event s = ev /\ Event.get_session_name ev identifier = Ok (session_name s).
Proof.
  unfold Event.get_session.
  destruct (py_float identifier) as [num|e] eqn:Hf.
  - rewrite (get_session_name_number ev identifier num Hf).
    destruct (Event.session_by_number ev num) as [name|e]; [|discriminate].
    cbn [bind]. intros H. injection H as <-. now split.
  - destruct e; try discriminate.
    destruct (Event.get_session_name ev identifier) as [name|e]; [|discriminate].
    cbn [bind]. destruct (contains name (values ev)); [|discriminate].
    intros H. injection H as <-. now split.
Qed.

Section Season_events.

Variable astype : dtype -> list value -> result (list value).
Variable matcher_ratio : string -> string -> Z.
Variable now_year : Z.
Variable read_schedule : Z -> result DataFrame.
Variable fetch_season : Z -> result (list ErgastRound).
Variable to_datetime : string -> result datetime.

Local Abbreviation schedule_of :=
  (get_event_schedule astype now_year read_schedule fetch_season to_datetime).
Local Abbreviation event_of :=
  (get_event astype matcher_ratio now_year read_schedule fetch_season to_datetime).
Local Abbreviation testing_session :=
  (get_testing_session astype now_year read_schedule fetch_season to_datetime).
Local Abbreviation session_of :=
  (get_session astype matcher_ratio now_year read_schedule fetch_season to_datetime).

(** [get_session] with the keyword [event]: when [event] is given (it is
    not [None]) and the check of the mutually exclusive arguments passes,
    the call ends as the call with [event] as the identifier does, whatever
    the identifier is; unless [gp] is ['testing'], it warns once more, first,
    of the deprecated keyword. *)
Theorem get_session_event_keyword :
  forall (year : Z) (gp identifier event : value) (force_ergast : bool),
    event <> VNone ->
    truthy identifier && truthy event = false ->
    snd (session_of year gp identifier force_ergast event)
    = snd (session_of year gp event force_ergast VNone) /\
    fst (session_of year gp identifier force_ergast event)
    = ((if py_eqb gp (VStr "testing") then [] else [Event_keyword_deprecated])
       ++ fst (session_of year gp event force_ergast VNone))%list.
Proof.
  intros year gp identifier event force_ergast Hev Hex.
  unfold get_session. rewrite Hex.
  replace (truthy event && truthy VNone) with false
    by (now destruct (truthy event)).
  destruct (py_eqb gp (VStr "testing")); [now split|].
  destruct event; try (now contradiction Hev);
    destruct (get_event _ _ _ _ _ _ _ _ _) as [ev|e]; try (now split);
    destruct (Event.get_session ev _); now split.
Qed.

(** What pandas promises of [astype], and of the frames that it reads. *)
Hypothesis astype_dtype :
  forall t vs vs',
    astype t vs = Ok vs' ->
    forallb (has_dtype t) vs' = true /\ List.length vs' = List.length vs.

Hypothesis read_rectangular :
  forall y data, read_schedule y = Ok data -> df_rectangular data = true.

Local Abbreviation with_testing_invariant :=
  (schedule_with_testing_invariant astype now_year read_schedule fetch_season
     to_datetime astype_dtype read_rectangular).

(** [get_event_schedule] without the testing events: whenever the schedule
    with the testing events is there, the one without them is there too, is
    of the same year, and is that schedule less the rows that are testing
    events; the other rows keep their order and their labels. *)
Theorem schedule_without_testing :
  forall (y : Z) (force_ergast : bool) (s : EventSchedule),
    schedule_of y true force_ergast = Ok s ->
    exists s',
      schedule_of y false force_ergast = Ok s' /\
      year s' = year s /\
      EventSchedule.iterrows s'
      = filter (fun le => negb (is_testing_event (snd le))) (EventSchedule.iterrows s).
Proof.
  intros y force_ergast s Hs.
  destruct (with_testing_invariant y force_ergast s Hs) as (_ & Hok & Hrect).
  destruct (without_testing_rows astype now_year read_schedule fetch_season
              to_datetime y force_ergast s Hs Hok Hrect)
    as (s' & Hs' & Hy & Hiter & _).
  exists s'. now repeat split.
Qed.

(** [get_event] returns no testing event: for a name as for a round
    number, the event it returns is a row of the season's schedule that is
    not a testing event. *)
Theorem get_event_not_testing :
  forall (y : Z) (gp : value) (force_ergast : bool) (s : EventSchedule) (ev : Event),
    schedule_of y true force_ergast = Ok s ->
    event_of y gp force_ergast = Ok ev ->
    In ev (map snd (EventSchedule.iterrows s)) /\ is_testing_event ev = false.
Proof.
  intros y gp force_ergast s ev Hs Hev.
  destruct (with_testing_invariant y force_ergast s Hs) as (_ & Hok & Hrect).
  exact (get_event_row astype matcher_ratio now_year read_schedule fetch_season
           to_datetime y gp force_ergast s ev Hs Hok Hrect Hev).
Qed.

(** [get_testing_session] with a session number: a session it returns is
    of the [test_number]-th testing event of the season, counted from 1 in
    table order, and is named by the field [session{n}] of that event,
    which is not empty, with [n] from 1 to 5 the whole number that the
    session number converts to; when there is no such testing event it
    raises the error of the test event, whatever the session number is. *)
Theorem testing_session_by_numbers :
  forall (year test_number : Z) (session_number : value) (num : spec_float)
         (schedule : EventSchedule),
    schedule_of year true false = Ok schedule ->
    py_float session_number = Ok num ->
    (forall s,
        testing_session year test_number session_number = Ok s ->
        1 <= test_number /\
        nth_error (testing_events schedule) (Z.to_nat (test_number - 1))
        = Some (event s) /\
        exists n, whole_number num n /\ 1 <= n <= 5 /\
                  getitem (event s) (Event.session_key n) = Ok (session_name s) /\
                  truthy (session_name s) = true) /\
    (test_number < 1 \/ Z.of_nat (List.length (testing_events schedule)) < test_number ->
     testing_session year test_number session_number
     = Raise (ValueError (Test_event_does_not_exist test_number))).
Proof.
  intros year test_number session_number num schedule Hs Hnum.
  destruct (with_testing_invariant year false schedule Hs) as (_ & Hok & Hrect).
  unfold get_testing_session.
  rewrite (get_testing_event_nth astype now_year read_schedule fetch_season
             to_datetime year test_number schedule Hs Hok Hrect).
  split.
  - intros s. destruct (1 <=? test_number) eqn:Hk; [|discriminate].
    apply Z.leb_le in Hk.
    destruct (nth_error (testing_events schedule) (Z.to_nat (test_number - 1)))
      as [ev|] eqn:Hnth; [|discriminate].
    cbn [bind]. rewrite (get_session_number ev _ _ Hnum).
    destruct (Event.session_by_number ev num) as [name|e] eqn:Hname; [|discriminate].
    cbn [bind]. intros H. injection H as <-. cbn [event session_name].
    split; [exact Hk|]. split; [reflexivity|].
    now apply session_by_number_ok.
  - intros [Hk | Hk].
    + assert (H1 : (1 <=? test_number) = false) by (apply Z.leb_gt; lia).
      now rewrite H1.
    + destruct (1 <=? test_number); [|reflexivity].
      assert (Hnth : nth_error (testing_events schedule)
                               (Z.to_nat (test_number - 1)) = None)
        by (apply nth_error_None; lia).
      now rewrite Hnth.
Qed.

(** [get_session] returns nothing of a testing event: a session it returns
    is of a row of the season's schedule that is not a testing event and has
    the name that [get_session_name] of that event gives for the identifier
    in force ([event] when it is given), and an event it returns, which it
    does only when neither identifier nor [event] is given, is such a row;
    in both cases [gp] is not ['testing']. *)
Theorem get_session_not_testing :
  forall (year : Z) (gp identifier event0 : value) (force_ergast : bool)
         (schedule : EventSchedule),
    schedule_of year true force_ergast = Ok schedule ->
    (forall s,
        snd (session_of year gp identifier force_ergast event0) = Returns_session s ->
        In (event s) (map snd (EventSchedule.iterrows schedule)) /\
        is_testing_event (event s) = false /\
        Event.get_session_name (event s)
          (match event0 with VNone => identifier | _ => event0 end)
        = Ok (session_name s) /\
        py_eqb gp (VStr "testing") = false) /\
    (forall ev,
        snd (session_of year gp identifier force_ergast event0) = Returns_event ev ->
        identifier = VNone /\ event0 = VNone /\
        In ev (map snd (EventSchedule.iterrows schedule)) /\
        is_testing_event ev = false /\
        py_eqb gp (VStr "testing") = false).
Proof.
  intros year gp identifier event0 force_ergast schedule Hs.
  destruct (with_testing_invariant year force_ergast schedule Hs) as (_ & Hok & Hrect).
  pose proof (get_event_row astype matcher_ratio now_year read_schedule fetch_season
                to_datetime year gp force_ergast schedule) as Hrow.
  unfold get_session.
  destruct (truthy identifier && truthy event0); [split; intros ?; discriminate|].
  destruct (py_eqb gp (VStr "testing")); [split; intros ?; discriminate|].
  destruct (get_event _ _ _ _ _ _ _ _ _) as [ev|e].
  2: { split; intros ?; destruct event0; discriminate. }
  destruct (Hrow ev Hs Hok Hrect eq_refl) as [Hin Hnt].
  set (ident := match event0 with VNone => identifier | _ => event0 end).
  split.
  - intros s Hret.
    assert (Hget : Event.get_session ev ident = Ok s).
    { subst ident. destruct event0; [| | | | | |destruct identifier];
        cbv beta iota zeta in Hret;
        try discriminate Hret;
        (destruct (Event.get_session ev _) as [sx|ex];
         cbn [snd] in Hret; [congruence|discriminate]). }
    destruct (get_session_ok ev ident s Hget) as [He Hn]. rewrite He.
    now repeat split.
  - intros ev' Hret.
    destruct event0; [| | | | | |destruct identifier];
      cbv beta iota zeta in Hret;
      try (destruct (Event.get_session ev _) as [sx|ex];
           cbn [snd] in Hret; discriminate Hret).
    cbn [snd] in Hret. injection Hret as <-. now repeat split.
Qed.

End Season_events.

Lemma schedule_without_testing_witness :
  get_event_schedule astype_values 2021 sample_read_schedule sample_fetch_season
                     sample_to_datetime 2021 true false = Ok schedule_2021 /\
  exists s',
    get_event_schedule astype_values 2021 sample_read_schedule sample_fetch_season
                       sample_to_datetime 2021 false false = Ok s' /\
    year s' = year schedule_2021.
Proof.
  split; [reflexivity|].
  destruct (schedule_without_testing astype_values 2021 sample_read_schedule
              sample_fetch_season sample_to_datetime astype_values_dtype
              sample_read_rectangular 2021 false schedule_2021 eq_refl)
    as (s' & Hs' & Hy & _).
  now exists s'.
Defined.

Lemma get_event_not_testing_witness :
  get_event_schedule astype_values 2021 sample_read_schedule sample_fetch_season
                     sample_to_datetime 2021 true false = Ok schedule_2021 /\
  get_event astype_values (fun _ _ => 0) 2021 sample_read_schedule sample_fetch_season
            sample_to_datetime 2021 (VInt 1) false
  = Ok bahrain_2021 /\
  is_testing_event bahrain_2021 = false.
Proof.
  split; [reflexivity|]. split; [reflexivity|].
  exact (proj2 (get_event_not_testing astype_values (fun _ _ => 0) 2021
                  sample_read_schedule sample_fetch_season sample_to_datetime
                  astype_values_dtype sample_read_rectangular
                  2021 (VInt 1) false schedule_2021 bahrain_2021
                  eq_refl eq_refl)).
Defined.

Lemma testing_session_by_numbers_witness :
  get_event_schedule astype_values 2021 sample_read_schedule sample_fetch_season
                     sample_to_datetime 2021 true false = Ok schedule_2021 /\
  py_float (VInt 1) = Ok (float_of_Z 1) /\
  (exists s,
      get_testing_session astype_values 2021 sample_read_schedule sample_fetch_season
                          sample_to_datetime 2021 1 (VInt 1) = Ok s /\
      nth_error (testing_events schedule_2021) 0 = Some (event s)) /\
  get_testing_session astype_values 2021 sample_read_schedule sample_fetch_season
                      sample_to_datetime 2021 2 (VInt 1)
  = Raise (ValueError (Test_event_does_not_exist 2)).
Proof.
  pose proof (testing_session_by_numbers astype_values 2021 sample_read_schedule
                sample_fetch_season sample_to_datetime astype_values_dtype
                sample_read_rectangular 2021) as H.
  split; [reflexivity|]. split; [reflexivity|]. split.
  - destruct (get_testing_session astype_values 2021 sample_read_schedule
                sample_fetch_season sample_to_datetime 2021 1 (VInt 1))
      as [s|e] eqn:Hs.
    2: { vm_compute in Hs. discriminate Hs. }
    exists s. split; [reflexivity|].
    exact (proj1 (proj2 (proj1 (H 1 (VInt 1) (float_of_Z 1) schedule_2021
                                  eq_refl eq_refl) s Hs))).
  - apply (proj2 (H 2 (VInt 1) (float_of_Z 1) schedule_2021 eq_refl eq_refl)).
    right. reflexivity.
Defined.

Lemma get_session_event_keyword_witness :
  VInt 0 <> VNone /\
  truthy (VStr "R") && truthy (VInt 0) = false /\
  snd (get_session astype_values (fun _ _ => 0) 2021 sample_read_schedule
         sample_fetch_season sample_to_datetime 2021 (VInt 1) (VStr "R") false (VInt 0))
  = Raises (ValueError (Invalid_session_type (VInt 0))).
Proof.
  split; [discriminate|]. split; [reflexivity|].
  rewrite (proj1 (get_session_event_keyword astype_values (fun _ _ => 0) 2021
                    sample_read_schedule sample_fetch_season sample_to_datetime
                    2021 (VInt 1) (VStr "R") (VInt 0) false
                    ltac:(discriminate) eq_refl)).
  reflexivity.
Defined.

Lemma get_session_not_testing_witness :
  get_event_schedule astype_values 2021 sample_read_schedule sample_fetch_season
                     sample_to_datetime 2021 true false = Ok schedule_2021 /\
  snd (get_session astype_values (fun _ _ => 0) 2021 sample_read_schedule
         sample_fetch_season sample_to_datetime 2021 (VInt 1) (VStr "Q") false VNone)
  = Returns_session {| event := bahrain_2021; session_name := VStr "Qualifying" |} /\
  is_testing_event bahrain_2021 = false.
Proof.
  split; [reflexivity|]. split; [reflexivity|].
  exact (proj1 (proj2 (proj1 (get_session_not_testing astype_values (fun _ _ => 0)
                                2021 sample_read_schedule sample_fetch_season
                                sample_to_datetime astype_values_dtype
                                sample_read_rectangular 2021 (VInt 1) (VStr "Q") VNone
                                false schedule_2021 eq_refl)
                              {| event := bahrain_2021;
                                 session_name := VStr "Qualifying" |} eq_refl))).
Defined.
